(** * Simple_GAN: the notebook [gan.ipynb] as a Rocq development

  The notebook is a straight-line script of four code cells:
  - cell 1 loads MNIST and normalises it,
  - cell 2 builds the discriminator [D], the generator [G] and the
    composite model [full_gan],
  - cell 3 is the training loop,
  - cell 4 draws nine samples from [G].

  The embedding follows that order.  numpy arrays are a shape and a flat
  buffer; [uint8] values are integers with the wrap-around written out;
  the quotients of cell 1 are exact rationals extended with the IEEE
  special values; the losses and accuracies Keras returns are IEEE
  binary32 values with the rounding arithmetic of [SpecFloat]; Keras
  models are lists of layers with their shape checks; the optimiser, the
  numeric kernels and the random number generator, which the notebook
  only calls, are the fields of a record the script is parametrised by.

  All definitions come first (numpy, Keras, the four cells, a small
  backend to run the script on); the lemmas and theorems follow. *)

From Stdlib Require Import String Ascii.
From Stdlib Require Import DecimalString.
From Stdlib Require Import List ZArith QArith Bool Lia.
From Stdlib Require Import Reals Lra.
From Stdlib Require Import Floats.SpecFloat.
Import ListNotations.

Set Implicit Arguments.

(* ================================================================== *)
(** ** numpy: arrays, [uint8] arithmetic, [float64] and [float32] values *)
(* ================================================================== *)

Module Numpy.

(** An [ndarray]: the shape tuple and the elements in row-major order. *)
Record ndarray (A : Type) : Type := mk_ndarray {
  shape : list nat;
  data : list A
}.

Definition size_of (sh : list nat) : nat := fold_right Nat.mul 1%nat sh.

Definition well_shaped {A} (a : ndarray A) : Prop :=
  length (data a) = size_of (shape a).

(** Elementwise application of a ufunc; the shape is kept. *)
Definition map_arr {A B} (f : A -> B) (a : ndarray A) : ndarray B :=
  mk_ndarray (shape a) (map f (data a)).

(** [a.shape[i]]; an index past the rank raises [IndexError]. *)
Definition shape_at {A} (a : ndarray A) (i : nat) : option nat :=
  nth_error (shape a) i.

(** *** uint8 *)

Definition is_uint8 (x : Z) : Prop := (0 <= x < 256)%Z.

Definition uint8_array (a : ndarray Z) : Prop :=
  well_shaped a /\ Forall is_uint8 (data a).

(** Subtraction of two [uint8] values wraps modulo 256. *)
Definition sub_u8 (a b : Z) : Z := ((a - b) mod 256)%Z.

(** [np.min] and [np.max] over the whole array (no [axis] argument);
    a zero-size array raises [ValueError]. *)
Definition np_min (a : ndarray Z) : option Z :=
  match data a with
  | [] => None
  | x :: xs => Some (fold_left Z.min xs x)
  end.

Definition np_max (a : ndarray Z) : option Z :=
  match data a with
  | [] => None
  | x :: xs => Some (fold_left Z.max xs x)
  end.

(** *** float64, for the quotients of cell 1

    A finite quotient is kept as the exact rational; division by zero
    gives the IEEE special values, as numpy's [true_divide] does (with a
    warning, not an exception). *)
Inductive float : Type :=
| Fin (q : Q)
| PInf
| NInf
| NaN.

Definition is_finite (x : float) : bool :=
  match x with Fin _ => true | _ => false end.

(** [lo <= x <= hi] on floats; every comparison with NaN is false. *)
Definition in_interval (lo hi : Q) (x : float) : Prop :=
  match x with
  | Fin q => lo <= q /\ q <= hi
  | _ => False
  end.

Definition in_unit_interval : float -> Prop := in_interval 0 1.

(** [a / b] for integer operands: numpy's [true_divide], result dtype
    [float64]. *)
Definition true_divide (a b : Z) : float :=
  if (b =? 0)%Z then
    if (a =? 0)%Z then NaN
    else if (0 <? a)%Z then PInf else NInf
  else Fin (inject_Z a / inject_Z b).

(** *** float32

    The losses and accuracies [train_on_batch] returns are [float32]
    scalars: IEEE 754 binary32 values, precision 24 and exponents below
    128, as [SpecFloat] has them, a sign with a mantissa [m] and an
    exponent [e] for the value [m * 2^e].  [np.add] on two [float32]
    arrays and the product of a [float32] array with a Python float are
    the binary32 operations, rounding to nearest, ties to even. *)
Definition float32 : Type := spec_float.

Definition add32 (x y : float32) : float32 := SFadd 24 128 x y.

Definition mul32 (x y : float32) : float32 := SFmul 24 128 x y.

(** [0.5] as a [float32]. *)
Definition half32 : float32 := S754_finite false 8388608 (-24).

(** A [float32] scalar times a Python integer is a [float64]: numpy
    promotes the two scalars to binary64 (precision 53, exponents below
    1024) and multiplies there. *)
Definition mul64 (x y : spec_float) : spec_float := SFmul 53 1024 x y.

(** [100] as a [float64]. *)
Definition hundred64 : spec_float :=
  S754_finite false 7036874417766400 (-46).

(** [np.ones(n)] and [np.zeros(n)]. *)
Definition ones (n : nat) : ndarray float :=
  mk_ndarray [n] (repeat (Fin 1) n).

Definition zeros (n : nat) : ndarray float :=
  mk_ndarray [n] (repeat (Fin 0) n).

(** [a[idxs]] with an integer index array along the first axis: row [i]
    of the result is row [idxs[i]] of [a].  An index past the first
    dimension raises [IndexError]. *)
Definition row_size {A} (a : ndarray A) : nat := size_of (tl (shape a)).

Definition row {A} (a : ndarray A) (i : nat) : list A :=
  firstn (row_size a) (skipn (i * row_size a) (data a)).

Fixpoint take_rows {A} (a : ndarray A) (idxs : list nat)
  : option (list A) :=
  match idxs with
  | [] => Some []
  | i :: rest =>
      if (i <? hd 0%nat (shape a))%nat then
        match take_rows a rest with
        | Some tail => Some (row a i ++ tail)
        | None => None
        end
      else None
  end.

Definition fancy_index {A} (a : ndarray A) (idxs : list nat)
  : option (ndarray A) :=
  match take_rows a idxs with
  | Some d => Some (mk_ndarray (length idxs :: tl (shape a)) d)
  | None => None
  end.

End Numpy.

Import Numpy.

(* ================================================================== *)
(** ** Cell 1: normalisation of the data set *)
(* ================================================================== *)

Module Cell1.

(** [X_train = (X_train - np.min(X_train)) / (np.max(X_train) - np.min(X_train))]

    The operands are evaluated left to right, all on the array as it was
    loaded; the assignment happens last.  [mnist.load_data] returns
    [uint8] arrays, so both subtractions are [uint8] subtractions and the
    division is [true_divide]. *)
Definition numerator (X_train : ndarray Z) : option (ndarray Z) :=
  match np_min X_train with
  | Some lo => Some (map_arr (fun x => sub_u8 x lo) X_train)
  | None => None
  end.

Definition denominator (X_train : ndarray Z) : option Z :=
  match np_max X_train, np_min X_train with
  | Some hi, Some lo => Some (sub_u8 hi lo)
  | _, _ => None
  end.

Definition normalise (X_train : ndarray Z) : option (ndarray float) :=
  match numerator X_train, denominator X_train with
  | Some num, Some den => Some (map_arr (fun a => true_divide a den) num)
  | _, _ => None
  end.

End Cell1.

(* ================================================================== *)
(** ** Keras: layers, shape inference, forward pass *)
(* ================================================================== *)

Module Keras.

Inductive activation : Type :=
| Linear
| Sigmoid.

(** The layers the notebook uses, with their constructor arguments.
    Shapes leave the batch axis out. *)
Inductive layer : Type :=
| Flatten
| Dense (units : nat) (act : activation)
| LeakyReLU
| MaxoutDense (output_dim : nat)
| Reshape (target_shape : list nat).

(** [MaxoutDense] is built with its default [nb_feature=4]. *)
Definition nb_feature : nat := 4.

(** No axis of the shape is empty. *)
Definition fully_defined (sh : list nat) : bool :=
  forallb (fun d => negb (d =? 0)%nat) sh.

(** [layer.compute_output_shape]: [None] is the error Keras raises when the
    layer cannot take that input.  [Flatten] raises on a shape with an
    empty axis, [Dense] asserts that the last axis of its input is not
    empty; [Dense] and [MaxoutDense] are given for vectors, the only
    inputs they get in the notebook. *)
Definition compute_output_shape (l : layer) (input_shape : list nat)
  : option (list nat) :=
  match l with
  | Flatten =>
      if fully_defined input_shape then Some [size_of input_shape] else None
  | Dense units _ =>
      match input_shape with
      | [n] => if (n =? 0)%nat then None else Some [units]
      | _ => None
      end
  | LeakyReLU => Some input_shape
  | MaxoutDense output_dim =>
      match input_shape with
      | [n] => if (n =? 0)%nat then None else Some [output_dim]
      | _ => None
      end
  | Reshape target_shape =>
      if (size_of input_shape =? size_of target_shape)%nat
      then Some target_shape
      else None
  end.

(** The shapes of the weight tensors [layer.build] allocates. *)
Definition weight_shapes (l : layer) (input_shape : list nat)
  : list (list nat) :=
  match l, input_shape with
  | Dense units _, [n] => [[n; units]; [units]]
  | MaxoutDense output_dim, [n] =>
      [[nb_feature; n; output_dim]; [nb_feature; output_dim]]
  | _, _ => []
  end.

(** A [Sequential] model: the input shape given to its first layer and the
    layers in the order of the [add] calls. *)
Record sequential : Type := mk_sequential {
  input_shape : list nat;
  layers : list layer
}.

(** Shape inference through a stack of layers, as [Sequential.add] does it
    layer by layer. *)
Fixpoint infer_shape (ls : list layer) (sh : list nat)
  : option (list nat) :=
  match ls with
  | [] => Some sh
  | l :: rest =>
      match compute_output_shape l sh with
      | Some sh' => infer_shape rest sh'
      | None => None
      end
  end.

Definition output_shape (m : sequential) : option (list nat) :=
  infer_shape (layers m) (input_shape m).

(** [layer.stateful]: whether the layer registers state updates, which
    every call of a model that contains it runs ([model.state_updates]).
    None of the layers of the notebook does. *)
Definition stateful (l : layer) : bool :=
  match l with
  | Flatten => false
  | Dense _ _ => false
  | LeakyReLU => false
  | MaxoutDense _ => false
  | Reshape _ => false
  end.

Section Forward.

(** The scalars of the backend and the operations the layers need. *)
Variable F : Type.
Variable zero : F.
Variables add mul maxf : F -> F -> F.
Variables leaky sigmoid : F -> F.

Definition tensor : Type := ndarray F.

(** The weights of one layer, in the order of [layer.get_weights()]. *)
Definition layer_weights : Type := list tensor.

Definition apply_activation (act : activation) (v : F) : F :=
  match act with
  | Linear => v
  | Sigmoid => sigmoid v
  end.

(** [sum_i x[i] * w i]. *)
Definition weighted_sum (x : list F) (w : nat -> F) : F :=
  fold_left add
    (map (fun p => mul (snd p) (w (fst p))) (combine (seq 0 (length x)) x))
    zero.

(** [K.dot(x, kernel) + bias] for a kernel of shape [(n, units)]. *)
Definition dense_call (units : nat) (kernel bias x : list F) : list F :=
  map (fun j =>
         add (weighted_sum x (fun i => nth (i * units + j) kernel zero))
             (nth j bias zero))
      (seq 0 units).

(** [K.max(K.dot(x, W) + b, axis=1)] for [W] of shape
    [(nb_feature, n, output_dim)] and [b] of shape
    [(nb_feature, output_dim)]. *)
Definition maxout_feature (output_dim : nat) (W b x : list F) (k j : nat)
  : F :=
  add (weighted_sum x
         (fun i => nth ((k * length x + i) * output_dim + j) W zero))
      (nth (k * output_dim + j) b zero).

Definition maxout_call (output_dim : nat) (W b x : list F) : list F :=
  map (fun j =>
         fold_left maxf
           (map (fun k => maxout_feature output_dim W b x k j)
                (seq 1 (nb_feature - 1)))
           (maxout_feature output_dim W b x 0 j))
      (seq 0 output_dim).

(** [layer.call] on one example.  [None] is a shape mismatch; a layer
    takes the inputs its shape inference takes. *)
Definition call_layer (l : layer) (w : layer_weights) (x : tensor)
  : option tensor :=
  match l with
  | Flatten =>
      if fully_defined (shape x)
      then Some (mk_ndarray [size_of (shape x)] (data x))
      else None
  | Dense units act =>
      match shape x, w with
      | [n], [kernel; bias] =>
          if (n =? 0)%nat then None
          else
            Some (mk_ndarray [units]
                    (map (apply_activation act)
                         (dense_call units (data kernel) (data bias)
                            (data x))))
      | _, _ => None
      end
  | LeakyReLU => Some (map_arr leaky x)
  | MaxoutDense output_dim =>
      match shape x, w with
      | [n], [W; b] =>
          if (n =? 0)%nat then None
          else
            Some (mk_ndarray [output_dim]
                    (maxout_call output_dim (data W) (data b) (data x)))
      | _, _ => None
      end
  | Reshape target_shape =>
      if (size_of (shape x) =? size_of target_shape)%nat
      then Some (mk_ndarray target_shape (data x))
      else None
  end.

(** The forward pass of a stack on one example. *)
Fixpoint call_layers (ls : list layer) (ws : list layer_weights)
  (x : tensor) : option tensor :=
  match ls, ws with
  | [], [] => Some x
  | l :: ls', w :: ws' =>
      match call_layer l w x with
      | Some y => call_layers ls' ws' y
      | None => None
      end
  | _, _ => None
  end.

(** [model(x)] on one example: the input is checked against the model's
    input shape first. *)
Definition call (m : sequential) (ws : list layer_weights) (x : tensor)
  : option tensor :=
  if list_eq_dec Nat.eq_dec (shape x) (input_shape m)
  then call_layers (layers m) ws x
  else None.

(** The examples of a batch, and a batch from its examples. *)
Definition examples (X : tensor) : list tensor :=
  map (fun i => mk_ndarray (tl (shape X)) (row X i))
      (seq 0 (hd 0%nat (shape X))).

Fixpoint call_each (m : sequential) (ws : list layer_weights)
  (xs : list tensor) : option (list tensor) :=
  match xs with
  | [] => Some []
  | x :: rest =>
      match call m ws x, call_each m ws rest with
      | Some y, Some ys => Some (y :: ys)
      | _, _ => None
      end
  end.

(** [model.predict(X)]. *)
Definition predict (m : sequential) (ws : list layer_weights) (X : tensor)
  : option (list tensor) :=
  call_each m ws (examples X).

(** The weights fit the stack: every layer has the tensors its [build]
    allocates, with those shapes. *)
Fixpoint weights_fit (ls : list layer) (sh : list nat)
  (ws : list layer_weights) : Prop :=
  match ls, ws with
  | [], [] => True
  | l :: ls', w :: ws' =>
      map (@shape F) w = weight_shapes l sh /\
      Forall (@well_shaped F) w /\
      match compute_output_shape l sh with
      | Some sh' => weights_fit ls' sh' ws'
      | None => False
      end
  | _, _ => False
  end.

End Forward.

End Keras.

(* ================================================================== *)
(** ** Python: integer division through floats, the [%] operator *)
(* ================================================================== *)

Module Python.

(** [int(a / k)] for non-negative integers: [/] is float division and
    [int] truncates.  Below 2^53 the quotient is exact up to its fraction,
    so this is the quotient of the naturals. *)
Definition int_div (a k : nat) : nat := (a / k)%nat.

(** [range(n)]. *)
Definition range (n : nat) : list Z := map Z.of_nat (seq 0 n).

(** The values the notebook passes to [%]: the epoch index and numpy
    float scalars, which [%f] converts to Python floats without loss. *)
Inductive value : Type :=
| PyInt (z : Z)
| PyFloat (x : spec_float).

(** [str(z)]. *)
Definition str_int (z : Z) : string := NilZero.string_of_int (Z.to_int z).

Definition digit_char (d : nat) : ascii :=
  ascii_of_nat (48 + d mod 10).

(** The last [width] decimal digits of [n], with leading zeros. *)
Fixpoint fixed_digits (width : nat) (n : Z) : string :=
  match width with
  | O => EmptyString
  | S w =>
      (fixed_digits w (n / 10) ++
       String (digit_char (Z.to_nat (n mod 10))) EmptyString)%string
  end.

(** Rounding of a non-negative fraction [num / den] to the nearest integer,
    ties to even. *)
Definition round_half_even (num : Z) (den : Z) : Z :=
  let d := (num / den)%Z in
  let r := (num mod den)%Z in
  if (2 * r <? den)%Z then d
  else if (den <? 2 * r)%Z then (d + 1)%Z
  else if Z.even d then d else (d + 1)%Z.

(** The sign and the magnitude [num / den] in fixed notation with [prec]
    decimals: the exact value is rounded once, to the nearest multiple of
    [10^-prec], ties to even. *)
Definition format_fixed (prec : nat) (sign : bool) (num den : Z) : string :=
  let scale := (10 ^ Z.of_nat prec)%Z in
  let n := round_half_even (num * scale) den in
  ((if sign then "-" else "") ++
   str_int (n / scale) ++
   match prec with
   | O => ""
   | S _ => "." ++ fixed_digits prec (n mod scale)
   end)%string.

(** ['%.<prec>f' % x]: a finite [x = m * 2^e] is the fraction
    [m * 2^max(e,0) / 2^max(-e,0)]; [nan] and [inf] are spelled out. *)
Definition format_f (prec : nat) (x : spec_float) : string :=
  match x with
  | S754_nan => "nan"
  | S754_infinity sign => if sign then "-inf" else "inf"
  | S754_zero sign => format_fixed prec sign 0 1
  | S754_finite sign m e =>
      format_fixed prec sign (Zpos m * 2 ^ Z.max e 0) (2 ^ Z.max (- e) 0)
  end.

Definition is_digit (c : ascii) : bool :=
  let n := nat_of_ascii c in ((48 <=? n) && (n <=? 57))%nat.

(** Where the scan of a format string stands: in literal text, after a
    [%], or inside the precision after [%.]. *)
Inductive scan : Type :=
| Text
| Percent
| Precision (n : nat).

Definition prepend (prefix : string) (rest : option string) : option string :=
  option_map (fun r => (prefix ++ r)%string) rest.

(** [fmt % args] for the conversions [%d], [%f], [%.Nf] and [%%].  [None]
    is the [TypeError] or [ValueError] of a format that does not match its
    arguments. *)
Fixpoint format_from (st : scan) (fmt : string) (args : list value)
  : option string :=
  match fmt with
  | EmptyString =>
      match st, args with
      | Text, [] => Some EmptyString
      | _, _ => None
      end
  | String c rest =>
      match st with
      | Text =>
          if Ascii.eqb c "%" then format_from Percent rest args
          else prepend (String c EmptyString) (format_from Text rest args)
      | Percent =>
          if Ascii.eqb c "%" then
            prepend "%" (format_from Text rest args)
          else if Ascii.eqb c "d" then
            match args with
            | PyInt z :: args' =>
                prepend (str_int z) (format_from Text rest args')
            | _ => None
            end
          else if Ascii.eqb c "f" then
            match args with
            | PyFloat x :: args' =>
                prepend (format_f 6 x) (format_from Text rest args')
            | _ => None
            end
          else if Ascii.eqb c "." then format_from (Precision 0) rest args
          else None
      | Precision n =>
          if is_digit c then
            format_from (Precision (10 * n + (nat_of_ascii c - 48))) rest args
          else if Ascii.eqb c "f" then
            match args with
            | PyFloat x :: args' =>
                prepend (format_f n x) (format_from Text rest args')
            | _ => None
            end
          else None
      end
  end.

Definition format (fmt : string) (args : list value) : option string :=
  format_from Text fmt args.

End Python.

(* ================================================================== *)
(** ** Cell 2: the three models *)
(* ================================================================== *)

Module Cell2.

Import Keras.

(** [D]: [Flatten(input_shape=img_shape)], three [Dense]/[LeakyReLU] pairs
    and the sigmoid unit. *)
Definition D_layers (res : nat) : list layer :=
  [ Flatten;
    Dense (Python.int_div res 2) Linear;
    LeakyReLU;
    Dense (Python.int_div res 4) Linear;
    LeakyReLU;
    Dense (Python.int_div res 8) Linear;
    LeakyReLU;
    Dense 1 Sigmoid ].

(** [G]: [Dense(int(res/4), input_shape=(noise_res,))] up to
    [Reshape(img_shape)]. *)
Definition G_layers (img_shape : list nat) (res : nat) : list layer :=
  [ Dense (Python.int_div res 4) Linear;
    LeakyReLU;
    Dense (Python.int_div res 2) Linear;
    LeakyReLU;
    Dense res Linear;
    LeakyReLU;
    MaxoutDense res;
    Reshape img_shape ].

(** [Sequential()] followed by the [add] calls: every layer is built on
    the output shape of the one before, and an [add] that does not fit
    raises. *)
Definition Sequential (input_shape : list nat) (ls : list layer)
  : option sequential :=
  match infer_shape ls input_shape with
  | Some _ => Some (mk_sequential input_shape ls)
  | None => None
  end.

(** What the cell defines, before any [compile]. *)
Record models : Type := mk_models {
  img_shape : list nat;
  res : nat;
  noise_res : nat;
  D_model : sequential;
  G_model : sequential
}.

(** [Model(z, D(G(z)))] applies [G] to the placeholder [z] of shape
    [(noise_res,)] and [D] to the result; both applications check the
    shape they are given. *)
Definition composable (z_shape : list nat) (g d : sequential) : bool :=
  if list_eq_dec Nat.eq_dec z_shape (input_shape g) then
    match output_shape g with
    | Some out => if list_eq_dec Nat.eq_dec out (input_shape d)
                  then true else false
    | None => false
    end
  else false.

(** The shape computations and model constructions of the cell, for a data
    set of shape [X_shape].  [X_train.shape[1]] and [X_train.shape[2]]
    raise on an array of lower rank. *)
Definition build (X_shape : list nat) : option models :=
  match nth_error X_shape 1, nth_error X_shape 2 with
  | Some h, Some w =>
      let img_shape := [h; w] in
      let res := (h * w)%nat in
      let noise_res := Python.int_div res 4 in
      match Sequential img_shape (D_layers res) with
      | None => None
      | Some d =>
          match Sequential [noise_res] (G_layers img_shape res) with
          | None => None
          | Some g =>
              if composable [noise_res] g d
              then Some (mk_models img_shape res noise_res d g)
              else None
          end
      end
  | _, _ => None
  end.

End Cell2.

(* ================================================================== *)
(** ** The script: models, optimiser and random numbers as state *)
(* ================================================================== *)

Module Script.

(** The three model objects of the notebook. *)
Inductive model_id : Type :=
| D
| G
| full_gan.

Definition model_eqb (a b : model_id) : bool :=
  match a, b with
  | D, D | G, G | full_gan, full_gan => true
  | _, _ => false
  end.

(** The models whose layers a model is made of: [full_gan] is
    [Model(z, D(G(z)))], its layers are [G] and [D] themselves, so the
    weight tensors are shared. *)
Definition submodels (m : model_id) : list model_id :=
  match m with
  | D => [D]
  | G => [G]
  | full_gan => [G; D]
  end.

(** What one optimiser step computes: new values for the weights of [D] and
    of [G], the new optimiser state, and the loss and accuracy of the
    batch. *)
Record step_result (W O : Type) : Type := mk_step_result {
  new_D : W;
  new_G : W;
  new_optimizer : O;
  loss : float32;
  acc : float32
}.

(** What the notebook takes from Keras and numpy without defining it: the
    weight tensors and their initialisers, the Adam optimiser, the numbers
    the forward pass computes for one example, the update a stateful layer
    registers for its weights, the gradient step on a batch (for the model
    trained and the sub-models whose weights it was compiled to update),
    and the two streams of random draws. *)
Record backend : Type := mk_backend {
  weights : Type;
  optimizer_state : Type;
  init_weights : Keras.sequential -> weights;
  Adam : Q -> Q -> optimizer_state;
  forward : Keras.sequential -> weights -> list float -> list float;
  state_update : Keras.layer -> weights -> weights;
  step : model_id -> list model_id -> weights -> weights ->
         optimizer_state -> ndarray float -> ndarray float ->
         step_result weights optimizer_state;
  uniform : nat -> nat;
  gauss : nat -> float
}.

(** The calls that read or change the state of the script ([compile], the
    assignment to [trainable], the random draws, [predict],
    [train_on_batch]) and the [print] of the loop, in the order they are
    made. *)
Inductive event : Type :=
| Compile (m : model_id) (params : list model_id)
| SetTrainable (m : model_id) (b : bool)
| RandInt (high size : nat)
| Normal (size : list nat)
| Predict (m : model_id) (x : ndarray float)
| TrainOnBatch (m : model_id) (x y : ndarray float)
| Print (line : string).

Section WithBackend.

Variable bk : backend.

(** The state of the interpreter from cell 2 on.  [D_collected] and
    [gan_collected] are the [_collected_trainable_weights] of [D] and
    [full_gan], set by [compile]; [log] holds the events, newest first. *)
Record state : Type := mk_state {
  X_train : ndarray float;
  defs : Cell2.models;
  D_weights : weights bk;
  G_weights : weights bk;
  D_trainable : bool;
  G_trainable : bool;
  D_collected : option (list model_id);
  gan_collected : option (list model_id);
  optimizer : optimizer_state bk;
  rng : nat;
  log : list event
}.

Definition trace (s : state) : list event := rev (log s).

(** Statements: they read and write the state, and may raise. *)
Definition M (A : Type) : Type := state -> option (A * state).

Definition ret {A} (a : A) : M A := fun s => Some (a, s).

Definition bind {A B} (c : M A) (k : A -> M B) : M B :=
  fun s => match c s with
           | Some (a, s') => k a s'
           | None => None
           end.

Definition raise {A} : M A := fun _ => None.

Definition lift {A} (o : option A) : M A :=
  match o with
  | Some a => ret a
  | None => raise
  end.

Definition get : M state := fun s => Some (s, s).

Definition emit (e : event) : M unit :=
  fun s => Some (tt, mk_state (X_train s) (defs s) (D_weights s) (G_weights s)
                        (D_trainable s) (G_trainable s) (D_collected s)
                        (gan_collected s) (optimizer s) (rng s)
                        (e :: log s)).

Notation "x <- c1 ;; c2" := (bind c1 (fun x => c2))
  (at level 61, c1 at next level, right associativity).
Notation "c1 ;; c2" := (bind c1 (fun _ => c2))
  (at level 61, right associativity).

Fixpoint for_each {A} (xs : list A) (body : A -> M unit) : M unit :=
  match xs with
  | [] => ret tt
  | x :: rest => body x ;; for_each rest body
  end.

(** *** Keras calls *)

Definition is_trainable (s : state) (m : model_id) : bool :=
  match m with
  | D => D_trainable s
  | G => G_trainable s
  | full_gan => true
  end.

(** [model.trainable_weights]: the weights of the sub-models whose flag is
    set. *)
Definition trainable_weights (s : state) (m : model_id) : list model_id :=
  filter (is_trainable s) (submodels m).

(** [model.compile(...)] stores the trainable weights of that moment. *)
Definition compile (m : model_id) : M unit :=
  s <- get ;;
  let params := trainable_weights s m in
  (fun s =>
     match m with
     | D => Some (tt, mk_state (X_train s) (defs s) (D_weights s)
                        (G_weights s) (D_trainable s) (G_trainable s)
                        (Some params) (gan_collected s) (optimizer s)
                        (rng s) (log s))
     | full_gan => Some (tt, mk_state (X_train s) (defs s) (D_weights s)
                        (G_weights s) (D_trainable s) (G_trainable s)
                        (D_collected s) (Some params) (optimizer s)
                        (rng s) (log s))
     | G => None
     end) ;;
  emit (Compile m params).

(** [D.trainable = b]. *)
Definition set_D_trainable (b : bool) : M unit :=
  (fun s => Some (tt, mk_state (X_train s) (defs s) (D_weights s)
                        (G_weights s) b (G_trainable s)
                        (D_collected s) (gan_collected s) (optimizer s)
                        (rng s) (log s))) ;;
  emit (SetTrainable D b).

Definition collected (s : state) (m : model_id) : option (list model_id) :=
  match m with
  | D => D_collected s
  | G => None
  | full_gan => gan_collected s
  end.

Definition updates (params : list model_id) (m : model_id) : bool :=
  existsb (model_eqb m) params.

(** The shapes a model takes and returns, without the batch axis.
    [full_gan] is [Model(z, D(G(z)))] with [z = Input(shape=(noise_res,))]:
    it takes noise vectors and returns what [D] returns. *)
Definition model_input_shape (ms : Cell2.models) (m : model_id) : list nat :=
  match m with
  | D => Keras.input_shape (Cell2.D_model ms)
  | G => Keras.input_shape (Cell2.G_model ms)
  | full_gan => [Cell2.noise_res ms]
  end.

Definition model_output_shape (ms : Cell2.models) (m : model_id)
  : option (list nat) :=
  match m with
  | D => Keras.output_shape (Cell2.D_model ms)
  | G => Keras.output_shape (Cell2.G_model ms)
  | full_gan => Keras.output_shape (Cell2.D_model ms)
  end.

(** The check Keras makes on every array given to [train_on_batch] and
    [predict]: an array with one axis is taken as a column, then its shape
    without the first axis has to be the shape expected, else [ValueError].
    The result is the number of examples. *)
Definition standardize (sh : list nat) : list nat :=
  match sh with
  | [b] => [b; 1%nat]
  | _ => sh
  end.

Definition batch_of (expected : list nat) (a : ndarray float) : option nat :=
  match standardize (shape a) with
  | b :: sh => if list_eq_dec Nat.eq_dec sh expected then Some b else None
  | [] => None
  end.

(** [model.train_on_batch(x, y)]: both arrays are checked against the
    model, and they must hold the same number of examples; then one
    optimiser step is made, and the train function assigns new values to
    the weights collected at [compile] and to none other.  With
    [metrics=['accuracy']] the result is [[loss, acc]].  A model that was
    not compiled raises. *)
Definition train_on_batch (m : model_id) (x y : ndarray float)
  : M (list float32) :=
  s <- get ;;
  params <- lift (collected s m) ;;
  out <- lift (model_output_shape (defs s) m) ;;
  bx <- lift (batch_of (model_input_shape (defs s) m) x) ;;
  by_ <- lift (batch_of out y) ;;
  if (bx =? by_)%nat then
    let r := step bk m params (D_weights s) (G_weights s) (optimizer s) x y in
    (fun s => Some (tt, mk_state (X_train s) (defs s)
                          (if updates params D then new_D r else D_weights s)
                          (if updates params G then new_G r else G_weights s)
                          (D_trainable s) (G_trainable s)
                          (D_collected s) (gan_collected s)
                          (new_optimizer r) (rng s) (log s))) ;;
    emit (TrainOnBatch m x y) ;;
    ret [loss r; acc r]
  else raise.

(** [model.state_updates]: the updates of the stateful layers of the
    model, which its predict function runs with every call. *)
Definition state_updates (m : Keras.sequential) : list Keras.layer :=
  filter Keras.stateful (Keras.layers m).

Definition run_updates (ups : list Keras.layer) (w : weights bk) : weights bk :=
  fold_left (fun w l => state_update bk l w) ups w.

(** The numbers of a prediction: the outputs of the examples of the
    batch, one after the other. *)
Definition predictions (g : Keras.sequential) (w : weights bk)
  (x : ndarray float) : list float :=
  concat (map (fun e => forward bk g w (data e)) (Keras.examples x)).

(** [G.predict(x)]: the array is checked against the input of [G]; the
    predict function computes the outputs of the examples from the current
    weights and runs the state updates of [G]; the outputs are stacked
    into one array of the output shape of [G].  With no example there is
    no batch to run, and the result is the empty list, here the array
    without elements. *)
Definition G_predict (x : ndarray float) : M (ndarray float) :=
  s <- get ;;
  let g := Cell2.G_model (defs s) in
  out <- lift (Keras.output_shape g) ;;
  b <- lift (batch_of (Keras.input_shape g) x) ;;
  (fun s => Some (tt, mk_state (X_train s) (defs s) (D_weights s)
                        (run_updates (state_updates g) (G_weights s))
                        (D_trainable s) (G_trainable s)
                        (D_collected s) (gan_collected s)
                        (optimizer s) (rng s) (log s))) ;;
  emit (Predict G x) ;;
  ret (if (b =? 0)%nat then mk_ndarray [0%nat] []
       else mk_ndarray (b :: out) (predictions g (G_weights s) x)).

(** *** numpy calls *)

Definition advance (n : nat) : M unit :=
  fun s => Some (tt, mk_state (X_train s) (defs s) (D_weights s) (G_weights s)
                        (D_trainable s) (G_trainable s) (D_collected s)
                        (gan_collected s) (optimizer s) (rng s + n)
                        (log s)).

(** [np.random.randint(high, size=size)]: [size] draws below [high];
    [high = 0] raises. *)
Definition draws (at_ high size : nat) : list nat :=
  map (fun i => (uniform bk (at_ + i) mod high)%nat) (seq 0 size).

Definition randint (high size : nat) : M (list nat) :=
  s <- get ;;
  if (high =? 0)%nat then raise
  else
    advance size ;;
    emit (RandInt high size) ;;
    ret (draws (rng s) high size).

(** [np.random.normal(size=(rows, cols))]. *)
Definition normal_draws (at_ rows cols : nat) : ndarray float :=
  mk_ndarray [rows; cols]
    (map (fun i => gauss bk (at_ + i)) (seq 0 (rows * cols))).

Definition normal (rows cols : nat) : M (ndarray float) :=
  s <- get ;;
  advance (rows * cols) ;;
  emit (Normal [rows; cols]) ;;
  ret (normal_draws (rng s) rows cols).

(** [np.add(a, b)] on two lists of [float32] scalars of the same length:
    the lists become [float32] arrays, added elementwise. *)
Fixpoint np_add (a b : list float32) : option (list float32) :=
  match a, b with
  | [], [] => Some []
  | x :: a', y :: b' => option_map (cons (add32 x y)) (np_add a' b')
  | _, _ => None
  end.

(** [c * a] for a [float32] array [a] and a Python float [c] that is a
    [float32] value, as [0.5] is: the product stays [float32]. *)
Definition scale (c : float32) (a : list float32) : list float32 :=
  map (mul32 c) a.

(** *** Cell 2, from the first [compile] on *)

Definition initial (X : ndarray float) (ms : Cell2.models) : state :=
  mk_state X ms
    (init_weights bk (Cell2.D_model ms))
    (init_weights bk (Cell2.G_model ms))
    true true None None
    (Adam bk (2 # 10000) (1 # 2))
    0%nat [].

(** The stateful statements of the cell in their order: [D.compile],
    [D.trainable = False], [full_gan.compile]. *)
Definition cell2_statements : M unit :=
  compile D ;;
  set_D_trainable false ;;
  compile full_gan.

Definition cell2 (X : ndarray float) : option state :=
  match Cell2.build (shape X) with
  | None => None
  | Some ms =>
      match cell2_statements (initial X ms) with
      | Some (_, s) => Some s
      | None => None
      end
  end.

(** *** Cell 3: the training loop *)

Definition epochs : nat := Z.to_nat 30000.
Definition batch_size : nat := 32.
Definition half_batch_size : nat := Python.int_div batch_size 2.

Definition log_format : string :=
  "%d [D loss: %f, acc.: %.2f%%] [G loss: %f]".

(** The line that format yields for the epoch index, the two averaged
    discriminator diagnostics and the generator loss. *)
Definition diagnostic_line (epoch : Z) (d_loss d_acc g_loss : float32)
  : string :=
  (Python.str_int epoch ++ " [D loss: " ++ Python.format_f 6 d_loss ++
   ", acc.: " ++ Python.format_f 2 (mul64 hundred64 d_acc) ++
   "%] [G loss: " ++ Python.format_f 6 g_loss ++ "]")%string.

(** [0.5 * (a + b)] on [float32] values. *)
Definition mean2 (a b : float32) : float32 := mul32 half32 (add32 a b).

(** The values an epoch leaves in [rloss], [floss], [dloss], [gloss]. *)
Record diagnostics : Type := mk_diagnostics {
  rloss : list float32;
  floss : list float32;
  dloss : list float32;
  gloss : list float32
}.

(** The [if epoch % 100 == 0: print(...)] at the end of the body. *)
Definition report (epoch : Z) (dloss gloss : list float32) : M unit :=
  if (epoch mod 100 =? 0)%Z then
    d0 <- lift (nth_error dloss 0) ;;
    d1 <- lift (nth_error dloss 1) ;;
    g0 <- lift (nth_error gloss 0) ;;
    line <- lift (Python.format log_format
                    [Python.PyInt epoch; Python.PyFloat d0;
                     Python.PyFloat (mul64 hundred64 d1);
                     Python.PyFloat g0]) ;;
    emit (Print line)
  else ret tt.

(** The statements of the loop body up to the [if]. *)
Definition train_epoch : M diagnostics :=
  s <- get ;;
  size0 <- lift (shape_at (X_train s) 0) ;;
  real_idxs <- randint size0 half_batch_size ;;
  real_imgs <- lift (fancy_index (X_train s) real_idxs) ;;
  noise <- normal half_batch_size (Cell2.noise_res (defs s)) ;;
  fake_imgs <- G_predict noise ;;
  rloss <- train_on_batch D real_imgs (ones half_batch_size) ;;
  floss <- train_on_batch D fake_imgs (zeros half_batch_size) ;;
  sum <- lift (np_add rloss floss) ;;
  let dloss := scale half32 sum in
  noise <- normal batch_size (Cell2.noise_res (defs s)) ;;
  gloss <- train_on_batch full_gan noise (ones batch_size) ;;
  ret (mk_diagnostics rloss floss dloss gloss).

Definition epoch_body (epoch : Z) : M unit :=
  d <- train_epoch ;;
  report epoch (dloss d) (gloss d).

Definition cell3 : M unit := for_each (Python.range epochs) epoch_body.

(** *** Cell 4: the samples; the drawing calls that follow [G.predict] are
    matplotlib's and do not touch the state. *)

Definition n : nat := 9.

Definition cell4 : M (ndarray float) :=
  s <- get ;;
  noise <- normal n (Cell2.noise_res (defs s)) ;;
  G_predict noise.

(** *** The notebook *)

Definition main (loaded : ndarray Z) : option (ndarray float * state) :=
  match Cell1.normalise loaded with
  | None => None
  | Some X =>
      match cell2 X with
      | None => None
      | Some s => (cell3 ;; cell4) s
      end
  end.

(** *** What the cells establish

    [compiled]: both models are compiled as cell 2 compiles them, and the
    flags stand as cell 2 leaves them.  [ready] adds what cells 1 and 2
    leave besides: the data set is an array of images, with a first image
    to draw, and the models are those cell 2 builds for it. *)
Definition compiled (s : state) : Prop :=
  D_collected s = Some [D] /\ gan_collected s = Some [G] /\
  D_trainable s = false /\ G_trainable s = true.

Definition ready (s : state) : Prop :=
  compiled s /\ hd 0%nat (shape (X_train s)) <> 0%nat /\
  length (shape (X_train s)) = 3%nat /\
  Cell2.build (shape (X_train s)) = Some (defs s).

(** The first [k] iterations of the loop. *)
Definition after_epochs (k : nat) : M unit :=
  for_each (Python.range k) epoch_body.

End WithBackend.

(** Events by kind, to count them in a trace. *)
Definition is_train (m : model_id) (e : event) : bool :=
  match e with
  | TrainOnBatch m' _ _ => model_eqb m m'
  | _ => false
  end.

Definition is_predict (e : event) : bool :=
  match e with Predict _ _ => true | _ => false end.

Definition is_print (e : event) : bool :=
  match e with Print _ => true | _ => false end.

Definition is_set_trainable (e : event) : bool :=
  match e with SetTrainable _ _ => true | _ => false end.

Definition count (p : event -> bool) (l : list event) : nat :=
  length (filter p l).

(** How many of the indices [es] make the loop body print. *)
Definition printing (es : list Z) : nat :=
  length (filter (fun e => (e mod 100 =? 0)%Z) es).

(** A statement keeps the flag of [D]: whenever it returns, [D.trainable]
    is what it was and the log has no further assignment to it. *)
Definition keeps_D_trainable (bk : backend) (A : Type) (c : M bk A) : Prop :=
  forall (s : state bk) (a : A) (s' : state bk),
    c s = Some (a, s') ->
    D_trainable s' = D_trainable s /\
    filter is_set_trainable (log s') = filter is_set_trainable (log s).

(** What [mnist.load_data] is taken to return: a non-empty [uint8] array
    of rank 3. *)
Definition loadable (X : ndarray Z) : Prop :=
  uint8_array X /\ length (shape X) = 3%nat /\ data X <> [].

End Script.

(* ================================================================== *)
(** ** The layers over the real numbers

    The forward pass with exact real arithmetic in place of the rounding
    [float32] kernels of the backend: an instance to run the statements
    about shapes on, which hold for every choice of scalars. *)
(* ================================================================== *)

Module RealLayers.

Local Open Scope R_scope.

(** [K.sigmoid]. *)
Definition sigmoid (x : R) : R := 1 / (1 + exp (- x)).

(** [K.relu(x, alpha)], the call of [LeakyReLU]; the layer is built with
    its default [alpha=0.3]. *)
Definition relu (alpha x : R) : R := Rmax x 0 - alpha * Rmax (- x) 0.

Definition alpha : R := 3 / 10.

(** One example through a model. *)
Definition call : Keras.sequential -> list (list (ndarray R)) -> ndarray R
                  -> option (ndarray R) :=
  Keras.call 0 Rplus Rmult Rmax (relu alpha) sigmoid.

(** [model.predict] on a batch. *)
Definition predict : Keras.sequential -> list (list (ndarray R)) -> ndarray R
                     -> option (list (ndarray R)) :=
  Keras.predict 0 Rplus Rmult Rmax (relu alpha) sigmoid.

(** A tensor filled with one value. *)
Definition filled (sh : list nat) (v : R) : ndarray R :=
  mk_ndarray sh (repeat v (size_of sh)).

(** Weights for a stack with every kernel zero and the bias of layer [l]
    filled with [bias l]. *)
Fixpoint biased_weights (bias : Keras.layer -> R) (ls : list Keras.layer)
  (sh : list nat) : list (list (ndarray R)) :=
  match ls with
  | [] => []
  | l :: rest =>
      match Keras.weight_shapes l sh with
      | [k; b] => [filled k 0; filled b (bias l)]
      | _ => []
      end ::
      match Keras.compute_output_shape l sh with
      | Some sh' => biased_weights bias rest sh'
      | None => []
      end
  end.

(** The bias [c] in the [MaxoutDense] layer and zero elsewhere. *)
Definition maxout_bias (c : R) (l : Keras.layer) : R :=
  match l with
  | Keras.MaxoutDense _ => c
  | _ => 0
  end.

End RealLayers.

(* ================================================================== *)
(** ** A small instance to run the definitions on *)
(* ================================================================== *)

Module Sample.

Import Script.

(** A backend that counts: the weights of a model are the number of
    updates they have received, a prediction is filled with that number,
    a state update would add a thousand.  A step on a batch labelled 1
    returns the loss 0.5 and the accuracy 10/16, a step on any other batch
    the loss 0.75 and the accuracy 14/16. *)
Definition counting_forward (m : Keras.sequential) (w : Z) (x : list float)
  : list float :=
  let out := match Keras.output_shape m with Some o => o | None => [] end in
  repeat (Fin (inject_Z w)) (size_of out).

Definition labelled_1 (y : ndarray float) : bool :=
  match data y with
  | Fin q :: _ => Qeq_bool q 1
  | _ => false
  end.

Definition counting_step (m : model_id) (params : list model_id)
  (wd wg : Z) (o : nat) (x y : ndarray float) : step_result Z nat :=
  mk_step_result (wd + 1)%Z (wg + 1)%Z (S o)
    (if labelled_1 y then S754_finite false 8388608 (-24)
     else S754_finite false 12582912 (-24))
    (if labelled_1 y then S754_finite false 10485760 (-24)
     else S754_finite false 14680064 (-24)).

Definition counting : backend :=
  mk_backend (fun _ => 0%Z) (fun _ _ => 0%nat)
    counting_forward (fun _ w => (w + 1000)%Z) counting_step
    (fun i => i) (fun _ => Fin 0).

(** Two images of two rows and four columns. *)
Definition images : ndarray Z :=
  mk_ndarray [2; 2; 4]%nat
    [0; 51; 102; 255; 17; 0; 34; 204; 255; 255; 0; 0; 85; 170; 1; 254]%Z.

(** One pixel, hence a constant data set. *)
Definition one_pixel : ndarray Z := mk_ndarray [1; 1; 1]%nat [7%Z].

(** Two images of one colour each, a constant data set of 16 pixels. *)
Definition grey : ndarray Z := mk_ndarray [2; 2; 4]%nat (repeat 7%Z 16).

(** No image at all, of two rows and four columns. *)
Definition no_images : ndarray float := mk_ndarray [0; 2; 4]%nat [].

(** The images after cell 1, the models cell 2 builds for them, and the
    state cell 2 leaves on the counting backend. *)
Definition normalised : ndarray float :=
  map_arr (fun x => true_divide x 255) images.

Definition models_2x4 : Cell2.models :=
  Cell2.mk_models [2; 4]%nat 8 2
    (Keras.mk_sequential [2; 4]%nat (Cell2.D_layers 8))
    (Keras.mk_sequential [2]%nat (Cell2.G_layers [2; 4]%nat 8)).

Definition start : state counting :=
  @mk_state counting normalised models_2x4 0%Z 0%Z false true
    (Some [D]) (Some [G]) 0%nat 0%nat
    [Compile full_gan [G]; SetTrainable D false; Compile D [D]].

(** The state cell 2 would leave had no image been loaded. *)
Definition start_without_images : state counting :=
  @mk_state counting no_images models_2x4 0%Z 0%Z false true
    (Some [D]) (Some [G]) 0%nat 0%nat
    [Compile full_gan [G]; SetTrainable D false; Compile D [D]].

(** Two colour images of two rows, four columns and three channels, and
    the state cell 2 leaves for them. *)
Definition colour_images : ndarray float :=
  mk_ndarray [2; 2; 4; 3]%nat (repeat (Fin 0) 48).

Definition start_in_colour : state counting :=
  @mk_state counting colour_images models_2x4 0%Z 0%Z false true
    (Some [D]) (Some [G]) 0%nat 0%nat
    [Compile full_gan [G]; SetTrainable D false; Compile D [D]].

(** Weights for [D] and [G] on images of shape [(2, 4)], all zero. *)
Definition zero_tensor (sh : list nat) : ndarray R :=
  mk_ndarray sh (repeat 0%R (size_of sh)).

Fixpoint zero_weights (ls : list Keras.layer) (sh : list nat)
  : list (list (ndarray R)) :=
  match ls with
  | [] => []
  | l :: rest =>
      map zero_tensor (Keras.weight_shapes l sh) ::
      match Keras.compute_output_shape l sh with
      | Some sh' => zero_weights rest sh'
      | None => []
      end
  end.

Definition D_2x4 : Keras.sequential :=
  Keras.mk_sequential [2; 4]%nat (Cell2.D_layers 8).

Definition G_2x4 : Keras.sequential :=
  Keras.mk_sequential [2]%nat (Cell2.G_layers [2; 4]%nat 8).

End Sample.

(* ================================================================== *)
(** * Lemmas and theorems *)
(* ================================================================== *)

(** ** numpy *)

Module NumpyFacts.

Lemma fold_min_le_init (xs : list Z) (x : Z) :
  (fold_left Z.min xs x <= x)%Z.
Proof.
  revert x; induction xs as [|y ys IH]; intro x; cbn.
  - lia.
  - specialize (IH (Z.min x y)); lia.
Qed.

Lemma fold_min_lower (xs : list Z) (x : Z) :
  forall y, In y (x :: xs) -> (fold_left Z.min xs x <= y)%Z.
Proof.
  revert x; induction xs as [|z zs IH]; intros x y Hy; cbn.
  - destruct Hy as [<- | []]; lia.
  - destruct Hy as [<- | [<- | Hy]].
    + pose proof (fold_min_le_init zs (Z.min x z)); lia.
    + pose proof (fold_min_le_init zs (Z.min x z)); lia.
    + apply IH; right; exact Hy.
Qed.

Lemma fold_min_in (xs : list Z) (x : Z) :
  In (fold_left Z.min xs x) (x :: xs).
Proof.
  revert x; induction xs as [|z zs IH]; intro x; cbn.
  - left; reflexivity.
  - destruct (IH (Z.min x z)) as [H | H].
    + destruct (Z.min_spec x z) as [[_ E] | [_ E]].
      * left; congruence.
      * right; left; congruence.
    + right; right; exact H.
Qed.

Lemma fold_max_ge_init (xs : list Z) (x : Z) :
  (x <= fold_left Z.max xs x)%Z.
Proof.
  revert x; induction xs as [|y ys IH]; intro x; cbn.
  - lia.
  - specialize (IH (Z.max x y)); lia.
Qed.

Lemma fold_max_upper (xs : list Z) (x : Z) :
  forall y, In y (x :: xs) -> (y <= fold_left Z.max xs x)%Z.
Proof.
  revert x; induction xs as [|z zs IH]; intros x y Hy; cbn.
  - destruct Hy as [<- | []]; lia.
  - destruct Hy as [<- | [<- | Hy]].
    + pose proof (fold_max_ge_init zs (Z.max x z)); lia.
    + pose proof (fold_max_ge_init zs (Z.max x z)); lia.
    + apply IH; right; exact Hy.
Qed.

Lemma fold_max_in (xs : list Z) (x : Z) :
  In (fold_left Z.max xs x) (x :: xs).
Proof.
  revert x; induction xs as [|z zs IH]; intro x; cbn.
  - left; reflexivity.
  - destruct (IH (Z.max x z)) as [H | H].
    + destruct (Z.max_spec x z) as [[_ E] | [_ E]].
      * right; left; congruence.
      * left; congruence.
    + right; right; exact H.
Qed.

(** [np.min] and [np.max] of a non-empty array are elements of it and
    bound every element. *)
Lemma np_min_spec (X : ndarray Z) :
  data X <> [] ->
  exists lo, np_min X = Some lo /\ In lo (data X) /\
             forall x, In x (data X) -> (lo <= x)%Z.
Proof.
  unfold np_min; destruct (data X) as [|x xs]; [congruence|]; intros _.
  exists (fold_left Z.min xs x); split; [reflexivity|]; split.
  - apply fold_min_in.
  - apply fold_min_lower.
Qed.

Lemma np_max_spec (X : ndarray Z) :
  data X <> [] ->
  exists hi, np_max X = Some hi /\ In hi (data X) /\
             forall x, In x (data X) -> (x <= hi)%Z.
Proof.
  unfold np_max; destruct (data X) as [|x xs]; [congruence|]; intros _.
  exists (fold_left Z.max xs x); split; [reflexivity|]; split.
  - apply fold_max_in.
  - apply fold_max_upper.
Qed.

Lemma np_min_empty (X : ndarray Z) : data X = [] -> np_min X = None.
Proof. unfold np_min; intros ->; reflexivity. Qed.

(** A [uint8] subtraction whose left operand is the larger one does not
    wrap. *)
Lemma sub_u8_no_wrap (a b : Z) :
  is_uint8 a -> is_uint8 b -> (b <= a)%Z -> sub_u8 a b = (a - b)%Z.
Proof.
  unfold is_uint8, sub_u8; intros Ha Hb Hab.
  apply Z.mod_small; lia.
Qed.

Lemma true_divide_unit (a b : Z) :
  (0 <= a <= b)%Z -> (0 < b)%Z ->
  true_divide a b = Fin (inject_Z a / inject_Z b) /\
  in_unit_interval (true_divide a b).
Proof.
  intros Ha Hb; unfold true_divide.
  destruct (Z.eqb_spec b 0) as [E | _]; [lia|].
  split; [reflexivity|].
  unfold in_unit_interval, in_interval, Qdiv, Qle, Qmult, Qinv, inject_Z.
  destruct b as [|p|p]; try lia; cbn.
  split; nia.
Qed.

Lemma true_divide_zero_zero : true_divide 0 0 = NaN.
Proof. reflexivity. Qed.

Lemma take_rows_in_range {A} (a : ndarray A) (idxs : list nat) :
  Forall (fun i => (i < hd 0 (shape a))%nat) idxs ->
  exists d, take_rows a idxs = Some d.
Proof.
  induction 1 as [|i rest Hi _ IH]; cbn [take_rows].
  - eexists; reflexivity.
  - apply Nat.ltb_lt in Hi; rewrite Hi.
    destruct IH as [d ->]; eexists; reflexivity.
Qed.



Lemma fancy_index_in_range {A} (a : ndarray A) (idxs : list nat) :
  Forall (fun i => (i < hd 0 (shape a))%nat) idxs ->
  exists b, fancy_index a idxs = Some b /\
            shape b = length idxs :: tl (shape a).
Proof.
  intro H; destruct (take_rows_in_range a H) as [d Hd].
  unfold fancy_index; rewrite Hd; eexists; split; reflexivity.
Qed.

End NumpyFacts.

(** ** Keras: shape inference is sound for the forward pass *)

Module KerasFacts.

Import Keras.

Lemma size_of_singleton (k : nat) : size_of [k] = k.
Proof. cbn; lia. Qed.

Section Forward.

Variable F : Type.
Variable zero : F.
Variables add mul maxf : F -> F -> F.
Variables leaky sigmoid : F -> F.

Local Abbreviation call_layer := (call_layer zero add mul maxf leaky sigmoid).
Local Abbreviation call_layers := (call_layers zero add mul maxf leaky sigmoid).
Local Abbreviation call := (call zero add mul maxf leaky sigmoid).
Local Abbreviation call_each := (call_each zero add mul maxf leaky sigmoid).
Local Abbreviation predict := (predict zero add mul maxf leaky sigmoid).

Lemma dense_call_length (units : nat) (kernel bias x : list F) :
  length (dense_call zero add mul units kernel bias x) = units.
Proof. unfold dense_call; rewrite length_map, length_seq; reflexivity. Qed.

Lemma maxout_call_length (output_dim : nat) (W b x : list F) :
  length (maxout_call zero add mul maxf output_dim W b x) = output_dim.
Proof. unfold maxout_call; rewrite length_map, length_seq; reflexivity. Qed.

(** One layer: if shape inference accepts the input shape and the layer
    has the weights it allocates, the call succeeds with the inferred
    shape. *)
Lemma call_layer_sound (l : layer) (w : layer_weights F) (x : tensor F)
  (out : list nat) :
  compute_output_shape l (shape x) = Some out ->
  map (@shape F) w = weight_shapes l (shape x) ->
  well_shaped x ->
  exists y, call_layer l w x = Some y /\ shape y = out /\ well_shaped y.
Proof.
  intros Hout Hw Hx.
  destruct l as [|units act| |output_dim|target];
    cbn [compute_output_shape Keras.call_layer] in Hout |- *.
  - destruct (fully_defined (shape x)); [|discriminate].
    injection Hout as <-.
    eexists; split; [reflexivity|]; split; [reflexivity|].
    unfold well_shaped in *; cbn [shape data].
    rewrite size_of_singleton; exact Hx.
  - destruct (shape x) as [|n [|? ?]] eqn:Hs; try discriminate.
    destruct (n =? 0)%nat; [discriminate|].
    injection Hout as <-.
    cbn in Hw.
    destruct w as [|kernel [|bias [|? ?]]]; try discriminate.
    eexists; split; [reflexivity|]; split; [reflexivity|].
    unfold well_shaped; cbn [shape data].
    rewrite length_map, dense_call_length, size_of_singleton; reflexivity.
  - injection Hout as <-.
    eexists; split; [reflexivity|]; split; [reflexivity|].
    unfold well_shaped, map_arr in *; cbn [shape data].
    rewrite length_map; exact Hx.
  - destruct (shape x) as [|n [|? ?]] eqn:Hs; try discriminate.
    destruct (n =? 0)%nat; [discriminate|].
    injection Hout as <-.
    cbn in Hw.
    destruct w as [|W [|b [|? ?]]]; try discriminate.
    eexists; split; [reflexivity|]; split; [reflexivity|].
    unfold well_shaped; cbn [shape data].
    rewrite maxout_call_length, size_of_singleton; reflexivity.
  - destruct (size_of (shape x) =? size_of target)%nat eqn:E;
      [|discriminate].
    injection Hout as <-.
    eexists; split; [reflexivity|]; split; [reflexivity|].
    apply Nat.eqb_eq in E.
    unfold well_shaped in *; cbn [shape data]; congruence.
Qed.

(** A stack of layers: the same, by induction on the stack. *)
Lemma call_layers_sound (ls : list layer) :
  forall (sh : list nat) (ws : list (layer_weights F)) (x : tensor F)
         (out : list nat),
    weights_fit ls sh ws ->
    infer_shape ls sh = Some out ->
    shape x = sh ->
    well_shaped x ->
    exists y, call_layers ls ws x = Some y /\ shape y = out /\
              well_shaped y.
Proof.
  induction ls as [|l ls IH]; intros sh ws x out Hfit Hinf Hsh Hx.
  - destruct ws; [|contradiction].
    cbn in Hinf; injection Hinf as <-.
    exists x; cbn; auto.
  - destruct ws as [|w ws]; [contradiction|].
    cbn in Hfit, Hinf.
    destruct Hfit as (Hw & _ & Hrest).
    destruct (compute_output_shape l sh) as [sh'|] eqn:Hl; [|contradiction].
    subst sh.
    destruct (@call_layer_sound l w x sh' Hl Hw Hx) as (y & Hy & Hys & Hyw).
    cbn [Keras.call_layers]; rewrite Hy.
    eapply IH; eauto.
Qed.

(** A shape-inference failure is a failure of the call: the forward pass
    does not go further than the shapes allow. *)
Lemma call_layer_rejects (l : layer) (w : layer_weights F) (x : tensor F) :
  compute_output_shape l (shape x) = None -> call_layer l w x = None.
Proof.
  destruct l as [|units act| |output_dim|target];
    cbn [compute_output_shape Keras.call_layer]; intro H.
  - destruct (fully_defined (shape x)); [discriminate | reflexivity].
  - destruct (shape x) as [|n [|? ?]]; try reflexivity;
      try (destruct w as [|? [|? [|? ?]]]; reflexivity).
    destruct (n =? 0)%nat; [|discriminate].
    destruct w as [|? [|? [|? ?]]]; reflexivity.
  - discriminate.
  - destruct (shape x) as [|n [|? ?]]; try reflexivity;
      try (destruct w as [|? [|? [|? ?]]]; reflexivity).
    destruct (n =? 0)%nat; [|discriminate].
    destruct w as [|? [|? [|? ?]]]; reflexivity.
  - destruct (size_of (shape x) =? size_of target)%nat;
      [discriminate | reflexivity].
Qed.

Lemma call_sound (m : sequential) (ws : list (layer_weights F))
  (x : tensor F) (out : list nat) :
  weights_fit (layers m) (input_shape m) ws ->
  output_shape m = Some out ->
  shape x = input_shape m ->
  well_shaped x ->
  exists y, call m ws x = Some y /\ shape y = out /\ well_shaped y.
Proof.
  intros Hfit Hout Hsh Hx; unfold Keras.call.
  destruct (list_eq_dec Nat.eq_dec (shape x) (input_shape m));
    [|contradiction].
  eapply call_layers_sound; eauto.
Qed.

(** An input of another shape than the model's is rejected. *)
Lemma call_shape_mismatch (m : sequential) (ws : list (layer_weights F))
  (x : tensor F) :
  shape x <> input_shape m -> call m ws x = None.
Proof.
  intro H; unfold Keras.call.
  destruct (list_eq_dec Nat.eq_dec (shape x) (input_shape m));
    [contradiction | reflexivity].
Qed.

End Forward.

End KerasFacts.

(** ** Cell 2: for which image shapes the models are built *)

Module Cell2Facts.

Import Keras Cell2.

Unset Implicit Arguments.

Local Open Scope nat_scope.

Lemma eqb_0_false (n : nat) : n <> 0%nat -> (n =? 0)%nat = false.
Proof. intro H; apply Nat.eqb_neq; exact H. Qed.

Lemma int_div_nonzero (r k : nat) :
  k <> 0%nat -> (k <= r)%nat -> Python.int_div r k <> 0%nat.
Proof.
  intros Hk Hr E; unfold Python.int_div in E.
  apply Nat.div_small_iff in E; [lia | exact Hk].
Qed.

Lemma int_div_small (r k : nat) :
  (r < k)%nat -> Python.int_div r k = 0%nat.
Proof. intro H; unfold Python.int_div; apply Nat.div_small; exact H. Qed.

Lemma fully_defined_image (h w : nat) :
  (h * w <> 0)%nat -> fully_defined [h; w] = true.
Proof.
  intro H; unfold fully_defined; cbn [forallb].
  destruct h as [|h]; [lia|]; destruct w as [|w]; [lia|]; reflexivity.
Qed.

Lemma size_of_image (h w : nat) : size_of [h; w] = (h * w)%nat.
Proof. cbn; lia. Qed.

Lemma infer_D_layers (h w : nat) :
  (8 <= h * w)%nat ->
  infer_shape (D_layers (h * w)) [h; w] = Some [1%nat].
Proof.
  intro H; unfold D_layers.
  cbn [infer_shape compute_output_shape].
  rewrite fully_defined_image by lia.
  cbn [infer_shape compute_output_shape].
  rewrite size_of_image.
  rewrite (eqb_0_false (h * w)) by lia.
  rewrite (eqb_0_false (Python.int_div (h * w) 2))
    by (apply int_div_nonzero; lia).
  rewrite (eqb_0_false (Python.int_div (h * w) 4))
    by (apply int_div_nonzero; lia).
  rewrite (eqb_0_false (Python.int_div (h * w) 8))
    by (apply int_div_nonzero; lia).
  reflexivity.
Qed.

(** Below 8 pixels one of the [Dense] layers of [D] gets an input
    without elements, and its [add] raises. *)
Lemma infer_D_layers_small (h w : nat) :
  (h * w < 8)%nat ->
  infer_shape (D_layers (h * w)) [h; w] = None.
Proof.
  intro H; unfold D_layers.
  cbn [infer_shape compute_output_shape].
  destruct (fully_defined [h; w]); [|reflexivity].
  cbn [infer_shape compute_output_shape].
  destruct (size_of [h; w] =? 0)%nat; [reflexivity|].
  destruct (Python.int_div (h * w) 2 =? 0)%nat; [reflexivity|].
  destruct (Python.int_div (h * w) 4 =? 0)%nat; [reflexivity|].
  rewrite (int_div_small (h * w) 8 H); reflexivity.
Qed.

Lemma reshape_fits (h w : nat) :
  (size_of [(h * w)%nat] =? size_of [h; w])%nat = true.
Proof. apply Nat.eqb_eq; cbn; lia. Qed.

Lemma infer_G_layers (h w : nat) :
  (8 <= h * w)%nat ->
  infer_shape (G_layers [h; w] (h * w)) [Python.int_div (h * w) 4]
  = Some [h; w].
Proof.
  intro H; unfold G_layers.
  assert (E4 := eqb_0_false (Python.int_div (h * w) 4)
                  (int_div_nonzero (h * w) 4 ltac:(lia) ltac:(lia))).
  assert (E2 := eqb_0_false (Python.int_div (h * w) 2)
                  (int_div_nonzero (h * w) 2 ltac:(lia) ltac:(lia))).
  assert (E1 := eqb_0_false (h * w) ltac:(lia)).
  repeat (cbn [infer_shape compute_output_shape];
          first [rewrite E4 | rewrite E2 | rewrite E1
                | rewrite reshape_fits]).
  reflexivity.
Qed.

(** The models cell 2 builds for images of [h] rows and [w] columns. *)
Lemma build_eq (X_shape : list nat) (h w : nat) :
  nth_error X_shape 1 = Some h ->
  nth_error X_shape 2 = Some w ->
  (8 <= h * w)%nat ->
  build X_shape =
  Some (mk_models [h; w] (h * w) (Python.int_div (h * w) 4)
          (mk_sequential [h; w] (D_layers (h * w)))
          (mk_sequential [Python.int_div (h * w) 4]
             (G_layers [h; w] (h * w)))).
Proof.
  intros H1 H2 H8; unfold build, Sequential, composable, output_shape.
  rewrite H1, H2.
  rewrite (infer_D_layers h w H8), (infer_G_layers h w H8).
  cbn [input_shape layers].
  rewrite (infer_G_layers h w H8).
  destruct (list_eq_dec Nat.eq_dec [Python.int_div (h * w) 4]
              [Python.int_div (h * w) 4]); [|contradiction].
  destruct (list_eq_dec Nat.eq_dec [h; w] [h; w]); [|contradiction].
  reflexivity.
Qed.

Lemma build_small (X_shape : list nat) (h w : nat) :
  nth_error X_shape 1 = Some h ->
  nth_error X_shape 2 = Some w ->
  (h * w < 8)%nat ->
  build X_shape = None.
Proof.
  intros H1 H2 H8; unfold build, Sequential.
  rewrite H1, H2, (infer_D_layers_small h w H8); reflexivity.
Qed.

(** [X_train.shape[2]] on an array of rank below three raises, and the
    cell with it. *)
Lemma build_needs_rank_3 (X_shape : list nat) :
  (length X_shape < 3)%nat -> build X_shape = None.
Proof.
  intro H; unfold build.
  destruct X_shape as [|a [|b [|c rest]]]; cbn in *; try reflexivity; lia.
Qed.

Lemma build_inv (X_shape : list nat) (ms : models) :
  build X_shape = Some ms ->
  exists h w,
    nth_error X_shape 1 = Some h /\ nth_error X_shape 2 = Some w /\
    (8 <= h * w)%nat /\
    ms = mk_models [h; w] (h * w) (Python.int_div (h * w) 4)
           (mk_sequential [h; w] (D_layers (h * w)))
           (mk_sequential [Python.int_div (h * w) 4]
              (G_layers [h; w] (h * w))).
Proof.
  intro H.
  destruct (nth_error X_shape 1) as [h|] eqn:H1;
    [|unfold build in H; rewrite H1 in H; discriminate].
  destruct (nth_error X_shape 2) as [w|] eqn:H2;
    [|unfold build in H; rewrite H1, H2 in H; discriminate].
  destruct (Nat.lt_ge_cases (h * w) 8) as [Hlt | Hge].
  - rewrite (build_small X_shape h w H1 H2 Hlt) in H; discriminate.
  - rewrite (build_eq X_shape h w H1 H2 Hge) in H; injection H as <-.
    exists h, w; auto.
Qed.

Lemma build_inv3 (M H W : nat) (ms : models) :
  build [M; H; W] = Some ms ->
  (8 <= H * W)%nat /\
  ms = mk_models [H; W] (H * W) (Python.int_div (H * W) 4)
         (mk_sequential [H; W] (D_layers (H * W)))
         (mk_sequential [Python.int_div (H * W) 4]
            (G_layers [H; W] (H * W))).
Proof.
  intro Hb.
  destruct (build_inv _ _ Hb) as (h & w & H1 & H2 & H8 & ->).
  cbn in H1, H2; injection H1 as <-; injection H2 as <-.
  split; [exact H8 | reflexivity].
Qed.

(** The shapes of the models cell 2 builds. *)
Lemma build_shapes (M H W : nat) (ms : models) :
  build [M; H; W] = Some ms ->
  (8 <= H * W)%nat /\
  input_shape (D_model ms) = [H; W] /\
  output_shape (D_model ms) = Some [1%nat] /\
  input_shape (G_model ms) = [noise_res ms] /\
  output_shape (G_model ms) = Some [H; W] /\
  noise_res ms <> 0%nat.
Proof.
  intro Hb.
  destruct (build_inv3 M H W ms Hb) as (H8 & ->).
  cbn [D_model G_model noise_res input_shape]; unfold output_shape.
  cbn [layers input_shape].
  rewrite (infer_D_layers H W H8), (infer_G_layers H W H8).
  repeat (split; [solve [auto]|]).
  apply int_div_nonzero; lia.
Qed.

(** C3: for every data set of [M] images of shape [(H, W)], cell 2 raises
    whenever the noise dimension [floor(H*W/4)] is below 1 (a [Dense]
    layer of [D] then gets an input without elements), and whenever it
    does build the models the noise dimension it computed is
    [floor(H*W/4)] and at least 1. *)
Theorem build_rejects_noise_dimension_below_1 (M H W : nat) :
  ((H * W / 4 < 1)%nat -> build [M; H; W] = None) /\
  (forall ms, build [M; H; W] = Some ms ->
     noise_res ms = (H * W / 4)%nat /\ (1 <= noise_res ms)%nat).
Proof.
  split.
  - intro HN.
    apply (build_small [M; H; W] H W eq_refl eq_refl).
    destruct (Nat.lt_ge_cases (H * W) 4) as [Hlt | Hge]; [lia|].
    assert (E : (4 / 4 <= H * W / 4)%nat)
      by (apply Nat.Div0.div_le_mono; exact Hge).
    change (4 / 4)%nat with 1%nat in E; lia.
  - intros ms Hb.
    destruct (build_inv3 M H W ms Hb) as (H8 & ->).
    cbn [noise_res]; unfold Python.int_div.
    split; [reflexivity|].
    assert (E : (4 / 4 <= H * W / 4)%nat)
      by (apply Nat.Div0.div_le_mono; lia).
    exact E.
Qed.

Lemma build_rejects_witness :
  (1 * 1 / 4 < 1)%nat /\ build [3; 1; 1]%nat = None /\
  exists ms, build [3; 2; 4]%nat = Some ms /\
             noise_res ms = 2%nat /\ (1 <= noise_res ms)%nat.
Proof.
  assert (H : (1 * 1 / 4 < 1)%nat) by (cbn; lia).
  split; [exact H|].
  split; [exact (proj1 (build_rejects_noise_dimension_below_1 3 1 1) H)|].
  destruct (build [3; 2; 4]%nat) as [ms|] eqn:E; [|discriminate E].
  exists ms; split; [reflexivity|].
  exact (proj2 (build_rejects_noise_dimension_below_1 3 2 4) ms E).
Defined.

End Cell2Facts.

(** ** The generator returns images *)

Module RealFacts.

Import Keras Cell2.

(** C7: for every noise vector of length [N] and every value of the weights
    of [G], the forward pass of [G] succeeds and returns an array of shape
    exactly [(H, W)], with [H*W] entries.  The scalars and their operations
    are arbitrary. *)
Theorem generator_output_has_image_shape
  (F : Type) (zero : F) (add mul maxf : F -> F -> F) (leaky sigmoid : F -> F)
  (M H W : nat) (ms : models)
  (ws : list (list (ndarray F))) (z : ndarray F) :
  build [M; H; W] = Some ms ->
  weights_fit (layers (G_model ms)) (input_shape (G_model ms)) ws ->
  shape z = [noise_res ms] ->
  well_shaped z ->
  exists img,
    Keras.call zero add mul maxf leaky sigmoid (G_model ms) ws z = Some img /\
    shape img = [H; W] /\
    length (data img) = (H * W)%nat.
Proof.
  intros Hb Hfit Hsh Hz.
  destruct (Cell2Facts.build_inv3 M H W ms Hb) as (H8 & ->).
  cbn [G_model noise_res layers input_shape] in *.
  destruct (@KerasFacts.call_sound F zero add mul maxf leaky sigmoid
              (mk_sequential [Python.int_div (H * W) 4]
                 (G_layers [H; W] (H * W))) ws z [H; W])
    as (img & Hi & His & Hiw); auto.
  { unfold output_shape; cbn [layers input_shape].
    apply Cell2Facts.infer_G_layers; exact H8. }
  exists img; split; [exact Hi|]; split; [exact His|].
  unfold well_shaped in Hiw; rewrite Hiw, His; cbn; lia.
Qed.

End RealFacts.

(** ** The layer theorems on images of shape (2, 4) *)

Module RealWitness.

Import Keras Cell2 Sample.

Lemma zero_weights_fit_G :
  weights_fit (G_layers [2; 4]%nat 8) [2]%nat
    (zero_weights (G_layers [2; 4]%nat 8) [2]%nat).
Proof.
  cbn; repeat split; repeat constructor.
Qed.

Lemma generator_output_witness :
  exists img,
    RealLayers.call G_2x4 (zero_weights (G_layers [2; 4]%nat 8) [2]%nat)
      (zero_tensor [2]%nat) = Some img /\
    shape img = [2; 4]%nat /\
    length (data img) = (2 * 4)%nat.
Proof.
  exact (@RealFacts.generator_output_has_image_shape
           R 0%R Rplus Rmult Rmax (RealLayers.relu RealLayers.alpha)
           RealLayers.sigmoid
           2 2 4 (mk_models [2; 4]%nat 8 2 D_2x4 G_2x4)
           (zero_weights (G_layers [2; 4]%nat 8) [2]%nat)
           (zero_tensor [2]%nat)
           eq_refl zero_weights_fit_G eq_refl eq_refl).
Defined.

End RealWitness.

(** ** Cell 1: what the normalisation computes *)

Module Cell1Facts.

Import Cell1 NumpyFacts.

(** The extremes of a non-empty [uint8] array. *)
Lemma extremes (X : ndarray Z) :
  uint8_array X -> data X <> [] ->
  exists lo hi,
    np_min X = Some lo /\ np_max X = Some hi /\
    In lo (data X) /\ In hi (data X) /\
    is_uint8 lo /\ is_uint8 hi /\
    forall x, In x (data X) -> (lo <= x <= hi)%Z.
Proof.
  intros [_ Hu] Hne.
  destruct (np_min_spec X Hne) as (lo & Hlo & Hlin & Hlb).
  destruct (np_max_spec X Hne) as (hi & Hhi & Hhin & Hub).
  rewrite Forall_forall in Hu.
  exists lo, hi.
  repeat (split; [solve [auto]|]).
  auto.
Qed.

(** On a non-empty [uint8] array the two subtractions do not wrap and the
    cell computes [(x - lo) / (hi - lo)] at every position. *)
Lemma normalise_eq (X : ndarray Z) (lo hi : Z) :
  uint8_array X -> np_min X = Some lo -> np_max X = Some hi ->
  normalise X =
  Some (map_arr (fun x => true_divide (x - lo) (hi - lo)) X).
Proof.
  intros HX Hlo Hhi.
  assert (Hne : data X <> []).
  { intro E; rewrite (np_min_empty X E) in Hlo; discriminate. }
  destruct (extremes HX Hne)
    as (lo' & hi' & Hlo' & Hhi' & Hlin & Hhin & Hlu & Hhu & Hb).
  rewrite Hlo in Hlo'; injection Hlo' as <-.
  rewrite Hhi in Hhi'; injection Hhi' as <-.
  unfold normalise, numerator, denominator; rewrite Hlo, Hhi.
  unfold map_arr; cbn [shape data]; f_equal; f_equal.
  rewrite map_map; apply map_ext_in; intros x Hx.
  destruct HX as [_ Hu]; rewrite Forall_forall in Hu.
  pose proof (Hb x Hx) as Bx; pose proof (Hb hi Hhin) as Bh.
  rewrite (sub_u8_no_wrap (Hu x Hx) Hlu) by lia.
  rewrite (sub_u8_no_wrap Hhu Hlu) by lia.
  reflexivity.
Qed.

Lemma normalise_empty (X : ndarray Z) :
  data X = [] -> normalise X = None.
Proof.
  intro E; unfold normalise, numerator; rewrite (np_min_empty X E).
  reflexivity.
Qed.

(** C9: on a non-empty [uint8] data set the cell never raises: it has no
    guard.  Its divisor is [max - min], with [min] and [max] the least and
    the greatest pixel.  If all pixels are equal, and only then, the
    divisor is zero; every normalised pixel then is [0/0], NaN, hence
    outside [0, 1].  If two pixels differ, and only then, [min < max], the
    divisor is not zero and every normalised pixel is the finite quotient
    [(x - min) / (max - min)]. *)
Theorem normalise_divides_by_zero_iff_constant (X : ndarray Z) :
  uint8_array X -> data X <> [] ->
  exists lo hi Y,
    In lo (data X) /\ In hi (data X) /\
    (forall x, In x (data X) -> (lo <= x <= hi)%Z) /\
    np_min X = Some lo /\ np_max X = Some hi /\
    denominator X = Some (hi - lo)%Z /\
    normalise X = Some Y /\
    shape Y = shape X /\
    data Y = map (fun x => true_divide (x - lo) (hi - lo)) (data X) /\
    ((forall x y, In x (data X) -> In y (data X) -> x = y)
     <-> (hi - lo = 0)%Z) /\
    ((hi - lo = 0)%Z ->
       Forall (fun v => v = NaN) (data Y) /\
       Forall (fun v => ~ in_unit_interval v) (data Y)) /\
    ((exists x y, In x (data X) /\ In y (data X) /\ x <> y)
     <-> (lo < hi)%Z) /\
    ((lo < hi)%Z <-> (hi - lo <> 0)%Z) /\
    ((lo < hi)%Z <-> Forall (fun v => is_finite v = true) (data Y)) /\
    ((lo < hi)%Z ->
       data Y =
       map (fun x => Fin (inject_Z (x - lo) / inject_Z (hi - lo))) (data X)).
Proof.
  intros HX Hne.
  destruct (extremes HX Hne)
    as (lo & hi & Hlo & Hhi & Hlin & Hhin & Hlu & Hhu & Hb).
  exists lo, hi, (map_arr (fun x => true_divide (x - lo) (hi - lo)) X).
  assert (Hle : (lo <= hi)%Z) by (pose proof (Hb hi Hhin); lia).
  split; [exact Hlin|]; split; [exact Hhin|]; split; [exact Hb|].
  split; [exact Hlo|]; split; [exact Hhi|]; split.
  { unfold denominator; rewrite Hlo, Hhi.
    rewrite (sub_u8_no_wrap Hhu Hlu) by lia.
    reflexivity. }
  split; [apply normalise_eq; assumption|].
  split; [reflexivity|]; split; [reflexivity|].
  cbn [map_arr data].
  assert (Hnan : (hi - lo = 0)%Z ->
            Forall (fun v => v = NaN)
              (map (fun x => true_divide (x - lo) (hi - lo)) (data X))).
  { intro E; apply Forall_forall; intros v Hv.
    apply in_map_iff in Hv; destruct Hv as (x & <- & Hx).
    pose proof (Hb x Hx) as Bx.
    replace (x - lo)%Z with 0%Z by lia; rewrite E; reflexivity. }
  split; [split|].
  - intro Hconst; rewrite (Hconst hi lo Hhin Hlin); lia.
  - intros E x y Hx Hy.
    pose proof (Hb x Hx); pose proof (Hb y Hy); lia.
  - split.
    { intro E; split; [exact (Hnan E)|].
      eapply Forall_impl; [|exact (Hnan E)].
      intros v ->; cbn; auto. }
    split; [split|].
    + intros (x & y & Hx & Hy & Hxy).
      pose proof (Hb x Hx); pose proof (Hb y Hy); lia.
    + intro Hlt; exists lo, hi; repeat split; [assumption | assumption | lia].
    + split; [lia|].
      split; [split|].
      * intro Hlt; apply Forall_forall; intros v Hv.
        apply in_map_iff in Hv; destruct Hv as (x & <- & Hx).
        unfold true_divide.
        destruct (Z.eqb_spec (hi - lo) 0); [lia | reflexivity].
      * intro Hfin.
        destruct (Z.eq_dec lo hi) as [E | Hd]; [|lia].
        exfalso.
        assert (E0 : (hi - lo = 0)%Z) by lia.
        pose proof (Hnan E0) as Hn.
        rewrite Forall_forall in Hfin, Hn.
        assert (Hin : In (true_divide (lo - lo) (hi - lo))
                        (map (fun x => true_divide (x - lo) (hi - lo))
                           (data X))).
        { apply in_map_iff; exists lo; split; [reflexivity | exact Hlin]. }
        pose proof (Hfin _ Hin) as F1; rewrite (Hn _ Hin) in F1.
        discriminate.
      * intro Hlt; apply map_ext_in; intros x Hx.
        pose proof (Hb x Hx).
        apply true_divide_unit; lia.
Qed.

Lemma images_loadable : uint8_array Sample.images /\ data Sample.images <> [].
Proof.
  split; [split|]; [reflexivity| |discriminate].
  unfold is_uint8; repeat constructor; cbn; lia.
Qed.

Lemma grey_loadable : uint8_array Sample.grey /\ data Sample.grey <> [].
Proof.
  split; [split|]; [reflexivity| |discriminate].
  unfold is_uint8; repeat constructor; cbn; lia.
Qed.

Lemma normalise_divides_by_zero_witness :
  (exists Y, normalise Sample.grey = Some Y /\
             Forall (fun v => v = NaN) (data Y)) /\
  (exists Y, normalise Sample.images = Some Y /\
             Forall (fun v => is_finite v = true) (data Y)).
Proof.
  split.
  - destruct (@normalise_divides_by_zero_iff_constant Sample.grey
                (proj1 grey_loadable) (proj2 grey_loadable))
      as (lo & hi & Y & _ & _ & _ & _ & _ & _ & HY & _ & _ & Hc & Hn & _).
    exists Y; split; [exact HY|].
    refine (proj1 (Hn (proj1 Hc _))).
    intros x y Hx Hy.
    apply repeat_spec in Hx; apply repeat_spec in Hy; congruence.
  - destruct (@normalise_divides_by_zero_iff_constant Sample.images
                (proj1 images_loadable) (proj2 images_loadable))
      as (lo & hi & Y & _ & _ & _ & _ & _ & _ & HY & _ & _ & _ & _ & Hd
          & _ & Hf & _).
    exists Y; split; [exact HY|].
    apply Hf, Hd.
    exists 0%Z, 51%Z; cbn; split; [auto|]; split; [auto|]; discriminate.
Defined.

End Cell1Facts.

(** ** The script: statements, the epoch, the loop *)

Module ScriptFacts.

Import Script.

Unset Implicit Arguments.

Lemma half_batch_size_eq : half_batch_size = 16%nat.
Proof. reflexivity. Qed.

Lemma format_log_line (e : Z) (d0 p g0 : spec_float) :
  Python.format log_format
    [Python.PyInt e; Python.PyFloat d0; Python.PyFloat p; Python.PyFloat g0]
  = Some (Python.str_int e ++ " [D loss: " ++ Python.format_f 6 d0 ++
          ", acc.: " ++ Python.format_f 2 p ++
          "%] [G loss: " ++ Python.format_f 6 g0 ++ "]")%string.
Proof. reflexivity. Qed.

Lemma count_app (p : event -> bool) (l1 l2 : list event) :
  count p (l1 ++ l2) = (count p l1 + count p l2)%nat.
Proof. unfold count; rewrite filter_app, length_app; reflexivity. Qed.

Lemma count_rev (p : event -> bool) (l : list event) :
  count p (rev l) = count p l.
Proof.
  induction l as [|e l IH]; [reflexivity|].
  cbn [rev]; rewrite count_app, IH.
  unfold count; cbn [filter]; destruct (p e); cbn; lia.
Qed.

Lemma range_S (k : nat) :
  Python.range (S k) = Python.range k ++ [Z.of_nat k].
Proof.
  unfold Python.range; rewrite seq_S, map_app; reflexivity.
Qed.

Lemma range_length (k : nat) : length (Python.range k) = k.
Proof. unfold Python.range; rewrite length_map, length_seq; reflexivity. Qed.

Lemma in_range (k : nat) (e : Z) :
  In e (Python.range k) <-> (0 <= e < Z.of_nat k)%Z.
Proof.
  unfold Python.range; rewrite in_map_iff; split.
  - intros (i & <- & Hi); apply in_seq in Hi; lia.
  - intros He; exists (Z.to_nat e); split; [lia|].
    apply in_seq; lia.
Qed.

(** The check of an array against a model. *)
Lemma batch_of_rows (expected : list nat) (a : ndarray float) (b : nat) :
  shape a = b :: expected -> expected <> [] ->
  batch_of expected a = Some b.
Proof.
  intros H Hne; unfold batch_of, standardize; rewrite H.
  destruct expected as [|n rest]; [contradiction|].
  destruct (list_eq_dec Nat.eq_dec (n :: rest) (n :: rest));
    [reflexivity | contradiction].
Qed.

Lemma batch_of_column (a : ndarray float) (b : nat) :
  shape a = [b] -> batch_of [1%nat] a = Some b.
Proof. intro H; unfold batch_of, standardize; rewrite H; reflexivity. Qed.

Lemma batch_of_mismatch (expected sh : list nat) (a : ndarray float)
  (b : nat) :
  shape a = b :: sh -> sh <> [] -> sh <> expected ->
  batch_of expected a = None.
Proof.
  intros H Hne Hd; unfold batch_of, standardize; rewrite H.
  destruct sh as [|n rest]; [contradiction|].
  destruct (list_eq_dec Nat.eq_dec (n :: rest) expected);
    [contradiction | reflexivity].
Qed.

Lemma batch_of_no_axis (expected : list nat) (a : ndarray float) :
  shape a = [] -> batch_of expected a = None.
Proof. intro H; unfold batch_of, standardize; rewrite H; reflexivity. Qed.

(** None of the layers of the notebook is stateful: no model made of them
    has a state update to run. *)
Lemma no_state_updates (m : Keras.sequential) : state_updates m = [].
Proof.
  unfold state_updates.
  induction (Keras.layers m) as [|l ls IH]; [reflexivity|].
  destruct l; exact IH.
Qed.

Section WithBackend.

Variable bk : backend.

Local Abbreviation state := (Script.state bk).

(** *** Single statements *)

Lemma for_each_snoc {A} (xs : list A) (x : A) (body : A -> M bk unit)
  (s : state) :
  for_each (xs ++ [x]) body s =
  match for_each xs body s with
  | Some (_, s') => body x s'
  | None => None
  end.
Proof.
  revert s; induction xs as [|y ys IH]; intro s; cbn [app for_each].
  - unfold bind, ret; destruct (body x s) as [[[] s']|]; reflexivity.
  - unfold bind.
    destruct (body y s) as [[[] s']|]; [apply IH | reflexivity].
Qed.

Lemma draws_in_range (at_ high size : nat) :
  high <> 0%nat ->
  Forall (fun i => (i < high)%nat) (draws bk at_ high size).
Proof.
  intro H; unfold draws; apply Forall_forall; intros i Hi.
  apply in_map_iff in Hi; destruct Hi as (j & <- & _).
  apply Nat.mod_upper_bound; exact H.
Qed.

Lemma draws_length (at_ high size : nat) :
  length (draws bk at_ high size) = size.
Proof. unfold draws; rewrite length_map, length_seq; reflexivity. Qed.

(** The batch of real images of an epoch exists: the indices drawn are
    below the number of images. *)
Lemma real_batch_exists (X : ndarray float) (at_ size : nat) :
  hd 0%nat (shape X) <> 0%nat ->
  exists real_imgs,
    fancy_index X (draws bk at_ (hd 0%nat (shape X)) size) = Some real_imgs /\
    shape real_imgs = size :: tl (shape X).
Proof.
  intro H.
  destruct (@NumpyFacts.fancy_index_in_range _ X
              (draws bk at_ (hd 0%nat (shape X)) size))
    as (b & Hb & Hs).
  - apply draws_in_range; exact H.
  - exists b; split; [exact Hb|].
    rewrite Hs, draws_length; reflexivity.
Qed.

Lemma run_no_updates (m : Keras.sequential) (w : weights bk) :
  run_updates bk (state_updates m) w = w.
Proof. rewrite no_state_updates; reflexivity. Qed.

(** [G.predict] on an array that fits [G]: the outputs of the examples on
    the current weights of [G], stacked; nothing changes but the log. *)
Lemma G_predict_eq (x : ndarray float) (s : state) (out : list nat)
  (b : nat) :
  Keras.output_shape (Cell2.G_model (defs s)) = Some out ->
  batch_of (Keras.input_shape (Cell2.G_model (defs s))) x = Some b ->
  b <> 0%nat ->
  G_predict x s =
  Some (mk_ndarray (b :: out)
          (predictions bk (Cell2.G_model (defs s)) (G_weights s) x),
        @mk_state bk (X_train s) (defs s) (D_weights s) (G_weights s)
          (D_trainable s) (G_trainable s) (D_collected s) (gan_collected s)
          (optimizer s) (rng s) (Predict G x :: log s)).
Proof.
  intros Hout Hb Hb0; unfold G_predict, bind, get, lift.
  rewrite Hout; cbn [ret]; rewrite Hb; cbn [ret].
  unfold emit, ret; cbn [X_train defs D_weights G_weights D_trainable
                         G_trainable D_collected gan_collected optimizer
                         rng log].
  rewrite run_no_updates.
  destruct (Nat.eqb_spec b 0) as [E | _]; [contradiction | reflexivity].
Qed.

(** An array that does not fit [G] makes [G.predict] raise. *)
Lemma G_predict_rejects (x : ndarray float) (s : state) :
  batch_of (Keras.input_shape (Cell2.G_model (defs s))) x = None ->
  G_predict x s = None.
Proof.
  intro Hb; unfold G_predict, bind, get, lift.
  destruct (Keras.output_shape (Cell2.G_model (defs s))); [|reflexivity].
  cbn [ret]; rewrite Hb; reflexivity.
Qed.

Lemma normal_eq (rows cols : nat) (s : state) :
  normal rows cols s =
  Some (normal_draws bk (rng s) rows cols,
        @mk_state bk (X_train s) (defs s) (D_weights s) (G_weights s)
          (D_trainable s) (G_trainable s) (D_collected s) (gan_collected s)
          (optimizer s) (rng s + rows * cols)
          (Normal [rows; cols] :: log s)).
Proof. reflexivity. Qed.

(** [train_on_batch] on a compiled model and a batch that fits it: the
    weights collected at [compile] get the values the optimiser step
    computes, all others keep theirs. *)
Lemma train_on_batch_eq (m : model_id) (params : list model_id)
  (out : list nat) (b : nat) (x y : ndarray float) (s : state) :
  collected s m = Some params ->
  model_output_shape (defs s) m = Some out ->
  batch_of (model_input_shape (defs s) m) x = Some b ->
  batch_of out y = Some b ->
  train_on_batch m x y s =
  Some ([loss (step bk m params (D_weights s) (G_weights s) (optimizer s)
                 x y);
         acc (step bk m params (D_weights s) (G_weights s) (optimizer s)
                x y)],
        @mk_state bk (X_train s) (defs s)
          (if updates params D
           then new_D (step bk m params (D_weights s) (G_weights s)
                         (optimizer s) x y)
           else D_weights s)
          (if updates params G
           then new_G (step bk m params (D_weights s) (G_weights s)
                         (optimizer s) x y)
           else G_weights s)
          (D_trainable s) (G_trainable s) (D_collected s) (gan_collected s)
          (new_optimizer (step bk m params (D_weights s) (G_weights s)
                            (optimizer s) x y))
          (rng s) (TrainOnBatch m x y :: log s)).
Proof.
  intros Hc Hout Hx Hy; unfold train_on_batch, bind, get, lift.
  rewrite Hc; cbn [ret]; rewrite Hout; cbn [ret].
  rewrite Hx; cbn [ret]; rewrite Hy; cbn [ret].
  rewrite Nat.eqb_refl; reflexivity.
Qed.

(** A model that was not compiled cannot be trained: [G] never is. *)
Lemma train_on_batch_uncompiled (m : model_id) (x y : ndarray float)
  (s : state) :
  collected s m = None -> train_on_batch m x y s = None.
Proof.
  intro H; unfold train_on_batch, bind, get, lift; rewrite H; reflexivity.
Qed.

(** A batch that does not fit the model makes [train_on_batch] raise. *)
Lemma train_on_batch_rejects_x (m : model_id) (x y : ndarray float)
  (s : state) :
  batch_of (model_input_shape (defs s) m) x = None ->
  train_on_batch m x y s = None.
Proof.
  intro H; unfold train_on_batch, bind, get, lift.
  destruct (collected s m); [|reflexivity]; cbn [ret].
  destruct (model_output_shape (defs s) m); [|reflexivity]; cbn [ret].
  rewrite H; reflexivity.
Qed.

Lemma train_on_batch_rejects_y (m : model_id) (out : list nat)
  (x y : ndarray float) (s : state) :
  model_output_shape (defs s) m = Some out ->
  batch_of out y = None ->
  train_on_batch m x y s = None.
Proof.
  intros Hout H; unfold train_on_batch, bind, get, lift.
  destruct (collected s m); [|reflexivity]; cbn [ret].
  rewrite Hout; cbn [ret].
  destruct (batch_of (model_input_shape (defs s) m) x); [|reflexivity].
  cbn [ret]; rewrite H; reflexivity.
Qed.

Lemma train_on_batch_rejects_lengths (m : model_id) (out : list nat)
  (bx by_ : nat) (x y : ndarray float) (s : state) :
  model_output_shape (defs s) m = Some out ->
  batch_of (model_input_shape (defs s) m) x = Some bx ->
  batch_of out y = Some by_ ->
  bx <> by_ ->
  train_on_batch m x y s = None.
Proof.
  intros Hout Hx Hy Hd; unfold train_on_batch, bind, get, lift.
  destruct (collected s m); [|reflexivity]; cbn [ret].
  rewrite Hout; cbn [ret]; rewrite Hx; cbn [ret]; rewrite Hy; cbn [ret].
  destruct (Nat.eqb_spec bx by_); [contradiction | reflexivity].
Qed.

(** *** The epoch *)

Lemma train_epoch_eq (X : ndarray float) (ms : Cell2.models)
  (wd wg : weights bk) (o : optimizer_state bk) (r : nat) (l : list event)
  (M H W : nat) (real_imgs : ndarray float) :
  shape X = [M; H; W] -> M <> 0%nat ->
  Cell2.build [M; H; W] = Some ms ->
  fancy_index X (draws bk r M half_batch_size) = Some real_imgs ->
  shape real_imgs = [half_batch_size; H; W] ->
  let N := Cell2.noise_res ms in
  let noise := normal_draws bk (r + half_batch_size) half_batch_size N in
  let fake_imgs :=
    mk_ndarray [half_batch_size; H; W]
      (predictions bk (Cell2.G_model ms) wg noise) in
  let r1 := step bk D [D] wd wg o real_imgs (ones half_batch_size) in
  let r2 := step bk D [D] (new_D r1) wg (new_optimizer r1) fake_imgs
              (zeros half_batch_size) in
  let noise' := normal_draws bk (r + half_batch_size + half_batch_size * N)
                  batch_size N in
  let r3 := step bk full_gan [G] (new_D r2) wg (new_optimizer r2) noise'
              (ones batch_size) in
  train_epoch (@mk_state bk X ms wd wg false true (Some [D]) (Some [G])
                 o r l) =
  Some (mk_diagnostics [loss r1; acc r1] [loss r2; acc r2]
          [mean2 (loss r1) (loss r2); mean2 (acc r1) (acc r2)]
          [loss r3; acc r3],
        @mk_state bk X ms (new_D r2) (new_G r3) false true
          (Some [D]) (Some [G]) (new_optimizer r3)
          (r + half_batch_size + half_batch_size * N + batch_size * N)
          (TrainOnBatch full_gan noise' (ones batch_size) ::
           Normal [batch_size; N] ::
           TrainOnBatch D fake_imgs (zeros half_batch_size) ::
           TrainOnBatch D real_imgs (ones half_batch_size) ::
           Predict G noise ::
           Normal [half_batch_size; N] ::
           RandInt M half_batch_size :: l)).
Proof.
  intros Hsh HM Hb Hreal Hrs N noise fake_imgs r1 r2 noise' r3.
  destruct (Cell2Facts.build_shapes M H W ms Hb)
    as (H8 & HDi & HDo & HGi & HGo & HN).
  unfold train_epoch, bind, get, lift, shape_at.
  cbn [X_train defs]; rewrite Hsh; cbn [nth_error ret].
  unfold randint, bind, get.
  destruct (Nat.eqb_spec M 0) as [E|_]; [contradiction|].
  unfold advance, emit, ret.
  cbn [X_train defs D_weights G_weights D_trainable G_trainable
       D_collected gan_collected optimizer rng log].
  rewrite Hreal.
  unfold normal, bind, get, advance, emit, ret.
  cbn [X_train defs D_weights G_weights D_trainable G_trainable
       D_collected gan_collected optimizer rng log].
  fold N; fold noise.
  rewrite (G_predict_eq noise _ [H; W] half_batch_size);
    [|exact HGo
     |cbn [defs]; rewrite HGi; apply batch_of_rows;
        [reflexivity | discriminate]
     |discriminate].
  cbn [X_train defs D_weights G_weights D_trainable G_trainable
       D_collected gan_collected optimizer rng log].
  fold fake_imgs.
  rewrite (train_on_batch_eq D [D] [1%nat] half_batch_size real_imgs);
    [|reflexivity
     |exact HDo
     |cbn [defs model_input_shape]; rewrite HDi; apply batch_of_rows;
        [exact Hrs | discriminate]
     |apply batch_of_column; reflexivity].
  cbn [X_train defs D_weights G_weights D_trainable G_trainable
       D_collected gan_collected optimizer rng log].
  fold r1.
  rewrite (train_on_batch_eq D [D] [1%nat] half_batch_size fake_imgs);
    [|reflexivity
     |exact HDo
     |cbn [defs model_input_shape]; rewrite HDi; apply batch_of_rows;
        [reflexivity | discriminate]
     |apply batch_of_column; reflexivity].
  cbn [X_train defs D_weights G_weights D_trainable G_trainable
       D_collected gan_collected optimizer rng log updates existsb
       model_eqb orb].
  fold r2.
  cbn [np_add option_map scale map].
  rewrite (train_on_batch_eq full_gan [G] [1%nat] batch_size noise');
    [|reflexivity
     |exact HDo
     |cbn [defs model_input_shape]; apply batch_of_rows;
        [reflexivity | discriminate]
     |apply batch_of_column; reflexivity].
  reflexivity.
Qed.

Lemma report_eq (e : Z) (d0 d1 g0 g1 : float32) (s : state) :
  report e [d0; d1] [g0; g1] s =
  if (e mod 100 =? 0)%Z then
    Some (tt, @mk_state bk (X_train s) (defs s) (D_weights s) (G_weights s)
                (D_trainable s) (G_trainable s) (D_collected s)
                (gan_collected s) (optimizer s) (rng s)
                (Print (diagnostic_line e d0 d1 g0) :: log s))
  else Some (tt, s).
Proof.
  unfold report; destruct (e mod 100 =? 0)%Z; reflexivity.
Qed.

Lemma epoch_body_eq (e : Z) (X : ndarray float) (ms : Cell2.models)
  (wd wg : weights bk) (o : optimizer_state bk) (r : nat) (l : list event)
  (M H W : nat) (real_imgs : ndarray float) :
  shape X = [M; H; W] -> M <> 0%nat ->
  Cell2.build [M; H; W] = Some ms ->
  fancy_index X (draws bk r M half_batch_size) = Some real_imgs ->
  shape real_imgs = [half_batch_size; H; W] ->
  let N := Cell2.noise_res ms in
  let noise := normal_draws bk (r + half_batch_size) half_batch_size N in
  let fake_imgs :=
    mk_ndarray [half_batch_size; H; W]
      (predictions bk (Cell2.G_model ms) wg noise) in
  let r1 := step bk D [D] wd wg o real_imgs (ones half_batch_size) in
  let r2 := step bk D [D] (new_D r1) wg (new_optimizer r1) fake_imgs
              (zeros half_batch_size) in
  let noise' := normal_draws bk (r + half_batch_size + half_batch_size * N)
                  batch_size N in
  let r3 := step bk full_gan [G] (new_D r2) wg (new_optimizer r2) noise'
              (ones batch_size) in
  epoch_body e (@mk_state bk X ms wd wg false true (Some [D]) (Some [G])
                  o r l) =
  Some (tt,
        @mk_state bk X ms (new_D r2) (new_G r3) false true
          (Some [D]) (Some [G]) (new_optimizer r3)
          (r + half_batch_size + half_batch_size * N + batch_size * N)
          ((if (e mod 100 =? 0)%Z
            then [Print (diagnostic_line e (mean2 (loss r1) (loss r2))
                           (mean2 (acc r1) (acc r2)) (loss r3))]
            else []) ++
           TrainOnBatch full_gan noise' (ones batch_size) ::
           Normal [batch_size; N] ::
           TrainOnBatch D fake_imgs (zeros half_batch_size) ::
           TrainOnBatch D real_imgs (ones half_batch_size) ::
           Predict G noise ::
           Normal [half_batch_size; N] ::
           RandInt M half_batch_size :: l)).
Proof.
  intros Hsh HM Hb Hreal Hrs N noise fake_imgs r1 r2 noise' r3.
  unfold epoch_body, bind.
  rewrite (train_epoch_eq X ms wd wg o r l M H W real_imgs
             Hsh HM Hb Hreal Hrs).
  cbn [dloss gloss]; rewrite report_eq.
  destruct (e mod 100 =? 0)%Z; reflexivity.
Qed.

(** A ready state is the record the epoch equations speak of. *)
Lemma ready_inv (s : state) :
  ready s ->
  exists M H W,
    shape (X_train s) = [M; H; W] /\ M <> 0%nat /\
    Cell2.build [M; H; W] = Some (defs s) /\
    s = @mk_state bk (X_train s) (defs s) (D_weights s) (G_weights s)
          false true (Some [D]) (Some [G]) (optimizer s) (rng s) (log s).
Proof.
  destruct s as [X ms wd wg dt gt dc gc o r l].
  unfold ready, compiled; cbn.
  intros ((-> & -> & -> & ->) & HM & Hrank & Hb).
  destruct (shape X) as [|M [|H [|W [|? ?]]]]; try discriminate.
  exists M, H, W; auto.
Qed.

(** A ready state stays ready whatever the weights, the optimiser state,
    the random stream and the log become. *)
Lemma ready_frame (s : state) (wd wg : weights bk) (o : optimizer_state bk)
  (r : nat) (l : list event) :
  ready s ->
  ready (@mk_state bk (X_train s) (defs s) wd wg false true
           (Some [D]) (Some [G]) o r l).
Proof.
  intros (_ & HM & Hrank & Hb).
  split; [repeat split|]; cbn [X_train defs]; auto.
Qed.

(** One iteration from a ready state: it does not raise, and the state it
    leaves is given field by field. *)
Lemma epoch_body_spec (s : state) (e : Z) :
  ready s ->
  exists real_imgs,
    let M := hd 0%nat (shape (X_train s)) in
    let N := Cell2.noise_res (defs s) in
    let noise :=
      normal_draws bk (rng s + half_batch_size) half_batch_size N in
    let fake_imgs :=
      mk_ndarray (half_batch_size :: tl (shape (X_train s)))
        (predictions bk (Cell2.G_model (defs s)) (G_weights s) noise) in
    let r1 := step bk D [D] (D_weights s) (G_weights s) (optimizer s)
                real_imgs (ones half_batch_size) in
    let r2 := step bk D [D] (new_D r1) (G_weights s) (new_optimizer r1)
                fake_imgs (zeros half_batch_size) in
    let noise' :=
      normal_draws bk (rng s + half_batch_size + half_batch_size * N)
        batch_size N in
    let r3 := step bk full_gan [G] (new_D r2) (G_weights s)
                (new_optimizer r2) noise' (ones batch_size) in
    fancy_index (X_train s) (draws bk (rng s) M half_batch_size)
      = Some real_imgs /\
    shape real_imgs = half_batch_size :: tl (shape (X_train s)) /\
    epoch_body e s =
    Some (tt,
          @mk_state bk (X_train s) (defs s) (new_D r2) (new_G r3) false true
            (Some [D]) (Some [G]) (new_optimizer r3)
            (rng s + half_batch_size + half_batch_size * N + batch_size * N)
            ((if (e mod 100 =? 0)%Z
              then [Print (diagnostic_line e (mean2 (loss r1) (loss r2))
                             (mean2 (acc r1) (acc r2)) (loss r3))]
              else []) ++
             TrainOnBatch full_gan noise' (ones batch_size) ::
             Normal [batch_size; N] ::
             TrainOnBatch D fake_imgs (zeros half_batch_size) ::
             TrainOnBatch D real_imgs (ones half_batch_size) ::
             Predict G noise ::
             Normal [half_batch_size; N] ::
             RandInt M half_batch_size :: log s)).
Proof.
  intro Hr.
  destruct (ready_inv s Hr) as (M & H & W & Hsh & HM & Hb & Hs).
  assert (HM' : hd 0%nat (shape (X_train s)) <> 0%nat)
    by (rewrite Hsh; exact HM).
  destruct (real_batch_exists (X_train s) (rng s) half_batch_size HM')
    as (real_imgs & Hreal & Hrs).
  exists real_imgs; cbv zeta.
  split; [exact Hreal|]; split; [exact Hrs|].
  rewrite Hs at 1.
  rewrite Hsh in Hreal, Hrs |- *; cbn [hd tl] in Hreal, Hrs |- *.
  apply (epoch_body_eq e (X_train s) (defs s) (D_weights s) (G_weights s)
           (optimizer s) (rng s) (log s) M H W real_imgs Hsh HM Hb Hreal Hrs).
Qed.

Lemma train_epoch_spec (s : state) :
  ready s ->
  exists real_imgs,
    let M := hd 0%nat (shape (X_train s)) in
    let N := Cell2.noise_res (defs s) in
    let noise :=
      normal_draws bk (rng s + half_batch_size) half_batch_size N in
    let fake_imgs :=
      mk_ndarray (half_batch_size :: tl (shape (X_train s)))
        (predictions bk (Cell2.G_model (defs s)) (G_weights s) noise) in
    let r1 := step bk D [D] (D_weights s) (G_weights s) (optimizer s)
                real_imgs (ones half_batch_size) in
    let r2 := step bk D [D] (new_D r1) (G_weights s) (new_optimizer r1)
                fake_imgs (zeros half_batch_size) in
    let noise' :=
      normal_draws bk (rng s + half_batch_size + half_batch_size * N)
        batch_size N in
    let r3 := step bk full_gan [G] (new_D r2) (G_weights s)
                (new_optimizer r2) noise' (ones batch_size) in
    fancy_index (X_train s) (draws bk (rng s) M half_batch_size)
      = Some real_imgs /\
    train_epoch s =
    Some (mk_diagnostics [loss r1; acc r1] [loss r2; acc r2]
            [mean2 (loss r1) (loss r2); mean2 (acc r1) (acc r2)]
            [loss r3; acc r3],
          @mk_state bk (X_train s) (defs s) (new_D r2) (new_G r3) false true
            (Some [D]) (Some [G]) (new_optimizer r3)
            (rng s + half_batch_size + half_batch_size * N + batch_size * N)
            (TrainOnBatch full_gan noise' (ones batch_size) ::
             Normal [batch_size; N] ::
             TrainOnBatch D fake_imgs (zeros half_batch_size) ::
             TrainOnBatch D real_imgs (ones half_batch_size) ::
             Predict G noise ::
             Normal [half_batch_size; N] ::
             RandInt M half_batch_size :: log s)).
Proof.
  intro Hr.
  destruct (ready_inv s Hr) as (M & H & W & Hsh & HM & Hb & Hs).
  assert (HM' : hd 0%nat (shape (X_train s)) <> 0%nat)
    by (rewrite Hsh; exact HM).
  destruct (real_batch_exists (X_train s) (rng s) half_batch_size HM')
    as (real_imgs & Hreal & Hrs).
  exists real_imgs; cbv zeta.
  split; [exact Hreal|].
  rewrite Hs at 1.
  rewrite Hsh in Hreal, Hrs |- *; cbn [hd tl] in Hreal, Hrs |- *.
  apply (train_epoch_eq (X_train s) (defs s) (D_weights s) (G_weights s)
           (optimizer s) (rng s) (log s) M H W real_imgs Hsh HM Hb Hreal Hrs).
Qed.

(** Cell 4 with the models cell 2 built: it draws one noise array and
    predicts nine images from it. *)
Lemma cell4_eq (s : state) (M H W : nat) :
  Cell2.build [M; H; W] = Some (defs s) ->
  let noise := normal_draws bk (rng s) n (Cell2.noise_res (defs s)) in
  cell4 s =
  Some (mk_ndarray [n; H; W]
          (predictions bk (Cell2.G_model (defs s)) (G_weights s) noise),
        @mk_state bk (X_train s) (defs s) (D_weights s) (G_weights s)
          (D_trainable s) (G_trainable s) (D_collected s) (gan_collected s)
          (optimizer s) (rng s + n * Cell2.noise_res (defs s))
          (Predict G noise :: Normal [n; Cell2.noise_res (defs s)] :: log s)).
Proof.
  intros Hb noise.
  destruct (Cell2Facts.build_shapes M H W (defs s) Hb)
    as (H8 & HDi & HDo & HGi & HGo & HN).
  unfold cell4, bind, get.
  rewrite normal_eq; fold noise.
  rewrite (G_predict_eq noise _ [H; W] n);
    [reflexivity
    |exact HGo
    |cbn [defs]; rewrite HGi; apply batch_of_rows;
       [reflexivity | discriminate]
    |discriminate].
Qed.

(** *** The loop *)

(** Any number of iterations from a ready state: the loop does not raise,
    leaves a ready state with the same data set and models, and adds to
    the log two training steps of [D], one of [full_gan] and one
    prediction per iteration, no assignment to [D.trainable], and one line
    per index that is a multiple of 100. *)
Lemma loop_spec (es : list Z) :
  forall s : state,
    ready s ->
    exists s',
      for_each es (@epoch_body bk) s = Some (tt, s') /\
      ready s' /\
      X_train s' = X_train s /\
      defs s' = defs s /\
      count (is_train D) (log s')
        = (2 * length es + count (is_train D) (log s))%nat /\
      count (is_train full_gan) (log s')
        = (length es + count (is_train full_gan) (log s))%nat /\
      count (is_train G) (log s') = count (is_train G) (log s) /\
      count is_predict (log s')
        = (length es + count is_predict (log s))%nat /\
      filter is_set_trainable (log s') = filter is_set_trainable (log s) /\
      count is_print (log s') = (printing es + count is_print (log s))%nat.
Proof.
  induction es as [|e es IH]; intros s Hr.
  - exists s; unfold printing; cbn [for_each filter length ret].
    repeat (split; [first [reflexivity | assumption | lia]|]); reflexivity.
  - destruct (epoch_body_spec s e Hr) as (real_imgs & _ & _ & He).
    cbv zeta in He.
    cbn [for_each]; unfold bind; rewrite He.
    match goal with
    | |- exists s', for_each es _ ?s1 = _ /\ _ =>
        destruct (IH s1) as (s' & Hrun & Hr' & HX & Hd & C1 & C2 & C3 & C4
                             & C5 & C6)
    end.
    { apply ready_frame; exact Hr. }
    exists s'; split; [exact Hrun|]; split; [exact Hr'|].
    cbn [X_train defs log] in *.
    split; [exact HX|]; split; [exact Hd|].
    rewrite C1, C2, C3, C4, C5, C6, !count_app, filter_app.
    unfold printing; cbn [filter length].
    destruct (e mod 100 =? 0)%Z; cbn; unfold count;
      repeat split; first [reflexivity | lia].
Qed.

End WithBackend.

End ScriptFacts.

(** ** The training loop, epoch by epoch *)

Module LoopFacts.

Import Script ScriptFacts.

Unset Implicit Arguments.

Lemma epochs_eq : Z.of_nat epochs = 30000%Z.
Proof. unfold epochs; rewrite Z2Nat.id; lia. Qed.

Lemma start_ready : ready (bk:=Sample.counting) Sample.start.
Proof.
  unfold ready, compiled; cbn [X_train defs D_collected gan_collected
                               D_trainable G_trainable Sample.start].
  repeat split; discriminate.
Qed.

(** The state before iteration [k] exists and is ready; iteration [k] runs
    from it. *)
Lemma before_epoch (bk : backend) (s0 : state bk) (k : nat) :
  ready s0 ->
  exists s,
    after_epochs k s0 = Some (tt, s) /\
    ready s /\
    X_train s = X_train s0 /\ defs s = defs s0 /\
    after_epochs (S k) s0 = epoch_body (Z.of_nat k) s.
Proof.
  intro Hr.
  destruct (loop_spec bk (Python.range k) s0 Hr)
    as (s & Hrun & Hrs & HX & Hd & _).
  exists s; repeat (split; [assumption|]).
  unfold after_epochs in *.
  rewrite range_S, for_each_snoc, Hrun; reflexivity.
Qed.



(** *** Cell 2 *)

Lemma cell2_statements_eq (bk : backend) (X : ndarray float)
  (ms : Cell2.models) :
  cell2_statements (initial bk X ms) =
  Some (tt,
        @mk_state bk X ms
          (init_weights bk (Cell2.D_model ms))
          (init_weights bk (Cell2.G_model ms))
          false true (Some [D]) (Some [G])
          (Adam bk (2 # 10000) (1 # 2)) 0%nat
          [Compile full_gan [G]; SetTrainable D false; Compile D [D]]).
Proof. reflexivity. Qed.

(** Cell 2 on a data set it builds models for. *)
Lemma cell2_eq (bk : backend) (X : ndarray float) (ms : Cell2.models) :
  Cell2.build (shape X) = Some ms ->
  exists s0,
    cell2 bk X = Some s0 /\
    cell2_statements (initial bk X ms) = Some (tt, s0) /\
    defs s0 = ms /\
    X_train s0 = X /\ compiled s0 /\
    D_weights s0 = init_weights bk (Cell2.D_model ms) /\
    G_weights s0 = init_weights bk (Cell2.G_model ms) /\
    trace s0 = [Compile D [D]; SetTrainable D false; Compile full_gan [G]].
Proof.
  intros Hb; unfold cell2.
  rewrite Hb, cell2_statements_eq.
  eexists; split; [reflexivity|].
  repeat split.
Qed.

(** Cell 2 on a data set of images, with a first image: the state it
    leaves is ready for the loop. *)
Lemma cell2_ready (bk : backend) (X : ndarray float) (ms : Cell2.models) :
  Cell2.build (shape X) = Some ms ->
  length (shape X) = 3%nat ->
  hd 0%nat (shape X) <> 0%nat ->
  exists s0,
    cell2 bk X = Some s0 /\
    cell2_statements (initial bk X ms) = Some (tt, s0) /\
    ready s0 /\
    defs s0 = ms /\ X_train s0 = X /\
    D_weights s0 = init_weights bk (Cell2.D_model ms) /\
    G_weights s0 = init_weights bk (Cell2.G_model ms) /\
    trace s0 = [Compile D [D]; SetTrainable D false; Compile full_gan [G]].
Proof.
  intros Hb Hrank HM.
  destruct (cell2_eq bk X ms Hb)
    as (s0 & Hc & Hst & Hd & HX & Hcomp & HwD & HwG & Htr).
  exists s0; split; [exact Hc|]; split; [exact Hst|].
  split; [|auto 10].
  split; [exact Hcomp|]; rewrite HX, Hd; auto.
Qed.

(** Cell 4 from a ready state. *)
Lemma cell4_ready (bk : backend) (s : state bk) :
  ready s ->
  let noise := normal_draws bk (rng s) n (Cell2.noise_res (defs s)) in
  cell4 s =
  Some (mk_ndarray (n :: tl (shape (X_train s)))
          (predictions bk (Cell2.G_model (defs s)) (G_weights s) noise),
        @mk_state bk (X_train s) (defs s) (D_weights s) (G_weights s)
          (D_trainable s) (G_trainable s) (D_collected s) (gan_collected s)
          (optimizer s) (rng s + n * Cell2.noise_res (defs s))
          (Predict G noise :: Normal [n; Cell2.noise_res (defs s)] :: log s)).
Proof.
  intros Hr noise.
  destruct (ready_inv bk s Hr) as (M & H & W & Hsh & _ & Hb & _).
  rewrite Hsh; cbn [tl].
  apply (cell4_eq bk s M H W Hb).
Qed.

(** Cell 2 raises when the models cannot be built. *)
Lemma cell2_none (bk : backend) (X : ndarray float) :
  Cell2.build (shape X) = None -> cell2 bk X = None.
Proof. intro Hb; unfold cell2; rewrite Hb; reflexivity. Qed.

(** A loadable array: its first dimension is not zero, and it has a
    second and a third. *)
Lemma loadable_shape (loaded : ndarray Z) :
  loadable loaded ->
  exists M H W, shape loaded = [M; H; W] /\ M <> 0%nat.
Proof.
  intros ((Hw & _) & Hrank & Hne).
  destruct (shape loaded) as [|M [|H [|W [|? ?]]]] eqn:E; try discriminate.
  exists M, H, W; split; [reflexivity|].
  intros ->.
  unfold well_shaped in Hw; rewrite E in Hw; cbn in Hw.
  destruct (data loaded); [contradiction | discriminate].
Qed.

End LoopFacts.

(** ** The trainable flag, and which weights a training step writes *)

Module TrainableFacts.

Import Script ScriptFacts LoopFacts.

Unset Implicit Arguments.

Lemma start_is_cell2 :
  cell2 Sample.counting Sample.normalised = Some Sample.start.
Proof. reflexivity. Qed.

(** C2 as stated fails: in the state cell 2 leaves, a training step of [D]
    on the data set does change the weights of [D], and [D.trainable] is
    [False] after it, not [True]. *)
Lemma D_flag_is_false_after_D_step :
  cell2 Sample.counting Sample.normalised = Some Sample.start /\
  exists sD : state Sample.counting,
    train_on_batch D Sample.normalised (ones 2) Sample.start
      = Some ([S754_finite false 8388608 (-24);
               S754_finite false 10485760 (-24)], sD) /\
    D_weights sD <> D_weights Sample.start /\
    D_trainable sD = false /\
    D_trainable sD <> true.
Proof.
  split; [reflexivity|].
  eexists; split.
  - apply (train_on_batch_eq Sample.counting D [D] [1%nat] 2); reflexivity.
  - cbn; repeat split; discriminate.
Qed.

(** C2, amended: when both models are compiled as cell 2 compiles them,
    for the models cell 2 builds and a batch size [b] other than zero, a
    training step of [D] on [b] images with [b] labels gives the weights
    of [D] the values the optimiser computes for them and leaves the
    weights of [G] as they are; a training step of [full_gan] on [b] noise
    vectors with [b] labels gives the weights of [G] the values the
    optimiser computes and leaves the weights of [D] as they are;
    [D.trainable] is [False] before and after both, and the models stay
    compiled as they were.  A batch of another shape makes the step raise,
    and [G] alone, never compiled, cannot be trained.  Cell 2 leaves such
    a state. *)
Theorem D_weights_frozen_in_composite_step_only
  (bk : backend) (s : state bk) (M H W b : nat) (x z y : ndarray float) :
  compiled s ->
  Cell2.build [M; H; W] = Some (defs s) ->
  b <> 0%nat ->
  shape x = [b; H; W] ->
  shape z = [b; Cell2.noise_res (defs s)] ->
  shape y = [b] ->
  let rD := step bk D [D] (D_weights s) (G_weights s) (optimizer s) x y in
  let rG :=
    step bk full_gan [G] (D_weights s) (G_weights s) (optimizer s) z y in
  (exists sD,
     train_on_batch D x y s = Some ([loss rD; acc rD], sD) /\
     D_weights sD = new_D rD /\
     G_weights sD = G_weights s /\
     D_trainable s = false /\ D_trainable sD = false /\
     compiled sD) /\
  (exists sG,
     train_on_batch full_gan z y s = Some ([loss rG; acc rG], sG) /\
     D_weights sG = D_weights s /\
     G_weights sG = new_G rG /\
     D_trainable s = false /\ D_trainable sG = false /\
     compiled sG) /\
  (forall (x' y' : ndarray float) (b' : nat) (sh : list nat),
     shape x' = b' :: sh -> sh <> [] ->
     (sh <> [H; W] -> train_on_batch D x' y' s = None) /\
     (sh <> [Cell2.noise_res (defs s)] ->
      train_on_batch full_gan x' y' s = None)) /\
  (forall (x' y' : ndarray float) (b' : nat),
     shape x' = [b'] ->
     train_on_batch D x' y' s = None /\
     (Cell2.noise_res (defs s) <> 1%nat ->
      train_on_batch full_gan x' y' s = None)) /\
  (forall x' y' : ndarray float, train_on_batch G x' y' s = None) /\
  (forall (X : ndarray float) (ms : Cell2.models),
     exists s0,
       cell2_statements (initial bk X ms) = Some (tt, s0) /\
       compiled s0 /\
       trace s0 =
       [Compile D [D]; SetTrainable D false; Compile full_gan [G]]).
Proof.
  intros (HD & HG & Hdt & Hgt) Hb _ Hx Hz Hy rD rG.
  destruct (Cell2Facts.build_shapes M H W (defs s) Hb)
    as (H8 & HDi & HDo & HGi & HGo & HN).
  split; [|split; [|split; [|split; [|split]]]].
  - eexists; split.
    + apply (train_on_batch_eq bk D [D] [1%nat] b x y s);
        [exact HD | exact HDo | | apply batch_of_column; exact Hy].
      cbn [model_input_shape]; rewrite HDi.
      apply batch_of_rows; [exact Hx | discriminate].
    + cbn; repeat split; assumption.
  - eexists; split.
    + apply (train_on_batch_eq bk full_gan [G] [1%nat] b z y s);
        [exact HG | exact HDo | | apply batch_of_column; exact Hy].
      cbn [model_input_shape].
      apply batch_of_rows; [exact Hz | discriminate].
    + cbn; repeat split; assumption.
  - intros x' y' b' sh Hs Hne; split; intro Hd;
      apply train_on_batch_rejects_x; cbn [model_input_shape];
      [rewrite HDi|]; apply (batch_of_mismatch _ sh _ b'); assumption.
  - intros x' y' b' Hs; split; [|intro HN1];
      apply train_on_batch_rejects_x; cbn [model_input_shape];
      [rewrite HDi|]; unfold batch_of, standardize; rewrite Hs.
    + destruct (list_eq_dec Nat.eq_dec [1%nat] [H; W]);
        [discriminate | reflexivity].
    + destruct (list_eq_dec Nat.eq_dec [1%nat] [Cell2.noise_res (defs s)])
        as [E | _]; [|reflexivity].
      injection E as E; symmetry in E; contradiction.
  - intros x' y'; apply train_on_batch_uncompiled; reflexivity.
  - intros X ms; eexists; split; [apply cell2_statements_eq|].
    repeat split.
Qed.

Lemma start_compiled : compiled (bk:=Sample.counting) Sample.start.
Proof. repeat split. Qed.

Lemma D_weights_frozen_witness :
  compiled (bk:=Sample.counting) Sample.start /\
  (exists sG : state Sample.counting,
     train_on_batch full_gan (normal_draws Sample.counting 0 2 2) (ones 2)
       Sample.start
       = Some ([S754_finite false 8388608 (-24);
                S754_finite false 10485760 (-24)], sG) /\
     D_weights sG = D_weights Sample.start /\
     G_weights sG <> G_weights Sample.start) /\
  train_on_batch full_gan (zeros 2) (ones 2) Sample.start = None.
Proof.
  split; [exact start_compiled|].
  destruct (D_weights_frozen_in_composite_step_only
              Sample.counting Sample.start 2 2 4 2
              Sample.normalised (normal_draws Sample.counting 0 2 2) (ones 2)
              start_compiled eq_refl ltac:(discriminate)
              eq_refl eq_refl eq_refl)
    as (_ & (sG & Hrun & HDw & HGw & _) & _ & Hvec & _).
  split.
  - exists sG; split; [exact Hrun|]; split; [exact HDw|].
    rewrite HGw; discriminate.
  - apply (proj2 (Hvec (zeros 2) (ones 2) 2%nat eq_refl)).
    discriminate.
Defined.

(** *** No statement of the loop or of cell 4 touches the flag *)

Section Keeps.

Variable bk : backend.

Lemma keeps_ret (A : Type) (a : A) : @keeps_D_trainable bk A (ret a).
Proof. intros s a' s' H; injection H as <- <-; split; reflexivity. Qed.

Lemma keeps_get : @keeps_D_trainable bk (state bk) (@get bk).
Proof. intros s a' s' H; injection H as <- <-; split; reflexivity. Qed.

Lemma keeps_raise (A : Type) : @keeps_D_trainable bk A (@raise bk A).
Proof. intros s a s' H; discriminate. Qed.

Lemma keeps_lift (A : Type) (o : option A) :
  @keeps_D_trainable bk A (lift o).
Proof. destruct o; [apply keeps_ret | apply keeps_raise]. Qed.

Lemma keeps_emit (e : event) :
  is_set_trainable e = false -> @keeps_D_trainable bk unit (emit e).
Proof.
  intros He s a s' H; injection H as <- <-; cbn [D_trainable log filter].
  rewrite He; split; reflexivity.
Qed.

Lemma keeps_bind (A B : Type) (c : M bk A) (k : A -> M bk B) :
  @keeps_D_trainable bk A c ->
  (forall a, @keeps_D_trainable bk B (k a)) ->
  @keeps_D_trainable bk B (bind c k).
Proof.
  intros Hc Hk s b s2 H; unfold bind in H.
  destruct (c s) as [[a s1]|] eqn:E; [|discriminate].
  destruct (Hc s a s1 E) as [H1 H2].
  destruct (Hk a s1 b s2 H) as [H3 H4].
  split; congruence.
Qed.

Lemma keeps_advance (k : nat) : @keeps_D_trainable bk unit (advance k).
Proof. intros s a s' H; injection H as <- <-; split; reflexivity. Qed.

Lemma keeps_randint (high size : nat) :
  @keeps_D_trainable bk (list nat) (randint high size).
Proof.
  unfold randint; apply keeps_bind; [apply keeps_get | intro s0].
  destruct (high =? 0)%nat; [apply keeps_raise|].
  apply keeps_bind; [apply keeps_advance | intros _].
  apply keeps_bind; [apply keeps_emit; reflexivity | intros _].
  apply keeps_ret.
Qed.

Lemma keeps_normal (rows cols : nat) :
  @keeps_D_trainable bk (ndarray float) (normal rows cols).
Proof.
  unfold normal; apply keeps_bind; [apply keeps_get | intro s0].
  apply keeps_bind; [apply keeps_advance | intros _].
  apply keeps_bind; [apply keeps_emit; reflexivity | intros _].
  apply keeps_ret.
Qed.

Lemma keeps_G_predict (x : ndarray float) :
  @keeps_D_trainable bk (ndarray float) (G_predict x).
Proof.
  unfold G_predict; apply keeps_bind; [apply keeps_get | intro s0].
  cbv zeta.
  apply keeps_bind; [apply keeps_lift | intro out].
  apply keeps_bind; [apply keeps_lift | intro b].
  apply keeps_bind;
    [intros s a s' H; injection H as <- <-; split; reflexivity | intros _].
  apply keeps_bind; [apply keeps_emit; reflexivity | intros _].
  apply keeps_ret.
Qed.

Lemma keeps_train_on_batch (m : model_id) (x y : ndarray float) :
  @keeps_D_trainable bk (list float32) (train_on_batch m x y).
Proof.
  unfold train_on_batch; apply keeps_bind; [apply keeps_get | intro s0].
  apply keeps_bind; [apply keeps_lift | intro params].
  apply keeps_bind; [apply keeps_lift | intro out].
  apply keeps_bind; [apply keeps_lift | intro bx].
  apply keeps_bind; [apply keeps_lift | intro by_].
  destruct (bx =? by_)%nat; [|apply keeps_raise].
  cbv zeta.
  apply keeps_bind;
    [intros s a s' H; injection H as <- <-; split; reflexivity | intros _].
  apply keeps_bind; [apply keeps_emit; reflexivity | intros _].
  apply keeps_ret.
Qed.

Lemma keeps_report (e : Z) (dl gl : list float32) :
  @keeps_D_trainable bk unit (report e dl gl).
Proof.
  unfold report; destruct (e mod 100 =? 0)%Z; [|apply keeps_ret].
  apply keeps_bind; [apply keeps_lift | intro d0].
  apply keeps_bind; [apply keeps_lift | intro d1].
  apply keeps_bind; [apply keeps_lift | intro g0].
  apply keeps_bind; [apply keeps_lift | intro line].
  apply keeps_emit; reflexivity.
Qed.

Lemma keeps_epoch_body (e : Z) :
  @keeps_D_trainable bk unit (epoch_body e).
Proof.
  unfold epoch_body; apply keeps_bind; [|intro d; apply keeps_report].
  unfold train_epoch; apply keeps_bind; [apply keeps_get | intro s0].
  apply keeps_bind; [apply keeps_lift | intro size0].
  apply keeps_bind; [apply keeps_randint | intro idxs].
  apply keeps_bind; [apply keeps_lift | intro real].
  apply keeps_bind; [apply keeps_normal | intro noise].
  apply keeps_bind; [apply keeps_G_predict | intro fake].
  apply keeps_bind; [apply keeps_train_on_batch | intro rl].
  apply keeps_bind; [apply keeps_train_on_batch | intro fl].
  apply keeps_bind; [apply keeps_lift | intro sum].
  cbv zeta.
  apply keeps_bind; [apply keeps_normal | intro noise'].
  apply keeps_bind; [apply keeps_train_on_batch | intro gl].
  apply keeps_ret.
Qed.

Lemma keeps_for_each (es : list Z) :
  @keeps_D_trainable bk unit (for_each es (@epoch_body bk)).
Proof.
  induction es as [|e es IH]; cbn [for_each]; [apply keeps_ret|].
  apply keeps_bind; [apply keeps_epoch_body | intros _; exact IH].
Qed.

Lemma keeps_cell4 : @keeps_D_trainable bk (ndarray float) (@cell4 bk).
Proof.
  unfold cell4; apply keeps_bind; [apply keeps_get | intro s0].
  apply keeps_bind; [apply keeps_normal | intro noise].
  apply keeps_G_predict.
Qed.

End Keeps.

(** C10: cell 2 assigns [D.trainable = False] once, after [D.compile] and
    before [full_gan.compile]; the flag was [True] before.  Whatever the
    data set and the models, after any number of iterations of the loop,
    and after cell 4 run from there, the flag is [False] and the trace
    still holds that one assignment.  On a data set of images with a
    first image, with the models cell 2 builds for it, every iteration and
    cell 4 do return. *)
Theorem D_trainable_assigned_false_once
  (bk : backend) (X : ndarray float) (ms : Cell2.models) :
  exists s0,
    cell2_statements (initial bk X ms) = Some (tt, s0) /\
    D_trainable (initial bk X ms) = true /\
    trace s0 = [Compile D [D]; SetTrainable D false; Compile full_gan [G]] /\
    D_trainable s0 = false /\
    (forall (k : nat) (s : state bk),
       after_epochs k s0 = Some (tt, s) ->
       D_trainable s = false /\
       filter is_set_trainable (trace s) = [SetTrainable D false] /\
       forall (imgs : ndarray float) (s4 : state bk),
         cell4 s = Some (imgs, s4) ->
         D_trainable s4 = false /\
         filter is_set_trainable (trace s4) = [SetTrainable D false]) /\
    (hd 0%nat (shape X) <> 0%nat ->
     length (shape X) = 3%nat ->
     Cell2.build (shape X) = Some ms ->
     cell2 bk X = Some s0 /\
     forall k : nat,
       exists s imgs s4,
         after_epochs k s0 = Some (tt, s) /\
         D_trainable s = false /\
         filter is_set_trainable (trace s) = [SetTrainable D false] /\
         cell4 s = Some (imgs, s4) /\
         D_trainable s4 = false /\
         filter is_set_trainable (trace s4) = [SetTrainable D false]).
Proof.
  eexists; split; [apply cell2_statements_eq|].
  split; [reflexivity|]; split; [reflexivity|]; split; [reflexivity|].
  assert (Hsafe :
    forall (k : nat) (s : state bk),
      after_epochs k
        (@mk_state bk X ms (init_weights bk (Cell2.D_model ms))
           (init_weights bk (Cell2.G_model ms)) false true
           (Some [D]) (Some [G]) (Adam bk (2 # 10000) (1 # 2)) 0%nat
           [Compile full_gan [G]; SetTrainable D false; Compile D [D]])
      = Some (tt, s) ->
      D_trainable s = false /\
      filter is_set_trainable (trace s) = [SetTrainable D false] /\
      forall (imgs : ndarray float) (s4 : state bk),
        cell4 s = Some (imgs, s4) ->
        D_trainable s4 = false /\
        filter is_set_trainable (trace s4) = [SetTrainable D false]).
  { intros k s Hrun.
    destruct (keeps_for_each bk (Python.range k) _ _ _ Hrun) as [Hdt Hlog].
    cbn [D_trainable log filter is_set_trainable] in Hdt, Hlog.
    assert (Htr : filter is_set_trainable (trace s) = [SetTrainable D false]).
    { unfold trace; rewrite filter_rev, Hlog; reflexivity. }
    split; [exact Hdt|]; split; [exact Htr|].
    intros imgs s4 H4.
    destruct (keeps_cell4 bk _ _ _ H4) as [Hdt4 Hlog4].
    split; [congruence|].
    unfold trace; rewrite filter_rev, Hlog4, Hlog; reflexivity. }
  split; [exact Hsafe|].
  intros HM Hrank Hb.
  destruct (cell2_ready bk X ms Hb Hrank HM)
    as (s0 & Hc & Hst & Hr0 & _).
  rewrite cell2_statements_eq in Hst; injection Hst as Hs0.
  rewrite Hs0; split; [exact Hc|].
  intro k.
  destruct (loop_spec bk (Python.range k) s0 Hr0) as (s & Hrun & Hr & _).
  rewrite <- Hs0 in Hrun.
  destruct (Hsafe k s Hrun) as (Hdt & Htr & H4).
  rewrite Hs0 in Hrun.
  pose proof (cell4_ready bk s Hr) as Hc4; cbv zeta in Hc4.
  destruct (H4 _ _ Hc4) as [Hdt4 Htr4].
  eexists s, _, _.
  split; [exact Hrun|]; split; [exact Hdt|]; split; [exact Htr|].
  split; [exact Hc4|]; split; [exact Hdt4 | exact Htr4].
Qed.

Lemma D_trainable_assigned_false_once_witness :
  exists s0 : state Sample.counting,
    cell2 Sample.counting Sample.normalised = Some s0 /\
    D_trainable s0 = false /\
    exists s imgs s4,
      after_epochs 1 s0 = Some (tt, s) /\
      cell4 s = Some (imgs, s4) /\
      filter is_set_trainable (trace s4) = [SetTrainable D false].
Proof.
  destruct (D_trainable_assigned_false_once Sample.counting
              Sample.normalised Sample.models_2x4)
    as (s0 & _ & _ & _ & Hf & _ & Hlive).
  destruct (Hlive ltac:(discriminate) eq_refl eq_refl) as (Hc & Hk).
  exists s0; split; [exact Hc|]; split; [exact Hf|].
  destruct (Hk 1%nat) as (s & imgs & s4 & Hrun & _ & _ & H4 & _ & Hs4).
  exists s, imgs, s4; auto.
Defined.

End TrainableFacts.

(** ** Inference leaves the weights alone *)

Module InferenceFacts.

Import Script ScriptFacts LoopFacts.

Unset Implicit Arguments.

(** C8: none of the layers of [G] is stateful, so the predict function of
    [G] has no update to run.  With the models cell 2 builds, [G.predict]
    on [b] noise vectors returns the [b] outputs of [G] on its current
    weights, as an array of [b] images, and leaves the weights of [D] and
    [G] (hence of [full_gan], which has no others), the optimiser state,
    both flags and what was compiled as they were.  The same holds for the
    two statements that make the fake half batch in an epoch, and for
    cell 4 with its nine samples.  The examples of a batch are its
    rows. *)
Theorem G_predict_changes_no_weights
  (bk : backend) (s : state bk) (M H W b : nat) (x : ndarray float) :
  Cell2.build [M; H; W] = Some (defs s) ->
  shape x = [b; Cell2.noise_res (defs s)] ->
  b <> 0%nat ->
  let G_outputs (noise : ndarray float) :=
    concat (map (fun z => forward bk (Cell2.G_model (defs s)) (G_weights s)
                            (data z))
                (Keras.examples noise)) in
  Forall (fun l => Keras.stateful l = false)
    (Keras.layers (Cell2.G_model (defs s))) /\
  state_updates (Cell2.G_model (defs s)) = [] /\
  Keras.examples x =
    map (fun i => mk_ndarray [Cell2.noise_res (defs s)]
                    (firstn (Cell2.noise_res (defs s))
                            (skipn (i * Cell2.noise_res (defs s)) (data x))))
        (seq 0 b) /\
  (exists s',
     G_predict x s = Some (mk_ndarray [b; H; W] (G_outputs x), s') /\
     D_weights s' = D_weights s /\ G_weights s' = G_weights s /\
     optimizer s' = optimizer s /\
     D_trainable s' = D_trainable s /\ G_trainable s' = G_trainable s /\
     D_collected s' = D_collected s /\ gan_collected s' = gan_collected s /\
     trace s' = trace s ++ [Predict G x]) /\
  (exists noise s',
     bind (normal half_batch_size (Cell2.noise_res (defs s)))
          (@G_predict bk) s
       = Some (mk_ndarray [16%nat; H; W] (G_outputs noise), s') /\
     shape noise = [16%nat; Cell2.noise_res (defs s)] /\
     D_weights s' = D_weights s /\ G_weights s' = G_weights s /\
     optimizer s' = optimizer s /\
     trace s' =
     trace s ++ [Normal [16%nat; Cell2.noise_res (defs s)]; Predict G noise])
  /\
  (exists noise s4,
     cell4 s = Some (mk_ndarray [9%nat; H; W] (G_outputs noise), s4) /\
     shape noise = [9%nat; Cell2.noise_res (defs s)] /\
     D_weights s4 = D_weights s /\ G_weights s4 = G_weights s /\
     optimizer s4 = optimizer s /\
     trace s4 =
     trace s ++ [Normal [9%nat; Cell2.noise_res (defs s)]; Predict G noise]).
Proof.
  intros Hb Hx Hb0 G_outputs.
  destruct (Cell2Facts.build_shapes M H W (defs s) Hb)
    as (H8 & HDi & HDo & HGi & HGo & HN).
  split.
  { destruct (Cell2Facts.build_inv3 M H W (defs s) Hb) as (_ & ->).
    cbn [Cell2.G_model Keras.layers Cell2.G_layers].
    repeat constructor. }
  split; [apply no_state_updates|].
  split.
  { unfold Keras.examples, row, row_size; rewrite Hx; cbn [hd tl].
    rewrite KerasFacts.size_of_singleton; reflexivity. }
  split; [|split].
  - eexists; split.
    + apply (G_predict_eq bk x s [H; W] b HGo); [|exact Hb0].
      rewrite HGi; apply batch_of_rows; [exact Hx | discriminate].
    + unfold trace; cbn; repeat split.
  - eexists _, _; split.
    + unfold bind; rewrite normal_eq.
      rewrite (G_predict_eq bk _ _ [H; W] 16);
        [reflexivity | exact HGo | | discriminate].
      cbn [defs]; rewrite HGi.
      apply batch_of_rows; [reflexivity | discriminate].
    + unfold trace; cbn [shape normal_draws D_weights G_weights optimizer
                         log rev].
      rewrite <- app_assoc; repeat split.
  - eexists _, _; split; [apply (cell4_eq bk s M H W Hb)|].
    unfold trace; cbn [shape normal_draws D_weights G_weights optimizer
                       log rev].
    rewrite <- app_assoc; repeat split.
Qed.

Lemma G_predict_witness :
  Cell2.build [2; 2; 4]%nat = Some (defs Sample.start) /\
  exists s' : state Sample.counting,
    G_predict (normal_draws Sample.counting 0 3 2) Sample.start
      = Some (mk_ndarray [3; 2; 4]%nat (repeat (Fin 0) 24), s') /\
    D_weights s' = 0%Z /\ G_weights s' = 0%Z.
Proof.
  split; [reflexivity|].
  destruct (G_predict_changes_no_weights Sample.counting Sample.start
              2 2 4 3 (normal_draws Sample.counting 0 3 2)
              eq_refl eq_refl ltac:(discriminate))
    as (_ & _ & _ & (s' & Hrun & HD & HG & _) & _).
  exists s'; split; [exact Hrun|].
  split; [exact HD | exact HG].
Defined.

End InferenceFacts.

(** ** The diagnostic line *)

Module LoggingFacts.

Import Script ScriptFacts LoopFacts.

Unset Implicit Arguments.

Lemma string_length_append (a b : string) :
  String.length (a ++ b) = (String.length a + String.length b)%nat.
Proof. induction a as [|c a IH]; cbn; [reflexivity | rewrite IH; reflexivity]. Qed.

Lemma fixed_digits_length (width : nat) :
  forall n : Z, String.length (Python.fixed_digits width n) = width.
Proof.
  induction width as [|w IH]; intro n; cbn [Python.fixed_digits].
  - reflexivity.
  - rewrite string_length_append, IH; cbn; lia.
Qed.

(** The characters of [fixed_digits]: the decimal digits of [n], the most
    significant first. *)
Lemma fixed_digits_get (width : nat) :
  forall (n : Z) (i : nat),
    (i < width)%nat ->
    String.get i (Python.fixed_digits width n) =
    Some (ascii_of_nat
            (48 + Z.to_nat ((n / 10 ^ Z.of_nat (width - 1 - i)) mod 10))).
Proof.
  induction width as [|w IH]; intros n i Hi; [lia|].
  cbn [Python.fixed_digits].
  destruct (Nat.eq_dec i w) as [-> | Hne].
  - replace (S w - 1 - w)%nat with 0%nat by lia.
    pose proof (append_correct2 (Python.fixed_digits w (n / 10))
                  (String (Python.digit_char (Z.to_nat (n mod 10)))
                     EmptyString) 0) as E.
    cbn [Nat.add] in E; rewrite fixed_digits_length in E; rewrite <- E.
    cbn [String.get Z.of_nat]; rewrite Z.pow_0_r, Z.div_1_r.
    unfold Python.digit_char.
    rewrite Nat.mod_small; [reflexivity|].
    pose proof (Z.mod_pos_bound n 10); lia.
  - rewrite <- append_correct1 by (rewrite fixed_digits_length; lia).
    rewrite IH by lia.
    replace (S w - 1 - i)%nat with (S (w - 1 - i)) by lia.
    rewrite Nat2Z.inj_succ, Z.pow_succ_r by lia.
    rewrite Z.div_div by (try apply Z.pow_pos_nonneg; lia).
    reflexivity.
Qed.

(** [round_half_even] returns a nearest integer, and the even one of two
    that are equally near. *)
Lemma round_half_even_spec (num den : Z) :
  (0 <= num)%Z -> (0 < den)%Z ->
  let n := Python.round_half_even num den in
  (0 <= n)%Z /\
  (Z.abs (2 * (n * den - num)) <= den)%Z /\
  (Z.abs (2 * (n * den - num)) = den -> Z.even n = true).
Proof.
  intros Hn Hd; unfold Python.round_half_even.
  pose proof (Z.div_mod num den ltac:(lia)) as E.
  pose proof (Z.mod_pos_bound num den Hd) as Hr.
  pose proof (Z.div_pos num den Hn Hd) as Hq.
  set (d := (num / den)%Z) in *; set (r := (num mod den)%Z) in *.
  assert (Ed : (d * den = num - r)%Z) by lia.
  cbv zeta.
  destruct (Z.ltb_spec (2 * r) den) as [H1 | H1].
  - rewrite Ed; repeat split; lia.
  - destruct (Z.ltb_spec den (2 * r)) as [H2 | H2].
    + rewrite Z.mul_add_distr_r, Ed; repeat split; lia.
    + destruct (Z.even d) eqn:Ev.
      * rewrite Ed; repeat split; first [lia | intros _; exact Ev].
      * rewrite Z.mul_add_distr_r, Ed; split; [lia|]; split; [lia|].
        intros _; rewrite Z.even_add, Ev; reflexivity.
Qed.

(** [%.<p>f] of a finite value [m * 2^e] with [p > 0]: the sign, the
    integer part, a point and [p] digits, which together are the decimal
    notation of the multiple [n / 10^p] of [10^-p] nearest to the value,
    the even [n] of two that are equally near. *)
Lemma format_f_finite (p : nat) (sign : bool) (m : positive) (e : Z) :
  (0 < p)%nat ->
  exists (n : Z) (ds : string),
    let num := (Zpos m * 2 ^ Z.max e 0)%Z in
    let den := (2 ^ Z.max (- e) 0)%Z in
    Python.format_f p (S754_finite sign m e) =
      ((if sign then "-" else "") ++
       NilZero.string_of_int (Z.to_int (n / 10 ^ Z.of_nat p)) ++
       "." ++ ds)%string /\
    String.length ds = p /\
    (forall i : nat,
       (i < p)%nat ->
       String.get i ds =
       Some (ascii_of_nat
               (48 + Z.to_nat (((n mod 10 ^ Z.of_nat p)
                                / 10 ^ Z.of_nat (p - 1 - i)) mod 10)))) /\
    (0 <= n)%Z /\
    (Z.abs (2 * (n * den - num * 10 ^ Z.of_nat p)) <= den)%Z /\
    (Z.abs (2 * (n * den - num * 10 ^ Z.of_nat p)) = den ->
     Z.even n = true).
Proof.
  intro Hp; destruct p as [|p]; [lia|].
  unfold Python.format_f, Python.format_fixed.
  set (num := (Zpos m * 2 ^ Z.max e 0)%Z).
  set (den := (2 ^ Z.max (- e) 0)%Z).
  set (scale := (10 ^ Z.of_nat (S p))%Z).
  assert (Hden : (0 < den)%Z) by (apply Z.pow_pos_nonneg; lia).
  assert (Hnum : (0 <= num * scale)%Z).
  { apply Z.mul_nonneg_nonneg.
    - apply Z.mul_nonneg_nonneg; [lia | apply Z.pow_nonneg; lia].
    - apply Z.pow_nonneg; lia. }
  destruct (round_half_even_spec (num * scale) den Hnum Hden)
    as (H0 & Hnear & Htie).
  exists (Python.round_half_even (num * scale) den),
         (Python.fixed_digits (S p)
            (Python.round_half_even (num * scale) den mod scale)).
  cbv zeta.
  split; [reflexivity|].
  split; [apply fixed_digits_length|].
  split; [intros i Hi; apply fixed_digits_get; exact Hi|].
  split; [exact H0|]; split; [exact Hnear | exact Htie].
Qed.

(** C4: iteration [k] of the loop (any [k], so also each of 0..29999)
    prints exactly when [k] is a multiple of 100, and then one line, after
    the calls of the iteration: the index in decimal, [" [D loss: "], the
    averaged discriminator loss under [%f], [", acc.: "], 100 times the
    averaged accuracy under [%.2f], ["%] [G loss: "], the generator loss
    under [%f], and ["]"].  The averages are the [float32] values
    [0.5 * (rloss + floss)]; the product with 100 is taken in [float64],
    and for the accuracies two batches of 16 can have, the multiples of
    1/32, it is the same taken in [float32].  [%f] is [%.6f]; under [%.<p>f] a finite value is printed as its sign,
    its integer part, a point and [p] digits, rounded to the nearest
    multiple of [10^-p], ties to even; NaN and the infinities are printed
    as [nan], [inf] and [-inf]. *)
Theorem diagnostic_line_every_100_epochs
  (bk : backend) (s0 : state bk) :
  ready s0 ->
  (forall k : nat,
     exists (s s' : state bk) (d : diagnostics) (s_mid : state bk)
            (r_loss r_acc f_loss f_acc g_loss g_acc : spec_float)
            (calls : list event),
       let e := Z.of_nat k in
       let d_loss :=
         SFmul 24 128 (S754_finite false 8388608 (-24))
           (SFadd 24 128 r_loss f_loss) in
       let d_acc :=
         SFmul 24 128 (S754_finite false 8388608 (-24))
           (SFadd 24 128 r_acc f_acc) in
       let percent :=
         SFmul 53 1024 (S754_finite false 7036874417766400 (-46)) d_acc in
       after_epochs k s0 = Some (tt, s) /\
       after_epochs (S k) s0 = Some (tt, s') /\
       train_epoch s = Some (d, s_mid) /\
       rloss d = [r_loss; r_acc] /\
       floss d = [f_loss; f_acc] /\
       dloss d = [d_loss; d_acc] /\
       gloss d = [g_loss; g_acc] /\
       trace s_mid = trace s ++ calls /\
       filter is_print calls = [] /\
       trace s' =
       trace s_mid ++
       (if (e mod 100 =? 0)%Z
        then [Print (NilZero.string_of_int (Z.to_int e) ++ " [D loss: " ++
                     Python.format_f 6 d_loss ++ ", acc.: " ++
                     Python.format_f 2 percent ++
                     "%] [G loss: " ++ Python.format_f 6 g_loss ++ "]")]
        else []) /\
       ((exists line, In (Print line) (skipn (length (trace s)) (trace s')))
        <-> (e mod 100 = 0)%Z)) /\
  (forall e : Z, In e (Python.range epochs) <-> (0 <= e < 30000)%Z) /\
  (forall (p : nat) (sign : bool) (m : positive) (e : Z),
     (0 < p)%nat ->
     exists (n : Z) (ds : string),
       let num := (Zpos m * 2 ^ Z.max e 0)%Z in
       let den := (2 ^ Z.max (- e) 0)%Z in
       Python.format_f p (S754_finite sign m e) =
         ((if sign then "-" else "") ++
          NilZero.string_of_int (Z.to_int (n / 10 ^ Z.of_nat p)) ++
          "." ++ ds)%string /\
       String.length ds = p /\
       (forall i : nat,
          (i < p)%nat ->
          String.get i ds =
          Some (ascii_of_nat
                  (48 + Z.to_nat (((n mod 10 ^ Z.of_nat p)
                                   / 10 ^ Z.of_nat (p - 1 - i)) mod 10)))) /\
       (0 <= n)%Z /\
       (Z.abs (2 * (n * den - num * 10 ^ Z.of_nat p)) <= den)%Z /\
       (Z.abs (2 * (n * den - num * 10 ^ Z.of_nat p)) = den ->
        Z.even n = true)) /\
  (forall p : nat,
     Python.format_f p S754_nan = "nan"%string /\
     Python.format_f p (S754_infinity false) = "inf"%string /\
     Python.format_f p (S754_infinity true) = "-inf"%string) /\
  Python.format_f 6 (S754_zero false) = "0.000000"%string /\
  Python.format_f 2 (S754_zero false) = "0.00"%string /\
  (forall k : nat,
     (k <= 32)%nat ->
     let a := binary_normalize 24 128 (Z.of_nat k) (-5) false in
     Python.format_f 2
       (SFmul 53 1024 (S754_finite false 7036874417766400 (-46)) a) =
     Python.format_f 2
       (SFmul 24 128 (S754_finite false 13107200 (-17)) a)).
Proof.
  intro Hr.
  split; [|split; [|split; [|split; [|split; [|split]]]]].
  - intro k.
    destruct (before_epoch bk s0 k Hr) as (s & Hrun & Hrs & HX & Hd & Hnext).
    destruct (train_epoch_spec bk s Hrs) as (real_imgs & Hreal & Ht).
    destruct (epoch_body_spec bk s (Z.of_nat k) Hrs)
      as (real_imgs' & Hreal' & _ & He).
    cbv zeta in Hreal, Ht, Hreal', He.
    rewrite Hreal in Hreal'; injection Hreal' as <-.
    rewrite <- Hnext in He.
    eexists s, _, _, _, _, _, _, _, _, _, _; cbv zeta.
    split; [exact Hrun|]; split; [exact He|]; split; [exact Ht|].
    do 4 (split; [reflexivity|]).
    unfold trace; cbn [log].
    split.
    { cbn [rev]; repeat rewrite <- app_assoc; reflexivity. }
    split; [reflexivity|].
    split.
    { destruct (Z.of_nat k mod 100 =? 0)%Z; cbn [app rev];
        [|rewrite app_nil_r]; reflexivity. }
    rewrite rev_app_distr; cbn [rev]; repeat rewrite <- app_assoc.
    rewrite skipn_app, Nat.sub_diag, skipn_all; cbn [app skipn].
    destruct (Z.eqb_spec (Z.of_nat k mod 100) 0) as [E | NE].
    + split; [intros _; exact E|].
      intros _; eexists; cbn [rev app]; do 7 right; left; reflexivity.
    + split; [|intro; contradiction].
      intros [line Hin]; cbn in Hin.
      repeat (destruct Hin as [Hin | Hin]; [discriminate|]).
      contradiction.
  - intro e; rewrite in_range, epochs_eq; reflexivity.
  - intros p sign m e Hp; apply format_f_finite; exact Hp.
  - intro p; repeat split.
  - reflexivity.
  - reflexivity.
  - intros k Hk.
    do 33 (destruct k as [|k]; [vm_compute; reflexivity|]).
    lia.
Qed.

Lemma diagnostic_line_witness :
  ready (bk:=Sample.counting) Sample.start /\
  exists s' : state Sample.counting,
    after_epochs 1 Sample.start = Some (tt, s') /\
    In (Print "0 [D loss: 0.625000, acc.: 75.00%] [G loss: 0.500000]")
       (trace s').
Proof.
  split; [exact start_ready|].
  destruct (proj1 (diagnostic_line_every_100_epochs
                     Sample.counting Sample.start start_ready) 0%nat)
    as (s & s' & d & s_mid & r_loss & r_acc & f_loss & f_acc & g_loss
        & g_acc & calls & H0 & H1 & Ht & Hrl & Hfl & _ & Hgl & _ & _
        & Htr & _).
  cbv zeta in Htr.
  change (Some (tt, Sample.start) = Some (tt, s)) in H0.
  injection H0 as <-.
  vm_compute in Ht; injection Ht as <- <-.
  injection Hrl as <- <-; injection Hfl as <- <-; injection Hgl as <- <-.
  exists s'; split; [exact H1|].
  rewrite Htr; apply in_or_app; right.
  vm_compute; left; reflexivity.
Defined.

End LoggingFacts.

(** ** The data set the loop trains on *)

Module NormalisationFacts.

Import Script ScriptFacts LoopFacts Cell1 Cell1Facts.

Unset Implicit Arguments.

(** C5 as stated fails: a data set of two images of one colour is
    normalised to NaN at every pixel, which is not in [0, 1], and cell 2
    and the loop go on with it. *)
Lemma constant_data_set_leaves_unit_interval :
  uint8_array Sample.grey /\
  normalise Sample.grey = Some (mk_ndarray [2; 2; 4]%nat (repeat NaN 16)) /\
  ~ Forall in_unit_interval (repeat NaN 16) /\
  exists s0 : state Sample.counting,
    cell2 Sample.counting (mk_ndarray [2; 2; 4]%nat (repeat NaN 16))
      = Some s0 /\
    X_train s0 = mk_ndarray [2; 2; 4]%nat (repeat NaN 16).
Proof.
  split; [exact (proj1 grey_loadable)|].
  split; [reflexivity|].
  split.
  - intro H; inversion H as [|? ? Hn _]; exact Hn.
  - destruct (cell2_eq Sample.counting
                (mk_ndarray [2; 2; 4]%nat (repeat NaN 16))
                Sample.models_2x4 eq_refl)
      as (s0 & Hc & _ & _ & HX & _).
    exists s0; split; assumption.
Qed.

(** What cell 1 leaves is what the loop reads, at every iteration. *)
Lemma loop_reads_normalised (bk : backend) (X : ndarray float)
  (ms : Cell2.models) :
  Cell2.build (shape X) = Some ms ->
  length (shape X) = 3%nat ->
  hd 0%nat (shape X) <> 0%nat ->
  exists s0,
    cell2 bk X = Some s0 /\ X_train s0 = X /\ defs s0 = ms /\ ready s0 /\
    forall k : nat,
      exists s, after_epochs k s0 = Some (tt, s) /\ X_train s = X.
Proof.
  intros Hb Hrank HM.
  destruct (cell2_ready bk X ms Hb Hrank HM)
    as (s0 & Hc & _ & Hr & Hd & HX & _).
  exists s0; repeat (split; [assumption|]).
  intro k.
  destruct (before_epoch bk s0 k Hr) as (s & Hrun & _ & HXs & _).
  exists s; split; [exact Hrun | congruence].
Qed.

(** C5, amended: for a [uint8] data set of rank 3 whose minimum is below
    its maximum, cell 1 normalises once, before cell 2 and the loop:
    every pixel [x] becomes [(x - min) / (max - min)] with the minimum and
    maximum of the whole array, and every normalised pixel lies in [0, 1].
    The rest of the notebook runs on this array: when cell 2 builds its
    models for it, it is the [X_train] of every iteration of the loop;
    when cell 2 cannot (images of fewer than 8 pixels), the notebook
    raises there, before the loop. *)
Theorem normalised_data_in_unit_interval
  (bk : backend) (loaded : ndarray Z) (lo hi : Z) :
  uint8_array loaded ->
  length (shape loaded) = 3%nat ->
  np_min loaded = Some lo ->
  np_max loaded = Some hi ->
  (lo < hi)%Z ->
  exists X : ndarray float,
    normalise loaded = Some X /\
    shape X = shape loaded /\
    data X =
      map (fun x => Fin (inject_Z (x - lo) / inject_Z (hi - lo)))
          (data loaded) /\
    In lo (data loaded) /\ In hi (data loaded) /\
    (forall x, In x (data loaded) -> (lo <= x <= hi)%Z) /\
    Forall in_unit_interval (data X) /\
    main bk loaded =
      match cell2 bk X with
      | Some s0 => bind (@cell3 bk) (fun _ => @cell4 bk) s0
      | None => None
      end /\
    (forall ms : Cell2.models,
       Cell2.build (shape loaded) = Some ms ->
       exists s0,
         cell2 bk X = Some s0 /\
         X_train s0 = X /\ defs s0 = ms /\
         forall k : nat,
           exists s, after_epochs k s0 = Some (tt, s) /\ X_train s = X) /\
    (Cell2.build (shape loaded) = None ->
     cell2 bk X = None /\ main bk loaded = None).
Proof.
  intros HX Hrank Hlo Hhi Hlt.
  assert (Hne : data loaded <> []).
  { intro E; rewrite (NumpyFacts.np_min_empty loaded E) in Hlo;
      discriminate. }
  destruct (extremes HX Hne)
    as (lo' & hi' & Hlo' & Hhi' & Hlin & Hhin & _ & _ & Hb).
  rewrite Hlo in Hlo'; injection Hlo' as <-.
  rewrite Hhi in Hhi'; injection Hhi' as <-.
  destruct (loadable_shape loaded (conj HX (conj Hrank Hne)))
    as (M & H & W & Hsh & HM).
  pose (X := map_arr (fun x => true_divide (x - lo) (hi - lo)) loaded).
  assert (Hdata : forall x, In x (data loaded) ->
            true_divide (x - lo) (hi - lo)
            = Fin (inject_Z (x - lo) / inject_Z (hi - lo)) /\
            in_unit_interval (true_divide (x - lo) (hi - lo))).
  { intros x Hx; pose proof (Hb x Hx).
    apply NumpyFacts.true_divide_unit; lia. }
  exists X.
  split; [apply normalise_eq; assumption|].
  split; [reflexivity|].
  split.
  { unfold X; cbn [map_arr data]; apply map_ext_in.
    intros x Hx; apply Hdata; exact Hx. }
  split; [exact Hlin|]; split; [exact Hhin|]; split; [exact Hb|].
  split.
  { unfold X; cbn [map_arr data]; apply Forall_forall; intros v Hv.
    apply in_map_iff in Hv; destruct Hv as (x & <- & Hx).
    apply Hdata; exact Hx. }
  split.
  { unfold main; rewrite (normalise_eq HX Hlo Hhi); fold X; reflexivity. }
  split.
  - intros ms Hbuild.
    destruct (loop_reads_normalised bk X ms)
      as (s0 & Hc & HXs & Hd & _ & Hloop).
    { exact Hbuild. }
    { unfold X; cbn [map_arr shape]; exact Hrank. }
    { unfold X; cbn [map_arr shape]; rewrite Hsh; exact HM. }
    exists s0; auto.
  - intro Hnone.
    assert (Hc : cell2 bk X = None) by (apply cell2_none; exact Hnone).
    split; [exact Hc|].
    unfold main; rewrite (normalise_eq HX Hlo Hhi); fold X; rewrite Hc.
    reflexivity.
Qed.

Lemma normalised_data_witness :
  (0 < 255)%Z /\
  exists (X : ndarray float) (s0 s : state Sample.counting),
    normalise Sample.images = Some X /\
    Forall in_unit_interval (data X) /\
    cell2 Sample.counting X = Some s0 /\
    after_epochs 1 s0 = Some (tt, s) /\ X_train s = X.
Proof.
  split; [lia|].
  destruct (normalised_data_in_unit_interval Sample.counting Sample.images
              0 255 (proj1 images_loadable) eq_refl eq_refl eq_refl eq_refl)
    as (X & Hn & _ & _ & _ & _ & _ & Hu & _ & Hrun & _).
  destruct (Hrun Sample.models_2x4 eq_refl) as (s0 & Hc & _ & _ & Hk).
  destruct (Hk 1%nat) as (s & Hs & HXs).
  exists X, s0, s; repeat split; assumption.
Defined.

(** The notebook runs to its end on every loadable data set the models
    can be built for, constant or not. *)
Lemma main_runs (bk : backend) (loaded : ndarray Z) (ms : Cell2.models) :
  loadable loaded ->
  Cell2.build (shape loaded) = Some ms ->
  exists imgs s_end, main bk loaded = Some (imgs, s_end).
Proof.
  intros Hl Hb.
  destruct (loadable_shape loaded Hl) as (M & H & W & Hsh & HM).
  destruct Hl as (HX & Hrank & Hne).
  destruct (extremes HX Hne) as (lo & hi & Hlo & Hhi & _).
  pose (X := map_arr (fun x => true_divide (x - lo) (hi - lo)) loaded).
  destruct (loop_reads_normalised bk X ms) as (s0 & Hc & _ & _ & Hr & _);
    try (unfold X; cbn [map_arr shape]; first [exact Hb | exact Hrank
                                              | rewrite Hsh; exact HM]).
  destruct (loop_spec bk (Python.range epochs) s0 Hr) as (s & Hrun & Hrs & _).
  unfold main; rewrite (normalise_eq HX Hlo Hhi); fold X; rewrite Hc.
  unfold bind; fold (@cell3 bk); unfold cell3 at 1; rewrite Hrun.
  rewrite (cell4_ready bk s Hrs); eexists _, _; reflexivity.
Qed.

End NormalisationFacts.

(* ================================================================== *)
(** * Further properties of the notebook's code *)
(* ================================================================== *)

(** ** Cell 1 and cell 2: errors and extremes *)

Module CellExtras.

Import Cell1 Cell1Facts NumpyFacts.

Unset Implicit Arguments.

(** X1: the normalisation raises exactly on an array without elements
    ([np.min] of a zero-size array); on every other array it returns an
    array of the same shape and the same number of elements. *)
Theorem normalise_raises_iff_empty (X : ndarray Z) :
  (normalise X = None <-> data X = []) /\
  (forall Y, normalise X = Some Y ->
             shape Y = shape X /\ length (data Y) = length (data X)).
Proof.
  unfold normalise, numerator, denominator, np_min, np_max.
  destruct (data X) as [|x xs] eqn:E.
  - split; [split; reflexivity|]; intros Y H; discriminate.
  - split; [split; discriminate|].
    intros Y H; injection H as <-.
    unfold map_arr; cbn [shape data].
    rewrite !length_map, E; split; reflexivity.
Qed.

Lemma Qdiv_inject_le (a b d : Z) :
  (0 < d)%Z ->
  (inject_Z a / inject_Z d <= inject_Z b / inject_Z d <-> (a <= b)%Z).
Proof.
  intro Hd; unfold Qdiv, Qle, Qmult, Qinv, inject_Z.
  destruct d as [|p|p]; try lia; cbn.
  rewrite !Z.mul_1_r; nia.
Qed.

Lemma Qdiv_inject_eq (a b d : Z) :
  (0 < d)%Z ->
  (inject_Z a / inject_Z d == inject_Z b / inject_Z d <-> a = b).
Proof.
  intro Hd; unfold Qdiv, Qeq, Qmult, Qinv, inject_Z.
  destruct d as [|p|p]; try lia; cbn.
  rewrite !Z.mul_1_r; nia.
Qed.

(** X2: on a [uint8] data set with [min < max] the normalisation keeps
    the order of the pixel values, sends exactly the pixels equal to the
    minimum to 0 and exactly the pixels equal to the maximum to 1; both
    values occur in the result. *)
Theorem normalise_keeps_order_and_reaches_0_and_1
  (X : ndarray Z) (lo hi : Z) :
  uint8_array X ->
  np_min X = Some lo ->
  np_max X = Some hi ->
  (lo < hi)%Z ->
  exists (Y : ndarray float) (f : Z -> Q),
    normalise X = Some Y /\
    data Y = map (fun x => Fin (f x)) (data X) /\
    (forall x y, In x (data X) -> In y (data X) ->
                 (f x <= f y <-> (x <= y)%Z)) /\
    (forall x, In x (data X) -> (f x == 0 <-> x = lo)) /\
    (forall x, In x (data X) -> (f x == 1 <-> x = hi)) /\
    (exists q, In (Fin q) (data Y) /\ q == 0) /\
    (exists q, In (Fin q) (data Y) /\ q == 1).
Proof.
  intros HX Hlo Hhi Hlt.
  assert (Hne : data X <> []).
  { intro E; rewrite (np_min_empty X E) in Hlo; discriminate. }
  destruct (extremes HX Hne)
    as (lo' & hi' & Hlo' & Hhi' & Hlin & Hhin & _ & _ & Hb).
  rewrite Hlo in Hlo'; injection Hlo' as <-.
  rewrite Hhi in Hhi'; injection Hhi' as <-.
  assert (Hd : (0 < hi - lo)%Z) by lia.
  pose (f := fun x : Z => inject_Z (x - lo) / inject_Z (hi - lo)).
  assert (H0 : forall x, f x == 0 <-> x = lo).
  { intro x; unfold f.
    assert (E0 : 0 == inject_Z 0 / inject_Z (hi - lo))
      by (unfold Qdiv; cbn; rewrite Qmult_0_l; reflexivity).
    rewrite E0, (Qdiv_inject_eq _ _ _ Hd); lia. }
  assert (H1 : forall x, f x == 1 <-> x = hi).
  { intro x; unfold f.
    assert (E1 : 1 == inject_Z (hi - lo) / inject_Z (hi - lo)).
    { unfold Qdiv; rewrite Qmult_inv_r; [reflexivity|].
      unfold Qeq, inject_Z; cbn; lia. }
    rewrite E1, (Qdiv_inject_eq _ _ _ Hd); lia. }
  assert (HY : data (map_arr (fun x => true_divide (x - lo) (hi - lo)) X)
               = map (fun x => Fin (f x)) (data X)).
  { cbn [map_arr data]; apply map_ext_in; intros x Hx.
    pose proof (Hb x Hx).
    apply true_divide_unit; lia. }
  exists (map_arr (fun x => true_divide (x - lo) (hi - lo)) X), f.
  split; [apply normalise_eq; assumption|].
  split; [exact HY|].
  split.
  { intros x y _ _; unfold f; rewrite (Qdiv_inject_le _ _ _ Hd); lia. }
  split; [intros x _; apply H0|].
  split; [intros x _; apply H1|].
  rewrite HY; split.
  - exists (f lo); split; [|apply H0; reflexivity].
    apply in_map_iff; exists lo; auto.
  - exists (f hi); split; [|apply H1; reflexivity].
    apply in_map_iff; exists hi; auto.
Qed.

Lemma normalise_keeps_order_witness :
  (0 < 255)%Z /\
  exists (Y : ndarray float) (f : Z -> Q),
    normalise Sample.images = Some Y /\
    data Y = map (fun x => Fin (f x)) (data Sample.images).
Proof.
  split; [lia|].
  destruct (normalise_keeps_order_and_reaches_0_and_1 Sample.images 0 255
              (proj1 images_loadable) eq_refl eq_refl eq_refl)
    as (Y & f & Hn & Hd & _).
  exists Y, f; split; assumption.
Defined.

(** X3: cell 2 raises exactly when the data set has fewer than three
    axes ([X_train.shape[1]] or [X_train.shape[2]] is out of range) or its
    images have fewer than 8 pixels (a [Dense] layer of [D] gets an input
    without elements); otherwise it builds the models from the second and
    third dimension, with [res] their product and [noise_res] the quarter
    of it. *)
Theorem build_raises_iff_flat_or_small (X_shape : list nat) :
  (Cell2.build X_shape = None <->
   (length X_shape < 3)%nat \/
   (nth 1 X_shape 0 * nth 2 X_shape 0 < 8)%nat) /\
  (forall ms, Cell2.build X_shape = Some ms ->
     exists M H W rest,
       X_shape = M :: H :: W :: rest /\
       (8 <= H * W)%nat /\
       Cell2.img_shape ms = [H; W] /\ Cell2.res ms = (H * W)%nat /\
       Cell2.noise_res ms = (H * W / 4)%nat).
Proof.
  destruct X_shape as [|M [|H [|W rest]]].
  1-3: split; [split; [cbn; lia | reflexivity] | intros ms E; discriminate].
  cbn [nth length].
  destruct (Nat.lt_ge_cases (H * W) 8) as [Hlt | Hge].
  - rewrite (Cell2Facts.build_small (M :: H :: W :: rest) H W
               eq_refl eq_refl Hlt).
    split; [split; [auto | reflexivity] | intros ms E; discriminate].
  - rewrite (Cell2Facts.build_eq (M :: H :: W :: rest) H W
               eq_refl eq_refl Hge).
    split.
    + split; [discriminate | intros [Hl | Hs]; [cbn in Hl|]; lia].
    + intros ms E; injection E as <-.
      exists M, H, W, rest; repeat split; assumption.
Qed.

Lemma build_raises_witness :
  Cell2.build [60; 2; 3]%nat = None /\
  Cell2.build [60; 2]%nat = None /\
  exists ms, Cell2.build [60; 2; 4]%nat = Some ms /\
             Cell2.noise_res ms = 2%nat.
Proof.
  split; [|split].
  - apply (proj1 (build_raises_iff_flat_or_small [60; 2; 3]%nat)).
    right; cbn; lia.
  - apply (proj1 (build_raises_iff_flat_or_small [60; 2]%nat)).
    left; cbn; lia.
  - destruct (Cell2.build [60; 2; 4]%nat) as [ms|] eqn:E.
    + exists ms; split; [reflexivity|].
      destruct (proj2 (build_raises_iff_flat_or_small [60; 2; 4]%nat) ms E)
        as (M & H & W & rest & Hs & _ & _ & _ & HN).
      injection Hs as <- <- <- <-; exact HN.
    + discriminate.
Defined.

End CellExtras.

(** ** The layers: shapes, batches, activations, reachable outputs *)

Module LayerExtras.

Import Keras.

Unset Implicit Arguments.

Section AnyScalars.

Variable F : Type.
Variable zero : F.
Variables add mul maxf : F -> F -> F.
Variables leaky sigmoid : F -> F.

Local Abbreviation call_layer := (call_layer zero add mul maxf leaky sigmoid).
Local Abbreviation call_layers :=
  (call_layers zero add mul maxf leaky sigmoid).
Local Abbreviation call := (Keras.call zero add mul maxf leaky sigmoid).
Local Abbreviation call_each := (call_each zero add mul maxf leaky sigmoid).
Local Abbreviation predict := (predict zero add mul maxf leaky sigmoid).

Lemma call_layer_agrees (l : layer) (w : layer_weights F) (x y : tensor F) :
  call_layer l w x = Some y ->
  compute_output_shape l (shape x) = Some (shape y).
Proof.
  destruct l as [|units act| |output_dim|target];
    cbn [compute_output_shape Keras.call_layer]; intro H.
  - destruct (fully_defined (shape x)); [|discriminate].
    injection H as <-; reflexivity.
  - destruct (shape x) as [|n [|? ?]]; try discriminate.
    destruct w as [|kernel [|bias [|? ?]]]; try discriminate.
    destruct (n =? 0)%nat; [discriminate|].
    injection H as <-; reflexivity.
  - injection H as <-; reflexivity.
  - destruct (shape x) as [|n [|? ?]]; try discriminate.
    destruct w as [|W [|b [|? ?]]]; try discriminate.
    destruct (n =? 0)%nat; [discriminate|].
    injection H as <-; reflexivity.
  - destruct (size_of (shape x) =? size_of target)%nat; [|discriminate].
    injection H as <-; reflexivity.
Qed.

Lemma call_layers_agree (ls : list layer) :
  forall (ws : list (layer_weights F)) (x y : tensor F),
    call_layers ls ws x = Some y ->
    infer_shape ls (shape x) = Some (shape y).
Proof.
  induction ls as [|l ls IH]; intros ws x y H.
  - destruct ws; [|discriminate]; injection H as <-; reflexivity.
  - destruct ws as [|w ws]; [discriminate|].
    cbn [Keras.call_layers] in H.
    destruct (call_layer l w x) as [x'|] eqn:E; [|discriminate].
    cbn [infer_shape]; rewrite (call_layer_agrees l w x x' E).
    eapply IH; exact H.
Qed.

(** X4: whenever the forward pass of a model returns, whatever the
    weights, the input had the model's input shape and the output has the
    shape that shape inference computes for the model; so an input of
    another shape, or a stack whose shapes do not chain, makes the call
    raise. *)
Theorem forward_pass_agrees_with_shape_inference
  (m : sequential) (ws : list (layer_weights F)) (x y : tensor F) :
  call m ws x = Some y ->
  shape x = input_shape m /\ output_shape m = Some (shape y).
Proof.
  unfold Keras.call, output_shape.
  destruct (list_eq_dec Nat.eq_dec (shape x) (input_shape m)) as [E|];
    [|discriminate].
  intro H; split; [exact E|].
  rewrite <- E; eapply call_layers_agree; exact H.
Qed.

Lemma row_length (X : tensor F) (b : nat) (sh : list nat) (i : nat) :
  shape X = b :: sh -> well_shaped X -> (i < b)%nat ->
  length (row X i) = size_of sh.
Proof.
  intros Hs Hw Hi; unfold row, row_size, well_shaped in *.
  rewrite Hs in *; cbn [tl] in *; cbn [size_of fold_right] in Hw.
  fold (size_of sh) in Hw.
  rewrite length_firstn, length_skipn, Hw; nia.
Qed.

Lemma call_each_sound (m : sequential) (ws : list (layer_weights F))
  (out : list nat) (xs : list (tensor F)) :
  weights_fit (layers m) (input_shape m) ws ->
  output_shape m = Some out ->
  Forall (fun x => shape x = input_shape m /\ well_shaped x) xs ->
  exists ys,
    call_each m ws xs = Some ys /\ length ys = length xs /\
    Forall (fun y => shape y = out /\ well_shaped y) ys.
Proof.
  intros Hfit Hout; induction 1 as [|x xs [Hs Hw] _ IH].
  - exists []; repeat split; constructor.
  - destruct (@KerasFacts.call_sound F zero add mul maxf leaky sigmoid
                m ws x out Hfit Hout Hs Hw) as (y & Hy & Hys & Hyw).
    destruct IH as (ys & Hrun & Hlen & Hall).
    exists (y :: ys); cbn [Keras.call_each]; rewrite Hy, Hrun.
    split; [reflexivity|]; split; [cbn; congruence|].
    constructor; auto.
Qed.

(** X5: [predict] on a well-shaped batch of [b] examples of the model's
    input shape, with weights that fit, returns [b] outputs, each of the
    model's output shape and well-shaped. *)
Theorem predict_returns_one_output_per_example
  (m : sequential) (ws : list (layer_weights F)) (out : list nat)
  (X : tensor F) (b : nat) :
  weights_fit (layers m) (input_shape m) ws ->
  output_shape m = Some out ->
  shape X = b :: input_shape m ->
  well_shaped X ->
  exists ys,
    predict m ws X = Some ys /\ length ys = b /\
    Forall (fun y => shape y = out /\ well_shaped y) ys.
Proof.
  intros Hfit Hout Hs Hw; unfold Keras.predict.
  destruct (call_each_sound m ws out (examples X) Hfit Hout)
    as (ys & Hrun & Hlen & Hall).
  - unfold examples; rewrite Hs; cbn [hd tl].
    apply Forall_forall; intros x Hx.
    apply in_map_iff in Hx; destruct Hx as (i & <- & Hi).
    apply in_seq in Hi; cbn [shape]; split; [reflexivity|].
    unfold well_shaped; cbn [shape data].
    apply (row_length X b (input_shape m) i Hs Hw); lia.
  - exists ys; split; [exact Hrun|]; split; [|exact Hall].
    rewrite Hlen; unfold examples.
    rewrite length_map, length_seq, Hs; reflexivity.
Qed.

End AnyScalars.

End LayerExtras.

Module LayerWitness.

Import Keras Sample.

Unset Implicit Arguments.

Lemma forward_pass_agrees_witness :
  exists y,
    RealLayers.call G_2x4 (zero_weights (Cell2.G_layers [2; 4]%nat 8) [2]%nat)
      (zero_tensor [2]%nat) = Some y /\
    shape (zero_tensor [2]%nat) = input_shape G_2x4 /\
    output_shape G_2x4 = Some (shape y).
Proof.
  destruct (@KerasFacts.call_sound R 0%R Rplus Rmult Rmax
              (RealLayers.relu RealLayers.alpha) RealLayers.sigmoid
              G_2x4 (zero_weights (Cell2.G_layers [2; 4]%nat 8) [2]%nat)
              (zero_tensor [2]%nat) [2; 4]%nat
              RealWitness.zero_weights_fit_G eq_refl eq_refl eq_refl)
    as (y & Hy & _).
  exists y; split; [exact Hy|].
  exact (LayerExtras.forward_pass_agrees_with_shape_inference
           R 0%R Rplus Rmult Rmax (RealLayers.relu RealLayers.alpha)
           RealLayers.sigmoid G_2x4 _ _ y Hy).
Defined.

Lemma predict_witness :
  exists ys,
    RealLayers.predict G_2x4
      (zero_weights (Cell2.G_layers [2; 4]%nat 8) [2]%nat)
      (zero_tensor [3; 2]%nat) = Some ys /\
    length ys = 3%nat /\
    Forall (fun y => shape y = [2; 4]%nat /\ well_shaped y) ys.
Proof.
  exact (LayerExtras.predict_returns_one_output_per_example
           R 0%R Rplus Rmult Rmax (RealLayers.relu RealLayers.alpha)
           RealLayers.sigmoid G_2x4
           (zero_weights (Cell2.G_layers [2; 4]%nat 8) [2]%nat)
           [2; 4]%nat (zero_tensor [3; 2]%nat) 3
           RealWitness.zero_weights_fit_G eq_refl eq_refl eq_refl).
Defined.

End LayerWitness.

(** ** Which outputs the models can produce *)

Module RangeExtras.

Import Keras RealLayers.

Unset Implicit Arguments.

Local Open Scope R_scope.

Lemma fold_zero (l : list (nat * R)) (w : nat -> R) :
  (forall i, w i = 0) ->
  forall acc, fold_left Rplus (map (fun p => snd p * w (fst p)) l) acc = acc.
Proof.
  intro Hw; induction l as [|p l IH]; intro acc; cbn; [reflexivity|].
  rewrite IH, Hw; lra.
Qed.

Lemma weighted_sum_zero (x : list R) (w : nat -> R) :
  (forall i, w i = 0) -> weighted_sum 0 Rplus Rmult x w = 0.
Proof. intro Hw; unfold weighted_sum; apply fold_zero; exact Hw. Qed.

Lemma filled_well_shaped (sh : list nat) (v : R) : well_shaped (filled sh v).
Proof. unfold well_shaped, filled; cbn; apply repeat_length. Qed.

(** A [Dense] layer whose kernel is zero returns its bias, activated. *)
Lemma dense_zero_kernel (n n' units : nat) (act : activation) (b : R)
  (x : ndarray R) :
  shape x = [n'] -> n' <> 0%nat ->
  call_layer 0 Rplus Rmult Rmax (relu alpha) sigmoid (Dense units act)
    [filled [n; units] 0; filled [units] b] x
  = Some (filled [units] (apply_activation sigmoid act b)).
Proof.
  intros Hs Hn; cbn [Keras.call_layer]; rewrite Hs.
  rewrite (Cell2Facts.eqb_0_false n' Hn).
  unfold filled; cbn [data]; rewrite KerasFacts.size_of_singleton.
  f_equal; f_equal.
  rewrite <- (@map_repeat R R b units (apply_activation sigmoid act)).
  f_equal.
  unfold dense_call.
  transitivity (map (fun _ : nat => b) (seq 0 units));
    [|rewrite map_const, length_seq; reflexivity].
  apply map_ext_in; intros j Hj; apply in_seq in Hj.
  rewrite weighted_sum_zero by (intro i; apply nth_repeat).
  rewrite nth_repeat_lt by lia.
  rewrite Rplus_0_l; reflexivity.
Qed.

Lemma leaky_zero (w : list (ndarray R)) (sh : list nat) :
  call_layer 0 Rplus Rmult Rmax (relu alpha) sigmoid LeakyReLU w
    (filled sh 0)
  = Some (filled sh 0).
Proof.
  cbn [Keras.call_layer]; unfold map_arr, filled; cbn [shape data].
  rewrite map_repeat.
  replace (relu alpha 0) with 0; [reflexivity|].
  unfold relu, Rmax; destruct (Rle_dec 0 0), (Rle_dec (- 0) 0); lra.
Qed.

Lemma fold_Rmax_same (c : R) (l : list R) :
  (forall v, In v l -> v = c) -> fold_left Rmax l c = c.
Proof.
  induction l as [|v l IH]; intro H; cbn; [reflexivity|].
  rewrite (H v (or_introl eq_refl)).
  replace (Rmax c c) with c
    by (unfold Rmax; destruct (Rle_dec c c); reflexivity).
  apply IH; intros u Hu; apply H; right; exact Hu.
Qed.

(** A [MaxoutDense] layer whose kernel is zero and whose bias is [c]
    everywhere returns [c] everywhere. *)
Lemma maxout_zero_kernel (n n' output_dim : nat) (c : R) (x : ndarray R) :
  shape x = [n'] -> n' <> 0%nat ->
  call_layer 0 Rplus Rmult Rmax (relu alpha) sigmoid (MaxoutDense output_dim)
    [filled [nb_feature; n; output_dim] 0; filled [nb_feature; output_dim] c] x
  = Some (filled [output_dim] c).
Proof.
  intros Hs Hn; cbn [Keras.call_layer]; rewrite Hs.
  rewrite (Cell2Facts.eqb_0_false n' Hn).
  unfold filled at 3; rewrite KerasFacts.size_of_singleton.
  f_equal; f_equal.
  unfold maxout_call.
  transitivity (map (fun _ : nat => c) (seq 0 output_dim));
    [|rewrite map_const, length_seq; reflexivity].
  apply map_ext_in; intros j Hj; apply in_seq in Hj.
  assert (Hf : forall k, (k < nb_feature)%nat ->
            maxout_feature 0 Rplus Rmult output_dim
              (data (filled [nb_feature; n; output_dim] 0))
              (data (filled [nb_feature; output_dim] c)) (data x) k j = c).
  { intros k Hk; unfold maxout_feature, filled; cbn [data].
    rewrite weighted_sum_zero by (intro i; apply nth_repeat).
    rewrite nth_repeat_lt; [lra|].
    unfold nb_feature in *; cbn [size_of fold_right]; nia. }
  rewrite (Hf 0%nat) by (unfold nb_feature; lia).
  apply fold_Rmax_same; intros v Hv.
  apply in_map_iff in Hv; destruct Hv as (k & <- & Hk).
  apply in_seq in Hk; apply Hf; unfold nb_feature in *; lia.
Qed.

Lemma dense_after_filled (n n' units : nat) (act : activation) (b v : R) :
  n' <> 0%nat ->
  call_layer 0 Rplus Rmult Rmax (relu alpha) sigmoid (Dense units act)
    [filled [n; units] 0; filled [units] b] (filled [n'] v)
  = Some (filled [units] (apply_activation sigmoid act b)).
Proof. intro Hn; apply (dense_zero_kernel n n'); [reflexivity | exact Hn]. Qed.

Lemma maxout_after_filled (n n' output_dim : nat) (c v : R) :
  n' <> 0%nat ->
  call_layer 0 Rplus Rmult Rmax (relu alpha) sigmoid (MaxoutDense output_dim)
    [filled [nb_feature; n; output_dim] 0; filled [nb_feature; output_dim] c]
    (filled [n'] v)
  = Some (filled [output_dim] c).
Proof. intro Hn; apply (maxout_zero_kernel n n'); [reflexivity | exact Hn]. Qed.

Lemma reshape_filled (h w : nat) (c : R) :
  call_layer 0 Rplus Rmult Rmax (relu alpha) sigmoid (Reshape [h; w]) []
    (filled [(h * w)%nat] c)
  = Some (filled [h; w] c).
Proof.
  cbn [Keras.call_layer filled shape data].
  rewrite Cell2Facts.reshape_fits.
  unfold filled; f_equal; f_equal; f_equal.
  apply Nat.eqb_eq, Cell2Facts.reshape_fits.
Qed.

Lemma biased_weights_fit (bias : layer -> R) (ls : list layer) :
  forall (sh out : list nat),
    infer_shape ls sh = Some out ->
    weights_fit ls sh (biased_weights bias ls sh).
Proof.
  induction ls as [|l ls IH]; intros sh out H; cbn in H |- *; [exact I|].
  destruct (compute_output_shape l sh) as [sh'|] eqn:E; [|discriminate].
  split; [|split].
  - destruct l; destruct sh as [|? [|? ?]]; reflexivity.
  - destruct l; destruct sh as [|? [|? ?]]; cbn;
      repeat constructor; apply filled_well_shaped.
  - eapply IH; exact H.
Qed.

(** X8: nothing confines the output of [G]: for every real [c] there are
    weights of the right shapes with which [G] maps every noise vector to
    the image whose pixels all are [c] (so also to values outside
    [0, 1], the range of the training images). *)
Theorem generator_reaches_every_constant_image
  (M H W : nat) (ms : Cell2.models) (c : R) :
  Cell2.build [M; H; W] = Some ms ->
  let ws := biased_weights (maxout_bias c) (layers (Cell2.G_model ms))
              (input_shape (Cell2.G_model ms)) in
  weights_fit (layers (Cell2.G_model ms)) (input_shape (Cell2.G_model ms)) ws /\
  forall z : ndarray R,
    shape z = [Cell2.noise_res ms] ->
    RealLayers.call (Cell2.G_model ms) ws z = Some (filled [H; W] c).
Proof.
  intros Hb.
  destruct (Cell2Facts.build_inv3 M H W ms Hb) as (H8 & ->).
  cbn [Cell2.G_model Cell2.noise_res layers input_shape].
  assert (N4 : Python.int_div (H * W) 4 <> 0%nat)
    by (apply Cell2Facts.int_div_nonzero; lia).
  assert (N2 : Python.int_div (H * W) 2 <> 0%nat)
    by (apply Cell2Facts.int_div_nonzero; lia).
  assert (N1 : (H * W)%nat <> 0%nat) by lia.
  split.
  - apply (biased_weights_fit _ _ _ [H; W]), Cell2Facts.infer_G_layers.
    exact H8.
  - intros z Hz; unfold RealLayers.call, Keras.call.
    cbn [input_shape layers].
    match goal with
    | |- context [list_eq_dec Nat.eq_dec ?a ?b] =>
        destruct (list_eq_dec Nat.eq_dec a b) as [_ | NE];
          [|exfalso; apply NE; exact Hz]
    end.
    cbn [Cell2.G_layers biased_weights weight_shapes compute_output_shape
         maxout_bias].
    repeat (first [rewrite (Cell2Facts.eqb_0_false _ N4)
                  |rewrite (Cell2Facts.eqb_0_false _ N2)
                  |rewrite (Cell2Facts.eqb_0_false _ N1)
                  |rewrite Cell2Facts.reshape_fits];
            cbn [biased_weights weight_shapes compute_output_shape
                 maxout_bias]).
    unfold Cell2.G_layers; cbn [Keras.call_layers].
    rewrite (dense_zero_kernel _ _ _ _ _ z Hz N4).
    rewrite leaky_zero, dense_after_filled by exact N4.
    rewrite leaky_zero, dense_after_filled by exact N2.
    rewrite leaky_zero, maxout_after_filled by exact N1.
    cbn [apply_activation].
    rewrite reshape_filled; reflexivity.
Qed.

Lemma generator_reaches_witness :
  RealLayers.call Sample.G_2x4
    (biased_weights (maxout_bias 2) (Cell2.G_layers [2; 4]%nat 8) [2]%nat)
    (Sample.zero_tensor [2]%nat)
  = Some (filled [2; 4]%nat 2).
Proof.
  exact (proj2 (generator_reaches_every_constant_image
                  2 2 4 Sample.models_2x4 2 eq_refl)
           (Sample.zero_tensor [2]%nat) eq_refl).
Defined.

End RangeExtras.

(** ** The loop and the whole notebook *)

Module RunExtras.

Import Script ScriptFacts LoopFacts.

Unset Implicit Arguments.

Lemma ceil_step (n : Z) :
  (0 <= n)%Z ->
  ((n + 1 + 99) / 100 =
   (n + 99) / 100 + (if (n mod 100 =? 0)%Z then 1 else 0))%Z.
Proof.
  intro H.
  destruct (Z.eqb_spec (n mod 100) 0) as [E | E];
    Z.div_mod_to_equations; lia.
Qed.

(** Among the indices [0 .. n-1] the multiples of 100 number
    [ceil(n / 100)]. *)
Lemma printing_range (n : nat) :
  Z.of_nat (printing (Python.range n)) = ((Z.of_nat n + 99) / 100)%Z.
Proof.
  induction n as [|n IH]; [reflexivity|].
  rewrite range_S; unfold printing in *.
  rewrite filter_app, length_app, Nat2Z.inj_add, IH.
  replace (Z.of_nat (S n)) with (Z.of_nat n + 1)%Z by lia.
  rewrite ceil_step by lia.
  cbn [filter]; destruct (Z.of_nat n mod 100 =? 0)%Z; reflexivity.
Qed.

(** X10: from a ready state the first [k] iterations of the loop print
    [ceil(k / 100)] lines, and the whole loop of 30000 iterations prints
    exactly 300. *)
Theorem loop_prints_300_lines (bk : backend) (s0 : state bk) :
  ready s0 ->
  (forall k : nat,
     exists s,
       after_epochs k s0 = Some (tt, s) /\
       Z.of_nat (count is_print (trace s)) =
       ((Z.of_nat k + 99) / 100 + Z.of_nat (count is_print (trace s0)))%Z) /\
  exists s_end,
    cell3 s0 = Some (tt, s_end) /\
    Z.of_nat (count is_print (trace s_end)) =
    (300 + Z.of_nat (count is_print (trace s0)))%Z.
Proof.
  intro Hr.
  assert (Hk : forall k : nat,
            exists s,
              after_epochs k s0 = Some (tt, s) /\
              Z.of_nat (count is_print (trace s)) =
              ((Z.of_nat k + 99) / 100
               + Z.of_nat (count is_print (trace s0)))%Z).
  { intro k.
    destruct (loop_spec bk (Python.range k) s0 Hr)
      as (s & Hrun & _ & _ & _ & _ & _ & _ & _ & _ & Hp).
    exists s; split; [exact Hrun|].
    unfold trace; rewrite !count_rev, Hp, Nat2Z.inj_add, printing_range.
    reflexivity. }
  split; [exact Hk|].
  destruct (Hk epochs) as (s_end & Hrun & Hp).
  exists s_end; split; [exact Hrun|].
  rewrite Hp, epochs_eq; reflexivity.
Qed.

Lemma loop_prints_300_lines_witness :
  ready (bk:=Sample.counting) Sample.start /\
  exists s_end : state Sample.counting,
    cell3 Sample.start = Some (tt, s_end) /\
    Z.of_nat (count is_print (trace s_end)) = 300%Z.
Proof.
  split; [exact start_ready|].
  destruct (loop_prints_300_lines Sample.counting Sample.start start_ready)
    as (_ & s_end & Hrun & Hp).
  exists s_end; split; [exact Hrun | exact Hp].
Defined.

(** X11: every iteration advances the random stream by the same amount,
    16 index draws and 16*N + 32*N normal draws: after [k] iterations the
    stream stands at [k * (16 + 48 * N)] past its start. *)
Theorem each_epoch_consumes_the_same_draws (bk : backend) (s0 : state bk) :
  ready s0 ->
  forall k : nat,
    exists s,
      after_epochs k s0 = Some (tt, s) /\
      rng s =
      (rng s0 + k * (16 + 48 * Cell2.noise_res (defs s0)))%nat.
Proof.
  intros Hr k; induction k as [|k IH].
  - exists s0; split; [reflexivity | lia].
  - destruct IH as (s & Hrun & Hrng).
    destruct (before_epoch bk s0 k Hr) as (s1 & Hrun1 & Hr1 & _ & Hd & Hnext).
    rewrite Hrun in Hrun1; injection Hrun1 as <-.
    destruct (epoch_body_spec bk s (Z.of_nat k) Hr1) as (real & _ & _ & He).
    cbv zeta in He; rewrite <- Hnext in He.
    eexists; split; [exact He|].
    cbn [rng]; rewrite Hrng, Hd.
    change half_batch_size with 16%nat; change batch_size with 32%nat.
    lia.
Qed.

Lemma each_epoch_consumes_witness :
  ready (bk:=Sample.counting) Sample.start /\
  exists s : state Sample.counting,
    after_epochs 2 Sample.start = Some (tt, s) /\
    rng s = (rng Sample.start
             + 2 * (16 + 48 * Cell2.noise_res (defs Sample.start)))%nat.
Proof.
  split; [exact start_ready|].
  exact (each_epoch_consumes_the_same_draws
           Sample.counting Sample.start start_ready 2).
Defined.

(** On images with more than two axes the first training step of [D]
    rejects the batch of real images. *)
Lemma train_epoch_rejects_rank (bk : backend) (X : ndarray float)
  (ms : Cell2.models) (wd wg : weights bk) (o : optimizer_state bk)
  (r : nat) (l : list event) (M H W c : nat) (rest : list nat) :
  shape X = M :: H :: W :: c :: rest -> M <> 0%nat ->
  Cell2.build (shape X) = Some ms ->
  train_epoch (@mk_state bk X ms wd wg false true (Some [D]) (Some [G])
                 o r l) = None.
Proof.
  intros Hsh HM Hb.
  assert (Hb3 : Cell2.build [M; H; W] = Some ms)
    by (rewrite Hsh in Hb; exact Hb).
  destruct (Cell2Facts.build_shapes M H W ms Hb3)
    as (H8 & HDi & HDo & HGi & HGo & HN).
  destruct (real_batch_exists bk X r half_batch_size) as (real & Hreal & Hrs).
  { rewrite Hsh; exact HM. }
  rewrite Hsh in Hreal, Hrs; cbn [hd tl] in Hreal, Hrs.
  unfold train_epoch, bind, get, lift, shape_at.
  cbn [X_train defs]; rewrite Hsh; cbn [nth_error ret].
  unfold randint, bind, get.
  destruct (Nat.eqb_spec M 0) as [E|_]; [contradiction|].
  unfold advance, emit, ret.
  cbn [X_train defs D_weights G_weights D_trainable G_trainable
       D_collected gan_collected optimizer rng log].
  rewrite Hreal.
  unfold normal, bind, get, advance, emit, ret.
  cbn [X_train defs D_weights G_weights D_trainable G_trainable
       D_collected gan_collected optimizer rng log].
  rewrite (G_predict_eq bk _ _ [H; W] half_batch_size);
    [|exact HGo
     |cbn [defs]; rewrite HGi; apply batch_of_rows;
        [reflexivity | discriminate]
     |discriminate].
  rewrite train_on_batch_rejects_x; [reflexivity|].
  cbn [defs model_input_shape]; rewrite HDi.
  apply (batch_of_mismatch _ (H :: W :: c :: rest) _ half_batch_size);
    [exact Hrs | discriminate | discriminate].
Qed.

(** X14: with both models compiled, and the models those cell 2 builds
    for the data set, the statements of an iteration raise exactly when
    the data set has no first image to draw from ([randint(0, ...)]) or
    its images have more than two axes (the batch of real images does not
    fit [D]). *)
Theorem epoch_raises_iff_no_images_or_rank_above_3
  (bk : backend) (s : state bk) :
  compiled s ->
  Cell2.build (shape (X_train s)) = Some (defs s) ->
  (train_epoch s = None <->
   hd 0%nat (shape (X_train s)) = 0%nat \/
   (3 < length (shape (X_train s)))%nat).
Proof.
  intros Hc Hb.
  destruct (Cell2Facts.build_inv _ _ Hb) as (h & w & H1 & H2 & _).
  destruct (shape (X_train s)) as [|M [|H [|W rest]]] eqn:Hsh;
    try discriminate.
  cbn [hd length].
  destruct (Nat.eq_dec M 0) as [-> | HM].
  - split; [auto|]; intros _.
    unfold train_epoch, bind, get, lift, shape_at.
    rewrite Hsh; reflexivity.
  - destruct rest as [|c rest].
    + assert (Hr : ready s).
      { split; [exact Hc|]; rewrite Hsh; cbn [hd length].
        split; [exact HM|]; split; [reflexivity | exact Hb]. }
      destruct (train_epoch_spec bk s Hr) as (real & _ & Ht).
      cbv zeta in Ht; rewrite Ht.
      split; [discriminate | intros [E | E]; [contradiction | cbn in E; lia]].
    + split; [intros _; right; cbn; lia | intros _].
      destruct s as [X ms wd wg dt gt dc gc o r l].
      destruct Hc as (Hdc & Hgc & Hdt & Hgt); cbn in Hdc, Hgc, Hdt, Hgt.
      subst dc gc dt gt.
      cbn [X_train defs] in *.
      apply (train_epoch_rejects_rank bk X ms wd wg o r l M H W c rest
               Hsh HM).
      rewrite Hsh; exact Hb.
Qed.

Lemma epoch_raises_witness :
  compiled (bk:=Sample.counting) Sample.start_without_images /\
  train_epoch Sample.start_without_images = None /\
  train_epoch Sample.start_in_colour = None /\
  train_epoch Sample.start <> None.
Proof.
  split; [repeat split|].
  split; [|split].
  - apply (proj2 (epoch_raises_iff_no_images_or_rank_above_3
                    Sample.counting Sample.start_without_images
                    ltac:(repeat split) eq_refl)).
    left; reflexivity.
  - apply (proj2 (epoch_raises_iff_no_images_or_rank_above_3
                    Sample.counting Sample.start_in_colour
                    ltac:(repeat split) eq_refl)).
    right; cbn; lia.
  - intro E.
    destruct (proj1 (epoch_raises_iff_no_images_or_rank_above_3
                       Sample.counting Sample.start
                       TrainableFacts.start_compiled eq_refl) E)
      as [H0 | H3]; [discriminate | cbn in H3; lia].
Defined.

End RunExtras.

(** ** Indexing with an index array *)

Module IndexExtras.

Unset Implicit Arguments.

Section AnyElements.

Variable A : Type.

Lemma take_rows_none_iff (a : ndarray A) (idxs : list nat) :
  take_rows a idxs = None <->
  exists i, In i idxs /\ (hd 0%nat (shape a) <= i)%nat.
Proof.
  induction idxs as [|i rest IH]; cbn [take_rows].
  - split; [discriminate | intros (i & [] & _)].
  - destruct (Nat.ltb_spec i (hd 0%nat (shape a))) as [Hlt | Hge].
    + destruct (take_rows a rest) as [d|].
      * split; [discriminate|].
        intros (k & [<- | Hk] & Hle); [lia|].
        destruct IH as [_ IH]; discriminate IH; exists k; auto.
      * split; [|reflexivity].
        intros _; destruct IH as [IH _].
        destruct (IH eq_refl) as (k & Hk & Hle).
        exists k; split; [right; exact Hk | exact Hle].
    + split; [|reflexivity].
      intros _; exists i; split; [left; reflexivity | exact Hge].
Qed.

Lemma take_rows_spec (a : ndarray A) (M : nat) (sh : list nat) :
  shape a = M :: sh -> well_shaped a ->
  forall (idxs : list nat) (d : list A),
    take_rows a idxs = Some d ->
    length d = (length idxs * size_of sh)%nat /\
    forall j, (j < length idxs)%nat ->
      firstn (size_of sh) (skipn (j * size_of sh) d) = row a (nth j idxs 0%nat).
Proof.
  intros Hs Hw; induction idxs as [|i rest IH]; intros d H;
    cbn [take_rows] in H.
  - injection H as <-; split; [reflexivity|]; intros j Hj; cbn in Hj; lia.
  - rewrite Hs in H; cbn [hd] in H.
    destruct (Nat.ltb_spec i M) as [Hlt | Hge]; [|discriminate].
    destruct (take_rows a rest) as [tail|] eqn:E; [|discriminate].
    injection H as <-.
    destruct (IH tail eq_refl) as (Hlen & Hrows).
    pose proof (LayerExtras.row_length A a M sh i Hs Hw Hlt) as Hrow.
    split.
    + rewrite length_app, Hrow, Hlen; cbn [length]; lia.
    + intros [|j] Hj; cbn [length] in Hj.
      * cbn [Nat.mul skipn nth].
        rewrite firstn_app, Hrow, Nat.sub_diag; cbn [firstn].
        rewrite app_nil_r, <- Hrow; apply firstn_all.
      * cbn [nth].
        replace (S j * size_of sh)%nat
          with (length (row a i) + j * size_of sh)%nat by (rewrite Hrow; lia).
        rewrite skipn_app, skipn_all2 by lia.
        cbn [app].
        replace (length (row a i) + j * size_of sh - length (row a i))%nat
          with (j * size_of sh)%nat by lia.
        apply Hrows; lia.
Qed.

(** X15: [a[idxs]] on a well-shaped array with [M] rows raises exactly
    when some index is [M] or more; otherwise the result has one row per
    index and the shape of a row of [a], is well-shaped, and its row [j]
    is the row of [a] at the [j]-th index (repeated indices give repeated
    rows). *)
Theorem fancy_index_takes_rows
  (a : ndarray A) (M : nat) (sh : list nat) (idxs : list nat) :
  shape a = M :: sh ->
  well_shaped a ->
  (fancy_index a idxs = None <->
   exists i, In i idxs /\ (M <= i)%nat) /\
  (forall b, fancy_index a idxs = Some b ->
     shape b = length idxs :: sh /\
     well_shaped b /\
     forall j, (j < length idxs)%nat -> row b j = row a (nth j idxs 0%nat)).
Proof.
  intros Hs Hw; unfold fancy_index.
  pose proof (take_rows_none_iff a idxs) as Hnone.
  rewrite Hs in Hnone; cbn [hd] in Hnone.
  destruct (take_rows a idxs) as [d|] eqn:E.
  - split.
    + split; [discriminate|].
      intro H; apply Hnone in H; discriminate.
    + intros b Hb; injection Hb as <-.
      destruct (take_rows_spec a M sh Hs Hw idxs d E) as (Hlen & Hrows).
      rewrite Hs; cbn [tl shape].
      split; [reflexivity|]; split.
      * unfold well_shaped; cbn [shape data size_of fold_right].
        exact Hlen.
      * intros j Hj; unfold row at 1, row_size; cbn [shape data tl].
        apply Hrows; exact Hj.
  - split; [|intros b Hb; discriminate].
    split; [intros _; apply Hnone; reflexivity | reflexivity].
Qed.

End AnyElements.

Lemma fancy_index_witness :
  well_shaped Sample.normalised /\
  (fancy_index Sample.normalised [1; 1; 0]%nat = None <->
   exists i, In i [1; 1; 0]%nat /\ (2 <= i)%nat).
Proof.
  split; [reflexivity|].
  exact (proj1 (fancy_index_takes_rows float Sample.normalised 2 [2; 4]%nat
                  [1; 1; 0]%nat eq_refl eq_refl)).
Defined.

End IndexExtras.

(** ** The notebook from the first cell to the last *)

Module MainExtras.

Import Script ScriptFacts LoopFacts.

Unset Implicit Arguments.

Lemma normalise_some (X : ndarray Z) :
  data X <> [] ->
  exists Y, Cell1.normalise X = Some Y /\ shape Y = shape X.
Proof.
  intro Hne.
  unfold Cell1.normalise, Cell1.numerator, Cell1.denominator, np_min, np_max.
  destruct (data X) as [|x xs]; [contradiction|].
  eexists; split; reflexivity.
Qed.

Lemma rank_3_shape (X : ndarray Z) :
  well_shaped X -> length (shape X) = 3%nat -> data X <> [] ->
  exists M H W, shape X = [M; H; W] /\ M <> 0%nat.
Proof.
  intros Hw Hrank Hne.
  destruct (shape X) as [|M [|H [|W [|? ?]]]] eqn:E; try discriminate.
  exists M, H, W; split; [reflexivity|].
  intros ->.
  unfold well_shaped in Hw; rewrite E in Hw; cbn in Hw.
  destruct (data X); [contradiction | discriminate].
Qed.

Lemma suffix_cons (x : event) (l' l : list event) :
  (exists evs, l' = evs ++ l) -> exists evs, x :: l' = evs ++ l.
Proof. intros (evs & ->); exists (x :: evs); reflexivity. Qed.

Lemma suffix_app (pre l' l : list event) :
  (exists evs, l' = evs ++ l) -> exists evs, pre ++ l' = evs ++ l.
Proof. intros (evs & ->); exists (pre ++ evs); apply app_assoc. Qed.

(** The loop only adds to the log. *)
Lemma loop_log_extends (bk : backend) (es : list Z) :
  forall s : state bk,
    ready s ->
    exists s' evs,
      for_each es (@epoch_body bk) s = Some (tt, s') /\
      log s' = evs ++ log s.
Proof.
  induction es as [|e es IH]; intros s Hr.
  - exists s, []; split; reflexivity.
  - destruct (epoch_body_spec bk s e Hr) as (real_imgs & _ & _ & He).
    cbv zeta in He.
    cbn [for_each]; unfold bind; rewrite He.
    match goal with
    | |- exists s' evs, for_each es _ ?s1 = _ /\ _ =>
        destruct (IH s1) as (s' & evs & Hrun & Hlog)
    end.
    { apply ready_frame; exact Hr. }
    cbn [log] in Hlog.
    assert (Hsuf : exists evs', log s' = evs' ++ log s).
    { rewrite Hlog; apply suffix_app, suffix_app.
      do 7 apply suffix_cons.
      exists []; reflexivity. }
    destruct Hsuf as (evs' & Hsuf).
    exists s', evs'; split; [exact Hrun | exact Hsuf].
Qed.

(** The run of the notebook on a well-shaped non-empty array of images of
    at least 8 pixels. *)
Lemma main_spec (bk : backend) (loaded : ndarray Z) (M H W : nat) :
  well_shaped loaded -> shape loaded = [M; H; W] ->
  (8 <= H * W)%nat ->
  data loaded <> [] ->
  exists X s0 s_loop,
    Cell1.normalise loaded = Some X /\
    cell2 bk X = Some s0 /\
    ready s0 /\
    trace s0 = [Compile D [D]; SetTrainable D false; Compile full_gan [G]] /\
    cell3 s0 = Some (tt, s_loop) /\
    ready s_loop /\
    X_train s_loop = X /\ defs s_loop = defs s0 /\
    Cell2.build [M; H; W] = Some (defs s0) /\
    count (is_train D) (log s_loop) = (2 * epochs)%nat /\
    count (is_train full_gan) (log s_loop) = epochs /\
    count is_predict (log s_loop) = epochs /\
    filter is_set_trainable (log s_loop) = [SetTrainable D false] /\
    main bk loaded = cell4 s_loop.
Proof.
  intros Hw Hsh H8 Hne.
  assert (Hrank : length (shape loaded) = 3%nat) by (rewrite Hsh; reflexivity).
  destruct (rank_3_shape loaded Hw Hrank Hne) as (M' & H' & W' & Hsh' & HM).
  rewrite Hsh in Hsh'; injection Hsh' as <- <- <-.
  destruct (normalise_some loaded Hne) as (X & Hn & HXs).
  rewrite Hsh in HXs.
  pose proof (Cell2Facts.build_eq [M; H; W] H W eq_refl eq_refl H8) as Hb.
  destruct (cell2_ready bk X _ ltac:(rewrite HXs; exact Hb))
    as (s0 & Hc & _ & Hr & Hd & HX & _ & _ & Htr);
    try (rewrite HXs; first [reflexivity | exact HM]).
  destruct (loop_spec bk (Python.range epochs) s0 Hr)
    as (s & Hrun & Hrs & HXl & Hdl & C1 & C2 & _ & C4 & C5 & _).
  assert (Hlog : log s0 =
                 [Compile full_gan [G]; SetTrainable D false; Compile D [D]]).
  { unfold trace in Htr.
    rewrite <- (rev_involutive (log s0)), Htr; reflexivity. }
  rewrite Hlog, range_length in *.
  exists X, s0, s.
  split; [exact Hn|]; split; [exact Hc|]; split; [exact Hr|].
  split; [exact Htr|]; split; [exact Hrun|]; split; [exact Hrs|].
  split; [congruence|]; split; [exact Hdl|].
  split; [rewrite Hd; exact Hb|].
  split; [rewrite C1; cbn; lia|].
  split; [rewrite C2; cbn; lia|].
  split; [rewrite C4; cbn; lia|].
  split; [rewrite C5; reflexivity|].
  unfold main; rewrite Hn, Hc; unfold bind, cell3.
  rewrite Hrun; reflexivity.
Qed.

(** X12: on every well-shaped non-empty data set of images of at least 8
    pixels the notebook runs through all four cells without raising.  The
    images it ends with are the nine outputs of [G], on the weights the
    loop left, for a noise array of shape (9, N); the calls it made are
    the three of cell 2, then 2 * 30000 training steps of [D], 30000 of
    [full_gan] and 30000 predictions in the loop, then one more noise draw
    and prediction; cell 4 changes no weight. *)
Theorem notebook_runs_to_the_samples
  (bk : backend) (loaded : ndarray Z) (M H W : nat) :
  well_shaped loaded ->
  shape loaded = [M; H; W] ->
  (8 <= H * W)%nat ->
  data loaded <> [] ->
  exists (s_loop s_end : state bk) (noise : ndarray float),
    main bk loaded =
    Some (mk_ndarray [9%nat; H; W]
            (concat
               (map (fun z => forward bk (Cell2.G_model (defs s_loop))
                                (G_weights s_loop) (data z))
                    (Keras.examples noise))),
          s_end) /\
    Cell2.build (shape loaded) = Some (defs s_loop) /\
    Cell2.noise_res (defs s_loop) = (H * W / 4)%nat /\
    shape noise = [9%nat; Cell2.noise_res (defs s_loop)] /\
    D_weights s_end = D_weights s_loop /\
    G_weights s_end = G_weights s_loop /\
    count (is_train D) (trace s_end) = (2 * epochs)%nat /\
    count (is_train full_gan) (trace s_end) = epochs /\
    count is_predict (trace s_end) = S epochs /\
    filter is_set_trainable (trace s_end) = [SetTrainable D false] /\
    exists calls,
      trace s_end =
      [Compile D [D]; SetTrainable D false; Compile full_gan [G]] ++
      calls ++
      [Normal [9%nat; Cell2.noise_res (defs s_loop)]; Predict G noise].
Proof.
  intros Hw Hsh H8 Hne.
  destruct (main_spec bk loaded M H W Hw Hsh H8 Hne)
    as (X & s0 & s_loop & _ & _ & Hr & Htr & Hrun & Hrl & _ & Hd & Hb
        & C1 & C2 & C4 & C5 & Hmain).
  destruct (loop_log_extends bk (Python.range epochs) s0 Hr)
    as (s' & evs & Hrun' & Hlog).
  unfold cell3 in Hrun; rewrite Hrun in Hrun'; injection Hrun' as <-.
  rewrite <- Hd in Hb.
  rewrite Hmain, (cell4_eq bk s_loop M H W Hb).
  eexists s_loop, _, _; split; [reflexivity|].
  split; [rewrite Hsh; exact Hb|].
  split.
  { destruct (Cell2Facts.build_inv3 M H W _ Hb) as (_ & E).
    rewrite E; reflexivity. }
  split; [reflexivity|].
  cbn [D_weights G_weights]; split; [reflexivity|]; split; [reflexivity|].
  unfold trace in *; cbn [log].
  rewrite !count_rev, filter_rev.
  unfold count in *; cbn [filter is_train is_predict is_set_trainable].
  rewrite C1, C2, C5; cbn [length rev app]; rewrite C4.
  do 4 (split; [reflexivity|]).
  exists (rev evs).
  cbn [rev]; rewrite Hlog, rev_app_distr, Htr.
  rewrite <- !app_assoc; reflexivity.
Qed.

Lemma images_well_shaped :
  well_shaped Sample.images /\ data Sample.images <> [].
Proof. split; [reflexivity | discriminate]. Qed.

Lemma notebook_runs_witness :
  data Sample.images <> [] /\
  exists (s_loop s_end : state Sample.counting) (noise : ndarray float),
    main Sample.counting Sample.images =
    Some (mk_ndarray [9; 2; 4]%nat
            (concat
               (map (fun z => forward Sample.counting
                                (Cell2.G_model (defs s_loop))
                                (G_weights s_loop) (data z))
                    (Keras.examples noise))),
          s_end) /\
    count (is_train D) (trace s_end) = (2 * epochs)%nat.
Proof.
  split; [exact (proj2 images_well_shaped)|].
  destruct (notebook_runs_to_the_samples Sample.counting Sample.images
              2 2 4 (proj1 images_well_shaped) eq_refl
              ltac:(cbn; lia) (proj2 images_well_shaped))
    as (s_loop & s_end & noise & Hm & _ & _ & _ & _ & _ & HD & _).
  exists s_loop, s_end, noise; split; [exact Hm | exact HD].
Defined.

(** X13: on a well-shaped array of rank at most 3 the notebook raises
    exactly when the array has no elements ([np.min] in cell 1), or fewer
    than three axes ([X_train.shape[2]] in cell 2), or images of fewer
    than 8 pixels (the [add] of a [Dense] layer in cell 2); a constant
    data set does not make it raise. *)
Theorem notebook_raises_iff_empty_flat_or_small
  (bk : backend) (loaded : ndarray Z) :
  well_shaped loaded ->
  (length (shape loaded) <= 3)%nat ->
  (main bk loaded = None <->
   data loaded = [] \/ (length (shape loaded) < 3)%nat \/
   (nth 1 (shape loaded) 0 * nth 2 (shape loaded) 0 < 8)%nat).
Proof.
  intros Hw Hrank; split.
  - intro Hnone.
    destruct (data loaded) as [|x xs] eqn:E; [left; reflexivity|].
    right.
    destruct (Nat.eq_dec (length (shape loaded)) 3) as [E3 | NE];
      [|left; lia].
    right.
    assert (Hne : data loaded <> []) by (rewrite E; discriminate).
    destruct (rank_3_shape loaded Hw E3 Hne) as (M & H & W & Hsh & _).
    rewrite Hsh; cbn [nth].
    destruct (Nat.lt_ge_cases (H * W) 8) as [Hlt | Hge]; [exact Hlt|].
    exfalso.
    destruct (main_spec bk loaded M H W Hw Hsh Hge Hne)
      as (_ & _ & s_loop & _ & _ & _ & _ & _ & Hrl & _ & _ & _ & _ & _ & _
          & _ & Hmain).
    rewrite Hmain, (cell4_ready bk s_loop Hrl) in Hnone; discriminate.
  - intros [Hempty | Hsmall]; unfold main.
    + unfold Cell1.normalise, Cell1.numerator, np_min.
      rewrite Hempty; reflexivity.
    + destruct (Cell1.normalise loaded) as [X|] eqn:En; [|reflexivity].
      assert (Hs : shape X = shape loaded).
      { unfold Cell1.normalise, Cell1.numerator, Cell1.denominator in En.
        destruct (np_min loaded); [|discriminate].
        destruct (np_max loaded); [|discriminate].
        injection En as <-; reflexivity. }
      rewrite (cell2_none bk X); [reflexivity|].
      rewrite Hs.
      destruct Hsmall as [Hflat | Hpix];
        [apply Cell2Facts.build_needs_rank_3; exact Hflat|].
      destruct (shape loaded) as [|M [|H [|W rest]]];
        try (apply Cell2Facts.build_needs_rank_3; cbn; lia).
      cbn [nth] in Hpix.
      apply (Cell2Facts.build_small (M :: H :: W :: rest) H W
               eq_refl eq_refl Hpix).
Qed.

Lemma notebook_raises_witness :
  (length (shape Sample.one_pixel) <= 3)%nat /\
  main Sample.counting Sample.one_pixel = None /\
  main Sample.counting Sample.grey <> None.
Proof.
  assert (H : (length (shape Sample.one_pixel) <= 3)%nat) by (cbn; lia).
  split; [exact H|].
  split.
  - apply (proj2 (notebook_raises_iff_empty_flat_or_small Sample.counting
                    Sample.one_pixel eq_refl H)).
    right; right; cbn; lia.
  - intro E.
    destruct (proj1 (notebook_raises_iff_empty_flat_or_small Sample.counting
                       Sample.grey eq_refl ltac:(cbn; lia)) E)
      as [H0 | [H1 | H2]].
    + discriminate.
    + cbn in H1; lia.
    + cbn in H2; lia.
Defined.

End MainExtras.
